(** * linnetTelegramBot: the domain logic and the dialogs of [main.py]

    A shallow embedding of the school bot's duty rotation, homework dates and
    expiry, schedule aliases, first-admin bootstrap, roster commands and the
    dialog handlers around them, with the properties its specification states.

    Conventions of the embedding.
    - A Python [str] is the list of its Unicode code points ([str]); literals
      are written as UTF-8 text behind [lit] and decoded by [u].
    - A [datetime.date] is its proleptic Gregorian ordinal ([toordinal()]),
      a [Z] between 1 and [MAXORDINAL]; the constructor, [timedelta] and the
      addition raise as Python's do ([mkdate], [timedelta_days], [date_add]).
    - An exception is a value [Raise e] of [result]; a handler that raises
      replies nothing and writes nothing afterwards.
    - [datetime.now().date()] is the argument [today] of whatever reads it.
    - The Unicode tables behind [str.lower], [str.isdigit], [int] and the
      parser of [date.fromisoformat] belong to the Python library: they are
      the fields of the class [PyLib], constrained only by what holds of them
      on Basic Latin and Cyrillic text; [basic_pylib] is an instance.
    - A JSON file that is missing or corrupt reads as its default
      ([JsonStore.load]), so a file is identified with the value it loads as. *)

From Stdlib Require Import String Ascii ZArith List Bool Lia.
Import ListNotations.
Open Scope Z_scope.

(* [length] is the one of lists throughout. *)
Abbreviation length := Datatypes.length (only parsing).

(* ================================================================== *)
(** ** Strings *)

Definition str := list Z.

Fixpoint utf8_decode (bs : list Z) : str :=
  match bs with
  | [] => []
  | b0 :: r0 =>
    if b0 <? 128 then b0 :: utf8_decode r0
    else match r0 with
      | [] => []
      | b1 :: r1 =>
        if b0 <? 224 then ((b0 mod 32) * 64 + b1 mod 64) :: utf8_decode r1
        else match r1 with
          | [] => []
          | b2 :: r2 =>
            if b0 <? 240
            then ((b0 mod 16) * 4096 + (b1 mod 64) * 64 + b2 mod 64) :: utf8_decode r2
            else match r2 with
              | [] => []
              | b3 :: r3 =>
                ((b0 mod 8) * 262144 + (b1 mod 64) * 4096 + (b2 mod 64) * 64 + b3 mod 64)
                  :: utf8_decode r3
              end
          end
      end
  end.

(** The code points of a literal. *)
Definition u (s : string) : str :=
  utf8_decode (map (fun a => Z.of_nat (nat_of_ascii a)) (list_ascii_of_string s)).
Arguments u s%_string.

(** A literal, decoded once where it is written. *)
Notation "'lit' s" := (ltac:(let v := eval vm_compute in (u s) in exact v))
  (at level 1, s at level 0, only parsing).

Fixpoint str_eqb (a b : str) : bool :=
  match a, b with
  | [], [] => true
  | x :: a', y :: b' => (x =? y) && str_eqb a' b'
  | _, _ => false
  end.

(** [x in xs] for a list of strings. *)
Definition str_in (x : str) (xs : list str) : bool := existsb (str_eqb x) xs.

(** [xs.index(x)], for an [x] that is in [xs]. *)
Fixpoint list_index (x : str) (xs : list str) : option Z :=
  match xs with
  | [] => None
  | y :: ys => if str_eqb x y then Some 0
               else match list_index x ys with Some i => Some (i + 1) | None => None end
  end.

(** [str.isspace] of one code point: the white space [str.strip()] removes. *)
Definition is_space (c : Z) : bool :=
  ((9 <=? c) && (c <=? 13)) || ((28 <=? c) && (c <=? 32)) || (c =? 133) || (c =? 160)
  || (c =? 5760) || ((8192 <=? c) && (c <=? 8202)) || (c =? 8232) || (c =? 8233)
  || (c =? 8239) || (c =? 8287) || (c =? 12288).

Fixpoint lstrip (s : str) : str :=
  match s with
  | [] => []
  | c :: s' => if is_space c then lstrip s' else s
  end.

Definition rstrip (s : str) : str := rev (lstrip (rev s)).

Definition strip (s : str) : str := rstrip (lstrip s).

Fixpoint startswith (s p : str) : bool :=
  match p, s with
  | [], _ => true
  | c :: p', d :: s' => (c =? d) && startswith s' p'
  | _ :: _, [] => false
  end.

Definition endswith (s p : str) : bool := startswith (rev s) (rev p).

(** [sep.join(parts)]. *)
Fixpoint join (sep : str) (parts : list str) : str :=
  match parts with
  | [] => []
  | [p] => p
  | p :: ps => p ++ sep ++ join sep ps
  end.

(** [str.lower] on Basic Latin and on the Cyrillic block U+0400..U+045F,
    where it maps code point by code point. *)
Definition lower_basic (c : Z) : Z :=
  if (65 <=? c) && (c <=? 90) then c + 32
  else if (1024 <=? c) && (c <=? 1039) then c + 80
  else if (1040 <=? c) && (c <=? 1071) then c + 32
  else c.

Definition basic_cp (c : Z) : bool :=
  ((0 <=? c) && (c <=? 127)) || ((1024 <=? c) && (c <=? 1119)).

(* ================================================================== *)
(** ** Exceptions *)

Inductive exn : Type := ValueError | OverflowError | IndexError.

Inductive result (A : Type) : Type :=
| Ok (a : A)
| Raise (e : exn).
Arguments Ok {A} a.
Arguments Raise {A} e.

Definition bind {A B : Type} (r : result A) (k : A -> result B) : result B :=
  match r with
  | Ok a => k a
  | Raise e => Raise e
  end.

Notation "x <- r ;; k" := (bind r (fun x => k))
  (at level 61, r at next level, right associativity).

(* ================================================================== *)
(** ** Dates *)

Definition date := Z.

Definition MAXORDINAL : Z := 3652059.   (* date.max.toordinal(), 9999-12-31 *)

Definition is_leap (y : Z) : bool :=
  (y mod 4 =? 0) && (negb (y mod 100 =? 0) || (y mod 400 =? 0)).

(** [_DAYS_IN_MONTH[m]] and [_DAYS_BEFORE_MONTH[m]], the leap day added. *)
Definition days_in_month_of (leap : bool) (m : Z) : Z :=
  if m =? 2 then (if leap then 29 else 28)
  else if (m =? 4) || (m =? 6) || (m =? 9) || (m =? 11) then 30
  else 31.

Definition days_before_month_of (leap : bool) (m : Z) : Z :=
  nth (Z.to_nat m) [0; 0; 31; 59; 90; 120; 151; 181; 212; 243; 273; 304; 334] 0
  + (if (2 <? m) && leap then 1 else 0).

Definition days_in_month (y m : Z) : Z := days_in_month_of (is_leap y) m.

Definition days_before_year (y : Z) : Z :=
  let p := y - 1 in p * 365 + p / 4 - p / 100 + p / 400.

Definition days_before_month (y m : Z) : Z := days_before_month_of (is_leap y) m.

Definition ymd2ord (y m d : Z) : Z :=
  days_before_year y + days_before_month y m + d.

Definition fits_c_int (x : Z) : bool := (- 2147483648 <=? x) && (x <=? 2147483647).

(** [date(year, month, day)]. *)
Definition mkdate (y m d : Z) : result date :=
  if negb (fits_c_int y && fits_c_int m && fits_c_int d) then Raise OverflowError
  else if negb ((1 <=? y) && (y <=? 9999)) then Raise ValueError
  else if negb ((1 <=? m) && (m <=? 12)) then Raise ValueError
  else if negb ((1 <=? d) && (d <=? days_in_month y m)) then Raise ValueError
  else Ok (ymd2ord y m d).

(** [date.fromordinal(n)] as (year, month, day). *)
Definition ord2ymd (n : Z) : Z * Z * Z :=
  let n := n - 1 in
  let n400 := n / 146097 in
  let n := n mod 146097 in
  let n100 := n / 36524 in
  let n := n mod 36524 in
  let n4 := n / 1461 in
  let n := n mod 1461 in
  let n1 := n / 365 in
  let n := n mod 365 in
  let year := n400 * 400 + 1 + n100 * 100 + n4 * 4 + n1 in
  if (n1 =? 4) || (n100 =? 4) then (year - 1, 12, 31)
  else
    let leapyear := (n1 =? 3) && (negb (n4 =? 24) || (n100 =? 3)) in
    let month := (n + 50) / 32 in
    let preceding := days_before_month_of leapyear month in
    if n <? preceding
    then (year, month - 1,
          n - (preceding - days_in_month_of leapyear (month - 1)) + 1)
    else (year, month, n - preceding + 1).

Definition date_year (d : date) : Z := fst (fst (ord2ymd d)).

(** [d.weekday()], Monday = 0. *)
Definition weekday (d : date) : Z := (d + 6) mod 7.

(** [timedelta(days=n)], as its number of days. *)
Definition timedelta_days (n : Z) : result Z :=
  if Z.abs n <=? 999999999 then Ok n else Raise OverflowError.

(** [d + timedelta(days=n)]. *)
Definition date_add (d : date) (n : Z) : result date :=
  k <- timedelta_days n ;;
  if (0 <? d + k) && (d + k <=? MAXORDINAL) then Ok (d + k) else Raise OverflowError.

Definition valid_date (d : date) : Prop := 1 <= d <= MAXORDINAL.

(* ================================================================== *)
(** ** The Python library's Unicode tables and ISO parser *)

(** The decimal digits of Basic Latin, with their values. *)
Definition ascii_digit (c : Z) : option Z :=
  if (48 <=? c) && (c <=? 57) then Some (c - 48) else None.

Class PyLib : Type := {
  (** [s.lower()] *)
  str_lower : str -> str;
  (** the digit value of a code point of category Nd: what [\d] matches and
      [int] reads *)
  ch_decimal : Z -> option Z;
  (** [c.isdigit()] *)
  ch_isdigit : Z -> bool;
  (** [date.fromisoformat(s)], [None] for [ValueError] *)
  fromisoformat : str -> option date;
  (** on Basic Latin and Cyrillic text, [lower] works code point by code point *)
  str_lower_basic :
    forall s, forallb basic_cp s = true -> str_lower s = map lower_basic s;
  (** the only decimal digits of those two blocks are 0 to 9 *)
  ch_decimal_basic :
    forall c, basic_cp c = true -> ch_decimal c = ascii_digit c;
  (** a decimal digit is a digit *)
  ch_decimal_isdigit :
    forall c v, ch_decimal c = Some v -> ch_isdigit c = true
}.

(* ================================================================== *)
(** ** Configuration and stored records *)

Record Config : Type := {
  homework_ttl_days : Z;
  school_start : date;
  holiday_periods : list (date * date)
}.

(** The defaults of the [Config] dataclass. *)
Definition default_config : Config := {|
  homework_ttl_days := 14;
  school_start := ymd2ord 2024 9 2;
  holiday_periods := [(ymd2ord 2024 6 1, ymd2ord 2024 8 31)]
|}.

(** [settings.json] as [load_settings] returns it: both fields present. *)
Record Settings : Type := {
  chat_id : option Z;      (* None for null *)
  admins : list str
}.

Definition settings_default : Settings := {| chat_id := None; admins := [] |}.

(** A Python [dict] with string keys, in insertion order. *)
Definition dict (V : Type) : Type := list (str * V).

Fixpoint dict_get {V : Type} (k : str) (d : dict V) : option V :=
  match d with
  | [] => None
  | (k', v) :: d' => if str_eqb k k' then Some v else dict_get k d'
  end.

(** [d[k] = v]: the value is replaced where the key stands, or the pair is
    added at the end. *)
Fixpoint dict_set {V : Type} (k : str) (v : V) (d : dict V) : dict V :=
  match d with
  | [] => [(k, v)]
  | (k', v') :: d' => if str_eqb k k' then (k', v) :: d' else (k', v') :: dict_set k v d'
  end.

Definition dict_keys {V : Type} (d : dict V) : list str := map fst d.

(** [l[i]] of a Python list. *)
Definition list_getitem {A : Type} (l : list A) (i : Z) : result A :=
  let n := Z.of_nat (length l) in
  let j := if i <? 0 then i + n else i in
  if (0 <=? j) && (j <? n)
  then match nth_error l (Z.to_nat j) with
       | Some x => Ok x
       | None => Raise IndexError
       end
  else Raise IndexError.

(* ================================================================== *)
(** ** Duty rotation: [is_weekend], [is_holiday], [cmd_duty],
       [duty_reminder_job] *)

Definition is_weekend (d : date) : bool := (weekday d =? 5) || (weekday d =? 6).

Definition is_holiday (d : date) (cfg : Config) : bool :=
  existsb (fun p => (fst p <=? d) && (d <=? snd p)) (holiday_periods cfg).

Definition MSG_ROSTER_EMPTY : str := lit "Список дежурных пуст.".
Definition MSG_YEAR_NOT_STARTED : str := lit "Учебный год ещё не начался.".
Definition MSG_NO_DUTY : str := lit "Сегодня дежурных нет! Отдыхайте 😎".
Definition MSG_DUTY_TODAY : str := lit "Сегодня дежурный: ".

(** The [while d <= today] loop of [cmd_duty]; [None] when the fuel runs out
    before the loop ends. *)
Fixpoint cmd_duty_loop (fuel : nat) (cfg : Config) (today d : date) (day_counter : Z)
  : option (result Z) :=
  match fuel with
  | O => None
  | S fuel' =>
    if d <=? today then
      let day_counter' :=
        if negb (is_weekend d) && negb (is_holiday d cfg)
        then day_counter + 1 else day_counter in
      match date_add d 1 with
      | Ok d' => cmd_duty_loop fuel' cfg today d' day_counter'
      | Raise e => Some (Raise e)
      end
    else Some (Ok day_counter)
  end.

(** [cmd_duty]: the text it replies with. *)
Definition cmd_duty (fuel : nat) (cfg : Config) (duty_list : list str) (today : date)
  : option (result str) :=
  match duty_list with
  | [] => Some (Ok MSG_ROSTER_EMPTY)
  | _ :: _ =>
    if today <? school_start cfg then Some (Ok MSG_YEAR_NOT_STARTED)
    else if is_weekend today || is_holiday today cfg then Some (Ok MSG_NO_DUTY)
    else
      match cmd_duty_loop fuel cfg today (school_start cfg) 0 with
      | None => None
      | Some (Raise e) => Some (Raise e)
      | Some (Ok day_counter) =>
        let idx := (day_counter - 1) mod Z.of_nat (length duty_list) in
        Some (entry <- list_getitem duty_list idx ;; Ok (MSG_DUTY_TODAY ++ entry))
      end
  end.

(** The same loop as [duty_reminder_job] writes it. *)
Fixpoint duty_reminder_job_loop (fuel : nat) (cfg : Config) (today d : date)
  (day_counter : Z) : option (result Z) :=
  match fuel with
  | O => None
  | S fuel' =>
    if d <=? today then
      let day_counter' :=
        if negb (is_weekend d) && negb (is_holiday d cfg)
        then day_counter + 1 else day_counter in
      match date_add d 1 with
      | Ok d' => duty_reminder_job_loop fuel' cfg today d' day_counter'
      | Raise e => Some (Raise e)
      end
    else Some (Ok day_counter)
  end.

(** [duty_reminder_job]: the message it sends, as (chat, text), or [None]
    when it sends nothing. *)
Definition duty_reminder_job (fuel : nat) (cfg : Config) (s : Settings)
  (duty_list : list str) (today : date) : option (result (option (Z * str))) :=
  match chat_id s with
  | None => Some (Ok None)
  | Some c =>
    if c =? 0 then Some (Ok None)
    else
      match duty_list with
      | [] => Some (Ok (Some (c, MSG_ROSTER_EMPTY)))
      | _ :: _ =>
        if today <? school_start cfg then Some (Ok (Some (c, MSG_YEAR_NOT_STARTED)))
        else if is_weekend today || is_holiday today cfg
        then Some (Ok (Some (c, MSG_NO_DUTY)))
        else
          match duty_reminder_job_loop fuel cfg today (school_start cfg) 0 with
          | None => None
          | Some (Raise e) => Some (Raise e)
          | Some (Ok day_counter) =>
            let idx := (day_counter - 1) mod Z.of_nat (length duty_list) in
            Some (entry <- list_getitem duty_list idx ;;
                  Ok (Some (c, MSG_DUTY_TODAY ++ entry)))
          end
      end
  end.

(** The message of the job, given what the command replies. *)
Definition announce (c : Z) (reply : option (result str))
  : option (result (option (Z * str))) :=
  match reply with
  | None => None
  | Some (Raise e) => Some (Raise e)
  | Some (Ok text) => Some (Ok (Some (c, text)))
  end.

(** *** The policy in the specification's words *)

(** A school day: neither a weekend day nor inside a holiday interval. *)
Definition spec_is_school_day (cfg : Config) (d : date) : bool :=
  negb (is_weekend d) && negb (is_holiday d cfg).

(** The dates from [a] through [b], both included. *)
Definition dates_from_through (a b : date) : list date :=
  map (fun i => a + Z.of_nat i) (seq 0 (Z.to_nat (b + 1 - a))).

(** schoolDayIndex: the inclusive count of school days from the school start
    through the date. *)
Definition spec_schoolDayIndex (cfg : Config) (d : date) : Z :=
  Z.of_nat (length (filter (spec_is_school_day cfg)
                           (dates_from_through (school_start cfg) d))).

(** todaysDutyIndex: (schoolDayCount - 1) mod rosterLength. *)
Definition spec_todaysDutyIndex (schoolDayCount rosterLength : Z) : Z :=
  (schoolDayCount - 1) mod rosterLength.

(** The four steps of the duty resolution policy. *)
Definition spec_duty_policy (cfg : Config) (roster : list str) (d : date) : str :=
  if (length roster =? 0)%nat then MSG_ROSTER_EMPTY
  else if d <? school_start cfg then MSG_YEAR_NOT_STARTED
  else if negb (spec_is_school_day cfg d) then MSG_NO_DUTY
  else MSG_DUTY_TODAY
       ++ nth (Z.to_nat (spec_todaysDutyIndex (spec_schoolDayIndex cfg d)
                                              (Z.of_nat (length roster))))
              roster [].

(* ================================================================== *)
(** ** Homework: dates, expiry, sweep *)

Definition DOW_SHORT : list str :=
  [lit "пн"; lit "вт"; lit "ср"; lit "чт"; lit "пт"; lit "сб"; lit "вс"].

Definition DOW_FULL : list str :=
  [lit "понедельник"; lit "вторник"; lit "среда"; lit "четверг"; lit "пятница";
   lit "суббота"; lit "воскресенье"].

Definition DOW_CANON : list str :=
  [lit "Понедельник"; lit "Вторник"; lit "Среда"; lit "Четверг"; lit "Пятница"].

Definition RU_MONTHS : dict Z :=
  [(lit "январь", 1); (lit "февраль", 2); (lit "март", 3); (lit "апрель", 4); (lit "май", 5);
   (lit "июнь", 6); (lit "июль", 7); (lit "август", 8); (lit "сентябрь", 9);
   (lit "октябрь", 10); (lit "ноябрь", 11); (lit "декабрь", 12);
   (lit "января", 1); (lit "февраля", 2); (lit "марта", 3); (lit "апреля", 4); (lit "мая", 5);
   (lit "июня", 6); (lit "июля", 7); (lit "августа", 8); (lit "сентября", 9);
   (lit "октября", 10); (lit "ноября", 11); (lit "декабря", 12)].

Definition TOMORROW : str := lit "завтра".

(** [str(d)], the ISO form [YYYY-MM-DD] of a date. *)
Definition date_isoformat (d : date) : str :=
  let '(y, m, dd) := ord2ymd d in
  [48 + y / 1000 mod 10; 48 + y / 100 mod 10; 48 + y / 10 mod 10; 48 + y mod 10; 45;
   48 + m / 10 mod 10; 48 + m mod 10; 45; 48 + dd / 10 mod 10; 48 + dd mod 10].

(** [next_weekday(from_date, target_weekday)]. *)
Definition next_weekday (from_date : date) (target_weekday : Z) : result date :=
  let delta := (target_weekday - weekday from_date + 7) mod 7 in
  let delta := if delta =? 0 then 7 else delta in
  date_add from_date delta.

(** [expiry_of_homework(d, cfg)]. *)
Definition expiry_of_homework (d : date) (cfg : Config) : result date :=
  date_add d (homework_ttl_days cfg).

(** What [cmd_homework] replies, its dates and texts left unrendered. *)
Inductive HomeworkReply : Type :=
| HwUsage                                        (* "Формат: /dz 25.01 | ..." *)
| HwBadDate                                      (* "Не понял дату. Пример: /dz 25.01" *)
| HwSaved (target exp : date)                    (* "Сохранил на ... Удалится после ..." *)
| HwShow (target : date) (task : str) (exp : date)   (* "Домашка на ...: ..." *)
| HwNone (target exp : date).                    (* "На ... домашки нет. ..." *)

Section Homework.
Context {py : PyLib}.

(** The value [int] reads from a run of decimal digits. *)
Definition decimal_value (cs : str) : option Z :=
  fold_left (fun acc c =>
               match acc, ch_decimal c with
               | Some a, Some v => Some (a * 10 + v)
               | _, _ => None
               end) cs (Some 0).

(** [s.isdigit()]. *)
Definition isdigit (s : str) : bool :=
  match s with
  | [] => false
  | _ :: _ => forallb ch_isdigit s
  end.

(** [int(s)] for an [s] that passed [isdigit]: a digit that is no decimal
    digit raises. *)
Definition int_of_digits (s : str) : result Z :=
  match s with
  | [] => Raise ValueError
  | _ :: _ => match decimal_value s with
              | Some v => Ok v
              | None => Raise ValueError
              end
  end.

Definition is_date_sep (c : Z) : bool := (c =? 46) || (c =? 45) || (c =? 47).

(** The rest of the pattern after the first group: a separator of [.-/], then
    one or two [\d] up to the end of the token. *)
Definition match_sep_digits (t : str) : option Z :=
  match t with
  | [s; d1] => if is_date_sep s then decimal_value [d1] else None
  | [s; d1; d2] => if is_date_sep s then decimal_value [d1; d2] else None
  | _ => None
  end.

(** The pattern with a first group of one digit. *)
Definition match_digit_sep_digits (t : str) : option (Z * Z) :=
  match t with
  | c1 :: rest =>
    match decimal_value [c1], match_sep_digits rest with
    | Some dd, Some mm => Some (dd, mm)
    | _, _ => None
    end
  | [] => None
  end.

(** [_parse_numeric_date_token]: [re.fullmatch] of
    [(\d{1,2})[.\-/](\d{1,2})] on the stripped token; the first group is
    greedy, so two digits are tried before one. *)
Definition _parse_numeric_date_token (token : str) : option (Z * Z) :=
  match strip token with
  | c1 :: c2 :: rest =>
    match decimal_value [c1; c2], match_sep_digits rest with
    | Some dd, Some mm => Some (dd, mm)
    | _, _ => match_digit_sep_digits (c1 :: c2 :: rest)
    end
  | t => match_digit_sep_digits t
  end.

(** [parse_date_and_consumed(args)]; [Ok None] is the [None] it returns. *)
Definition parse_date_and_consumed (today : date) (args : list str)
  : result (option (date * Z)) :=
  match args with
  | [] => Ok None
  | arg0 :: rest =>
    let a0 := strip (str_lower arg0) in
    if str_eqb a0 TOMORROW then
      d <- date_add today 1 ;; Ok (Some (d, 1))
    else if str_in a0 DOW_SHORT then
      i <- match list_index a0 DOW_SHORT with Some i => Ok i | None => Raise ValueError end ;;
      d <- next_weekday today i ;; Ok (Some (d, 1))
    else if str_in a0 DOW_FULL then
      i <- match list_index a0 DOW_FULL with Some i => Ok i | None => Raise ValueError end ;;
      d <- next_weekday today i ;; Ok (Some (d, 1))
    else
      match _parse_numeric_date_token a0 with
      | Some (dd, mm) =>
        d <- mkdate (date_year today) mm dd ;; Ok (Some (d, 1))
      | None =>
        match rest with
        | arg1 :: _ =>
          if isdigit arg0 && isdigit arg1 then
            dd <- int_of_digits arg0 ;;
            mm <- int_of_digits arg1 ;;
            d <- mkdate (date_year today) mm dd ;; Ok (Some (d, 2))
          else if isdigit arg0 then
            dd <- int_of_digits arg0 ;;
            let mword := strip (str_lower arg1) in
            match dict_get mword RU_MONTHS with
            | Some mm => d <- mkdate (date_year today) mm dd ;; Ok (Some (d, 2))
            | None => Ok None
            end
          else Ok None
        | [] => Ok None
        end
      end
  end.

(** The loop of [cleanup_homework_in_memory] over [hw.items()]. *)
Fixpoint cleanup_loop (items : list (str * str)) (cfg : Config) (today : date)
  (cleaned : dict str) (removed : Z) : result (dict str * Z) :=
  match items with
  | [] => Ok (cleaned, removed)
  | (k, v) :: items' =>
    match fromisoformat k with
    | None => cleanup_loop items' cfg today (dict_set k v cleaned) removed
    | Some d =>
      e <- expiry_of_homework d cfg ;;
      if e <? today
      then cleanup_loop items' cfg today cleaned (removed + 1)
      else cleanup_loop items' cfg today (dict_set k v cleaned) removed
    end
  end.

(** [cleanup_homework_in_memory(hw, cfg)]. *)
Definition cleanup_homework_in_memory (hw : dict str) (cfg : Config) (today : date)
  : result (dict str * Z) :=
  cleanup_loop hw cfg today [] 0.

(** [load_homework_clean(cfg)] on the stored map: the map it returns and the
    map then stored. *)
Definition load_homework_clean (cfg : Config) (today : date) (file : dict str)
  : result (dict str * dict str) :=
  r <- cleanup_homework_in_memory file cfg today ;;
  let '(hw2, removed) := r in
  Ok (hw2, if removed =? 0 then file else hw2).

(** [cmd_homework]: the stored map afterwards, and the reply or the exception
    the handler ends with. *)
Definition cmd_homework (cfg : Config) (today : date) (file : dict str)
  (args : list str) : dict str * result HomeworkReply :=
  match load_homework_clean cfg today file with
  | Raise e => (file, Raise e)
  | Ok (hw, file1) =>
    match args with
    | [] => (file1, Ok HwUsage)
    | _ :: _ =>
      match parse_date_and_consumed today args with
      | Raise e => (file1, Raise e)
      | Ok None => (file1, Ok HwBadDate)
      | Ok (Some (target, consumed)) =>
        let rest := skipn (Z.to_nat consumed) args in
        match rest with
        | _ :: _ =>
          let task := strip (join (lit " ") rest) in
          let hw' := dict_set (date_isoformat target) task hw in
          (hw', exp <- expiry_of_homework target cfg ;; Ok (HwSaved target exp))
        | [] =>
          match dict_get (date_isoformat target) hw with
          | Some (c :: task) =>
            (file1, exp <- expiry_of_homework target cfg ;;
                    Ok (HwShow target (c :: task) exp))
          | _ =>
            (file1, exp <- expiry_of_homework target cfg ;; Ok (HwNone target exp))
          end
        end
      end
    end
  end.

(** *** Predicates of the statements below *)

(** The expiry of an entry is a date: [timedelta(days=ttl)] exists and
    [d + ttl] is between [date.min] and [date.max]. *)
Definition expiry_in_range (cfg : Config) (kv : str * str) : Prop :=
  match fromisoformat (fst kv) with
  | None => True
  | Some d => Z.abs (homework_ttl_days cfg) <= 999999999
              /\ 0 < d + homework_ttl_days cfg <= MAXORDINAL
  end.

(** What the loop keeps: an entry that does not parse, or one whose expiry
    the code computes and finds not before today. *)
Definition kept_by_code (cfg : Config) (today : date) (k : str) : Prop :=
  match fromisoformat k with
  | None => True
  | Some d => exists e, expiry_of_homework d cfg = Ok e /\ (e <? today) = false
  end.

(** [s] is a non-empty run of decimal digits and [v] is the number it
    writes. *)
Definition all_decimal (s : str) (v : Z) : Prop :=
  s <> [] /\ decimal_value s = Some v.

(** [a0] has the form D.M, D-M or D/M: one or two decimal digits writing
    [dd], one of the three separators, one or two decimal digits writing
    [mm]. *)
Definition numeric_token (a0 : str) (dd mm : Z) : Prop :=
  exists (D M : str) (sep : Z),
    a0 = D ++ sep :: M /\ is_date_sep sep = true
    /\ (1 <= length D <= 2)%nat /\ (1 <= length M <= 2)%nat
    /\ decimal_value D = Some dd /\ decimal_value M = Some mm.

(** [a0] is the short or the full name of the weekday numbered [i],
    Monday = 0. *)
Definition weekday_name (a0 : str) (i : Z) : Prop :=
  0 <= i < 7
  /\ (nth (Z.to_nat i) DOW_SHORT [] = a0 \/ nth (Z.to_nat i) DOW_FULL [] = a0).

(** Neither of the word rules (1) and (2) matches [a0]. *)
Definition no_word_rule (a0 : str) : Prop :=
  a0 <> TOMORROW /\ forall i, ~ weekday_name a0 i.

(** Rule (3) does not match [a0]. *)
Definition no_token_rule (a0 : str) : Prop :=
  forall dd mm, ~ numeric_token a0 dd mm.

End Homework.

(** *** The sweep in the specification's words *)

(** An entry is retained iff its key does not parse as a date, or it parses
    as [d] and today <= d + ttl. *)
Definition spec_retained {py : PyLib} (ttl : Z) (today : date) (kv : str * str) : bool :=
  match fromisoformat (fst kv) with
  | None => true
  | Some d => today <=? d + ttl
  end.

(* ================================================================== *)
(** ** Identity and the first admin *)

Inductive ChatType : Type := Private | Group | Supergroup | Channel.

(** What the handlers read of an [Update]. *)
Record Update : Type := {
  effective_chat : option ChatType;
  effective_username : option str;     (* None: no user, or a user without one *)
  message_text : str
}.

Definition is_private (update : Update) : bool :=
  match effective_chat update with
  | Some Private => true
  | _ => false
  end.

(** [username_tag]: the empty string for a user without a handle. *)
Definition username_tag (update : Update) : str :=
  match effective_username update with
  | None => []
  | Some [] => []
  | Some (c :: name) => lit "@" ++ c :: name
  end.

(** [ensure_first_admin_if_empty]: the settings stored afterwards. *)
Definition ensure_first_admin_if_empty (update : Update) (file : Settings) : Settings :=
  if negb (is_private update) then file
  else
    let s := file in
    match admins s with
    | _ :: _ => file
    | [] =>
      match username_tag update with
      | [] => file
      | c :: tag => {| chat_id := chat_id s; admins := [c :: tag] |}
      end
    end.

Definition is_admin (update : Update) (file : Settings) : bool :=
  str_in (username_tag update) (admins file).

(* ================================================================== *)
(** ** The stored records and a session *)

Record Store : Type := {
  settings_file : Settings;
  schedule_file : dict str;
  duty_file : list str;
  homework_file : dict str;
  jokes_file : list str
}.

(** [context.user_data]: the scratch keys the dialogs use, [None] for a key
    that is not set. *)
Record UserData : Type := {
  students_added : option Z;
  schedule_step : option nat;
  schedule_buf : option (dict str);
  si_chat_id : option Z;
  si_photo_path : option str
}.

Definition user_data_empty : UserData := {|
  students_added := None; schedule_step := None; schedule_buf := None;
  si_chat_id := None; si_photo_path := None
|}.

(** Whether a session holds no scratch data. *)
Definition user_data_is_empty (ud : UserData) : bool :=
  match students_added ud, schedule_step ud, schedule_buf ud,
        si_chat_id ud, si_photo_path ud with
  | None, None, None, None, None => true
  | _, _, _, _, _ => false
  end.

(** The states of the menu conversation, and of the photo conversation. *)
Definition ST_MENU : Z := 0.
Definition ST_SET_CHAT : Z := 1.
Definition ST_ADD_ADMIN : Z := 2.
Definition ST_ADD_STUDENTS : Z := 3.
Definition ST_EDIT_SCHEDULE : Z := 4.
Definition ST_JOKE_ADD : Z := 5.
Definition SI_CHAT : Z := 0.
Definition SI_PHOTO : Z := 1.
Definition SI_TEXT : Z := 2.

(** What a dialog handler leaves behind: the state it returns, the session,
    the stored records and the messages sent to chats. The replies to the
    user are not part of it. *)
Record Outcome : Type := {
  out_state : Z;
  out_data : UserData;
  out_store : Store;
  out_sent : list (Z * str)
}.

(* ================================================================== *)
(** ** Schedule aliases and the schedule dialog *)

Definition ALIAS_MAPPING : dict (list str) :=
  [(lit "Понедельник", [lit "пн"; lit "понедельнк"; lit "mon"; lit "mn"]);
   (lit "Вторник", [lit "вт"; lit "tue"; lit "tu"]);
   (lit "Среда", [lit "ср"; lit "wed"; lit "we"]);
   (lit "Четверг", [lit "чт"; lit "thu"; lit "th"]);
   (lit "Пятница", [lit "пт"; lit "fri"; lit "fr"])].

Section Schedule.
Context {py : PyLib}.

(** [build_schedule_aliases(day_canon)]. *)
Definition build_schedule_aliases (day_canon : str) : list str :=
  let day_lower := str_lower day_canon in
  let extra := match dict_get day_canon ALIAS_MAPPING with
               | Some l => l
               | None => []
               end in
  day_canon :: day_lower :: extra.

(** [normalize_day_query(raw)]. *)
Definition normalize_day_query (raw : str) : str := str_lower (strip raw).

(** The two loops that fill [schedule_out] from the draft. *)
Definition schedule_out_of (buf : dict str) : dict str :=
  fold_left (fun out (kv : str * str) =>
               fold_left (fun out' a => dict_set (str_lower a) (snd kv) out')
                         (build_schedule_aliases (fst kv)) out)
            buf [].

(** The branch of [menu_router] for the button that opens the schedule
    dialog: what it assigns in the session before returning
    [ST_EDIT_SCHEDULE]. *)
Definition menu_router_edit_schedule (ud : UserData) : UserData :=
  {| students_added := students_added ud;
     schedule_step := Some 0%nat;
     schedule_buf := Some [];
     si_chat_id := si_chat_id ud;
     si_photo_path := si_photo_path ud |}.

(** [st_edit_schedule]. *)
Definition st_edit_schedule (update : Update) (ud : UserData) (st : Store) : Outcome :=
  let step := match schedule_step ud with Some n => n | None => 0%nat end in
  let buf := match schedule_buf ud with Some b => b | None => [] end in
  if (length DOW_CANON <=? step)%nat then
    {| out_state := ST_MENU; out_data := ud; out_store := st; out_sent := [] |}
  else
    let day := nth step DOW_CANON [] in
    let buf := dict_set day (strip (message_text update)) buf in
    let step := S step in
    let ud' := {| students_added := students_added ud;
                  schedule_step := Some step;
                  schedule_buf := Some buf;
                  si_chat_id := si_chat_id ud;
                  si_photo_path := si_photo_path ud |} in
    if (step <? length DOW_CANON)%nat then
      {| out_state := ST_EDIT_SCHEDULE; out_data := ud'; out_store := st; out_sent := [] |}
    else
      {| out_state := ST_MENU; out_data := ud';
         out_store := {| settings_file := settings_file st;
                         schedule_file := schedule_out_of buf;
                         duty_file := duty_file st;
                         homework_file := homework_file st;
                         jokes_file := jokes_file st |};
         out_sent := [] |}.

(** A text message carrying [t], from the user [admin] in a private chat. *)
Definition text_update (t : str) : Update :=
  {| effective_chat := Some Private; effective_username := Some (lit "admin");
     message_text := t |}.

(** One more message [t] handled by [handler] in the session and store an
    earlier handler left. *)
Definition then_text (handler : Update -> UserData -> Store -> Outcome) (t : str)
  (o : Outcome) : Outcome :=
  let o' := handler (text_update t) (out_data o) (out_store o) in
  {| out_state := out_state o'; out_data := out_data o'; out_store := out_store o';
     out_sent := out_sent o ++ out_sent o' |}.

(** The schedule dialog entered from the menu. *)
Definition schedule_dialog_entered (ud : UserData) (st : Store) : Outcome :=
  {| out_state := ST_EDIT_SCHEDULE; out_data := menu_router_edit_schedule ud;
     out_store := st; out_sent := [] |}.

(** The whole dialog: entered from the menu, then five texts, Monday to
    Friday. *)
Definition schedule_dialog (t1 t2 t3 t4 t5 : str) (ud : UserData) (st : Store)
  : Outcome :=
  then_text st_edit_schedule t5
    (then_text st_edit_schedule t4
       (then_text st_edit_schedule t3
          (then_text st_edit_schedule t2
             (then_text st_edit_schedule t1 (schedule_dialog_entered ud st))))).

End Schedule.

(** [cmd_cancel]. *)
Definition cmd_cancel (update : Update) (ud : UserData) (st : Store) : Outcome :=
  {| out_state := ST_MENU; out_data := ud; out_store := st; out_sent := [] |}.

(* ================================================================== *)
(** ** The duty roster: handles, entries, the onboarding dialog, [/d_set] *)

Definition END_WORDS : list str := [lit "end"; lit "все"; lit "стоп"].

(** One character of the class [[A-Za-z0-9_]]. *)
Definition is_username_char (c : Z) : bool :=
  ((65 <=? c) && (c <=? 90)) || ((97 <=? c) && (c <=? 122))
  || ((48 <=? c) && (c <=? 57)) || (c =? 95).

(** [re.fullmatch(r"[A-Za-z0-9_]{3,64}", s)]. *)
Definition username_re (s : str) : bool :=
  (3 <=? length s)%nat && (length s <=? 64)%nat && forallb is_username_char s.

(** [duty_entry_from_username(u)]. *)
Definition duty_entry_from_username (uname : str) : str :=
  let nick := tl uname in
  nick ++ lit ", " ++ uname.

Definition is_list_sep (c : Z) : bool := (c =? 59) || (c =? 10) || (c =? 44).

(** [re.split(r"[;\n,]+", raw)]: [cur] is the piece read so far, reversed,
    and [in_sep] says that the last character was a separator. *)
Fixpoint re_split_seps (raw : str) (cur : str) (in_sep : bool) : list str :=
  match raw with
  | [] => [rev cur]
  | c :: raw' =>
    if is_list_sep c then
      if in_sep then re_split_seps raw' cur true
      else rev cur :: re_split_seps raw' [] true
    else re_split_seps raw' (c :: cur) false
  end.

(** What [/d_set] replies. *)
Inductive DSetReply : Type :=
| DSetAdminsOnly | DSetFormats | DSetListEmpty | DSetListing (l : list str)
| DSetAddFormat | DSetAdded (entry : str)
| DSetRemoveFormat | DSetNotFound | DSetRemoved
| DSetSetEmpty | DSetUpdated (n : nat) | DSetUnknown.

Section Roster.
Context {py : PyLib}.

(** [normalize_username_input(t)]. *)
Definition normalize_username_input (t : str) : option str :=
  let s := strip t in
  match s with
  | [] => None
  | _ :: _ =>
    if str_in (str_lower s) END_WORDS then Some (str_lower s)
    else
      let s := if startswith s (lit "@") then tl s else s in
      let s := strip s in
      if negb (username_re s) then None
      else Some (lit "@" ++ s)
  end.

(** [st_add_students]. *)
Definition st_add_students (update : Update) (ud : UserData) (st : Store) : Outcome :=
  let t := strip (message_text update) in
  match normalize_username_input t with
  | None =>
    {| out_state := ST_ADD_STUDENTS; out_data := ud; out_store := st; out_sent := [] |}
  | Some uname =>
    if str_in uname END_WORDS then
      {| out_state := ST_MENU; out_data := ud; out_store := st; out_sent := [] |}
    else
      let duty_list := duty_file st in
      let entry := duty_entry_from_username uname in
      let duty_list := duty_list ++ [entry] in
      {| out_state := ST_ADD_STUDENTS;
         out_data := {| students_added :=
                          Some (match students_added ud with Some n => n | None => 0 end + 1);
                        schedule_step := schedule_step ud;
                        schedule_buf := schedule_buf ud;
                        si_chat_id := si_chat_id ud;
                        si_photo_path := si_photo_path ud |};
         out_store := {| settings_file := settings_file st;
                         schedule_file := schedule_file st;
                         duty_file := duty_list;
                         homework_file := homework_file st;
                         jokes_file := jokes_file st |};
         out_sent := [] |}
  end.

Definition with_duty (st : Store) (duty_list : list str) : Store :=
  {| settings_file := settings_file st;
     schedule_file := schedule_file st;
     duty_file := duty_list;
     homework_file := homework_file st;
     jokes_file := jokes_file st |}.

(** The entries [/d_set set] builds from the parts of its argument. *)
Definition d_set_new_list (parts : list str) : list str :=
  fold_left (fun new_list p =>
               match normalize_username_input p with
               | Some uname =>
                 if negb (str_in uname END_WORDS)
                 then new_list ++ [duty_entry_from_username uname]
                 else new_list
               | None => new_list
               end) parts [].

(** [cmd_d_set]: its reply and the stored records afterwards. *)
Definition cmd_d_set (update : Update) (args : list str) (st0 : Store)
  : DSetReply * Store :=
  let st := {| settings_file := ensure_first_admin_if_empty update (settings_file st0);
               schedule_file := schedule_file st0;
               duty_file := duty_file st0;
               homework_file := homework_file st0;
               jokes_file := jokes_file st0 |} in
  if negb (is_admin update (settings_file st)) then (DSetAdminsOnly, st)
  else
    match args with
    | [] => (DSetFormats, st)
    | arg0 :: args1 =>
      let action := str_lower arg0 in
      let duty_list := duty_file st in
      if str_eqb action (lit "list") then
        match duty_list with
        | [] => (DSetListEmpty, st)
        | _ :: _ => (DSetListing duty_list, st)
        end
      else if str_eqb action (lit "add") then
        match normalize_username_input (join (lit " ") args1) with
        | None => (DSetAddFormat, st)
        | Some uname =>
          if str_in uname END_WORDS then (DSetAddFormat, st)
          else
            let entry := duty_entry_from_username uname in
            (DSetAdded entry, with_duty st (duty_list ++ [entry]))
        end
      else if str_eqb action (lit "remove") then
        match normalize_username_input (join (lit " ") args1) with
        | None => (DSetRemoveFormat, st)
        | Some uname =>
          if str_in uname END_WORDS then (DSetRemoveFormat, st)
          else
            let before := length duty_list in
            let duty_list :=
              filter (fun x => negb (endswith x (lit ", " ++ uname))) duty_list in
            if (length duty_list =? before)%nat then (DSetNotFound, st)
            else (DSetRemoved, with_duty st duty_list)
        end
      else if str_eqb action (lit "set") then
        let raw := strip (join (lit " ") args1) in
        let parts := re_split_seps raw [] false in
        let new_list := d_set_new_list parts in
        match new_list with
        | [] => (DSetSetEmpty, st)
        | _ :: _ => (DSetUpdated (length new_list), with_duty st new_list)
        end
      else (DSetUnknown, st)
    end.

(** The branch of [menu_router] for the button that opens the onboarding
    dialog: what it assigns in the session before returning
    [ST_ADD_STUDENTS]. *)
Definition menu_router_add_students (ud : UserData) : UserData :=
  {| students_added := Some 0;
     schedule_step := schedule_step ud;
     schedule_buf := schedule_buf ud;
     si_chat_id := si_chat_id ud;
     si_photo_path := si_photo_path ud |}.

End Roster.

(** The shape of a roster entry: [name, @name] with [name] matching
    [[A-Za-z0-9_]{3,64}]. *)
Definition entry_shape (e : str) : Prop :=
  exists name : str, username_re name = true /\ e = name ++ lit ", @" ++ name.

(** The handle an input carries: the input trimmed, one leading [@] dropped,
    trimmed again. *)
Definition handle_of (t : str) : str :=
  let s := strip t in
  strip (if startswith s (lit "@") then tl s else s).

(** How one roster operation may change the roster: not at all; by one new
    entry of the shape at the end; by replacing it with a non-empty list of
    entries of the shape; or by deleting precisely the entries that end with
    [, @name]. *)
Inductive roster_step (old : list str) : list str -> Prop :=
| roster_same : roster_step old old
| roster_add (e : str) : entry_shape e -> roster_step old (old ++ [e])
| roster_set (l : list str) : l <> [] -> Forall entry_shape l -> roster_step old l
| roster_remove (name : str) :
    username_re name = true ->
    roster_step old (filter (fun x => negb (endswith x (lit ", @" ++ name))) old).

(* ================================================================== *)
(** ** An instance of the library tables *)

(** ISO dates in the one form every Python version reads: [YYYY-MM-DD]. *)
Definition iso_yyyy_mm_dd (s : str) : option date :=
  match s with
  | [y1; y2; y3; y4; h1; m1; m2; h2; d1; d2] =>
    match ascii_digit y1, ascii_digit y2, ascii_digit y3, ascii_digit y4,
          ascii_digit m1, ascii_digit m2, ascii_digit d1, ascii_digit d2 with
    | Some a, Some b, Some c, Some d, Some e, Some f, Some g, Some h =>
      if (h1 =? 45) && (h2 =? 45) then
        match mkdate (a * 1000 + b * 100 + c * 10 + d) (e * 10 + f) (g * 10 + h) with
        | Ok x => Some x
        | Raise _ => None
        end
      else None
    | _, _, _, _, _, _, _, _ => None
    end
  | _ => None
  end.

(** The tables cut down to Basic Latin and Cyrillic. *)
#[export] Instance basic_pylib : PyLib.
Proof.
  refine {| str_lower := map lower_basic;
            ch_decimal := ascii_digit;
            ch_isdigit := fun c => (48 <=? c) && (c <=? 57);
            fromisoformat := iso_yyyy_mm_dd |}.
  - reflexivity.
  - reflexivity.
  - intros c v. unfold ascii_digit.
    destruct ((48 <=? c) && (c <=? 57)); [reflexivity | discriminate].
Defined.

(* ================================================================== *)
(** ** Chat ids, outgoing text, the admin set *)

(** [normalize_text_for_send(text)], that is [text.replace("\\n", "\n")]:
    from the left, each backslash followed by [n] becomes a line feed. *)
Fixpoint normalize_text_for_send (text : str) : str :=
  match text with
  | [] => []
  | c :: rest =>
    match rest with
    | d :: rest' =>
      if (c =? 92) && (d =? 110) then 10 :: normalize_text_for_send rest'
      else c :: normalize_text_for_send rest
    | [] => [c]
    end
  end.

(** Whether a backslash followed by [n] stands somewhere in [s]. *)
Fixpoint has_escape (s : str) : bool :=
  match s with
  | [] => false
  | c :: rest =>
    match rest with
    | d :: _ => ((c =? 92) && (d =? 110)) || has_escape rest
    | [] => false
    end
  end.

(** The order of [str]: by code points, a proper prefix first. *)
Fixpoint str_compare (a b : str) : comparison :=
  match a, b with
  | [], [] => Eq
  | [], _ :: _ => Lt
  | _ :: _, [] => Gt
  | x :: a', y :: b' =>
    match x ?= y with
    | Eq => str_compare a' b'
    | Lt => Lt
    | Gt => Gt
    end
  end.

Definition str_lt (a b : str) : Prop := str_compare a b = Lt.

(** [x] put at its place in a sorted list without repetitions. *)
Fixpoint set_insert (x : str) (l : list str) : list str :=
  match l with
  | [] => [x]
  | y :: l' =>
    match str_compare x y with
    | Lt => x :: l
    | Eq => l
    | Gt => y :: set_insert x l'
    end
  end.

(** [sorted(set(l))]. *)
Definition sorted_set (l : list str) : list str := fold_right set_insert [] l.

(** What the admin tools reply. *)
Inductive ToolReply : Type :=
| TrSilent          (* no reply at all *)
| TrNeedChat        (* "Сначала укажи чат через меню: ..." *)
| TrFormat          (* "Формат: /s <сообщение в HTML> ..." *)
| TrDone.           (* "Отправлено ✅" / "Ок ✅" *)

Definition MSG_TEST : str := lit "Тестовое сообщение ✅".

Definition with_settings (st : Store) (s : Settings) : Store :=
  {| settings_file := s;
     schedule_file := schedule_file st;
     duty_file := duty_file st;
     homework_file := homework_file st;
     jokes_file := jokes_file st |}.

Definition with_homework (st : Store) (hw : dict str) : Store :=
  {| settings_file := settings_file st;
     schedule_file := schedule_file st;
     duty_file := duty_file st;
     homework_file := hw;
     jokes_file := jokes_file st |}.

Definition with_jokes (st : Store) (jokes : list str) : Store :=
  {| settings_file := settings_file st;
     schedule_file := schedule_file st;
     duty_file := duty_file st;
     homework_file := homework_file st;
     jokes_file := jokes |}.

(** [cmd_test]: its reply, the stored records afterwards, the messages sent
    to chats. *)
Definition cmd_test (update : Update) (st0 : Store)
  : ToolReply * Store * list (Z * str) :=
  let st := with_settings st0 (ensure_first_admin_if_empty update (settings_file st0)) in
  if negb (is_admin update (settings_file st)) then (TrSilent, st, [])
  else
    match chat_id (settings_file st) with
    | None => (TrNeedChat, st, [])
    | Some c =>
      if c =? 0 then (TrNeedChat, st, [])
      else (TrDone, st, [(c, MSG_TEST)])
    end.

(** [cmd_send_to_chat]. *)
Definition cmd_send_to_chat (update : Update) (args : list str) (st0 : Store)
  : ToolReply * Store * list (Z * str) :=
  let st := with_settings st0 (ensure_first_admin_if_empty update (settings_file st0)) in
  if negb (is_admin update (settings_file st)) then (TrSilent, st, [])
  else
    match chat_id (settings_file st) with
    | None => (TrNeedChat, st, [])
    | Some c =>
      if c =? 0 then (TrNeedChat, st, [])
      else
        match args with
        | [] => (TrFormat, st, [])
        | _ :: _ =>
          let text := normalize_text_for_send (join (lit " ") args) in
          (TrDone, st, [(c, text)])
        end
    end.

(** [menu_keyboard(is_admin_user)]: the rows of button labels. *)
Definition BTN_SCHEDULE : str := lit "📅 Расписание".
Definition BTN_DUTY : str := lit "🧹 Дежурный".
Definition BTN_HOMEWORK : str := lit "📚 Домашка (dz_list)".
Definition BTN_HELP : str := lit "❓ Help".
Definition BTN_ADD_CHAT : str := lit "➕ Добавить чат".
Definition BTN_ADD_ADMIN : str := lit "➕ Добавить администратора".
Definition BTN_ADD_STUDENTS : str := lit "➕ Добавить учеников".
Definition BTN_EDIT_SCHEDULE : str := lit "📝 Изменить расписание".
Definition BTN_TEST : str := lit "🧪 Тест в чат".
Definition BTN_JOKE_ADD : str := lit "😂 Добавить анекдот".

Definition menu_keyboard (is_admin_user : bool) : list (list str) :=
  let rows := [[BTN_SCHEDULE; BTN_DUTY]; [BTN_HOMEWORK]] in
  let rows :=
    if is_admin_user
    then rows ++ [[BTN_ADD_CHAT; BTN_ADD_ADMIN]; [BTN_ADD_STUDENTS];
                  [BTN_EDIT_SCHEDULE]; [BTN_TEST]; [BTN_JOKE_ADD]]
    else rows in
  rows ++ [[BTN_HELP]].

(** [cmd_menu]: the keyboard it shows, and what it leaves behind. *)
Definition cmd_menu (update : Update) (ud : UserData) (st0 : Store)
  : list (list str) * Outcome :=
  let st := if is_private update
            then with_settings st0
                   (ensure_first_admin_if_empty update (settings_file st0))
            else st0 in
  (menu_keyboard (is_admin update (settings_file st)),
   {| out_state := ST_MENU; out_data := ud; out_store := st; out_sent := [] |}).

(** [cmd_start]: as [cmd_menu], with another greeting. *)
Definition cmd_start (update : Update) (ud : UserData) (st0 : Store)
  : list (list str) * Outcome :=
  let st := if is_private update
            then with_settings st0
                   (ensure_first_admin_if_empty update (settings_file st0))
            else st0 in
  (menu_keyboard (is_admin update (settings_file st)),
   {| out_state := ST_MENU; out_data := ud; out_store := st; out_sent := [] |}).

(** [ConversationHandler.END]. *)
Definition CONVERSATION_END : Z := -1.

(** What [/joke] replies. *)
Inductive JokeReply : Type :=
| JkEmpty                    (* "jokes.json пуст 😢 ..." *)
| JkJoke (text : str).

(** [cmd_joke]; [pick] is the index [random.choice] draws, below the length
    of the list. *)
Definition cmd_joke (pick : nat) (jokes : list str) : JokeReply :=
  match jokes with
  | [] => JkEmpty
  | _ :: _ => JkJoke (nth pick jokes [])
  end.

(** [cmd_joke_add]: the state it returns. *)
Definition cmd_joke_add (update : Update) (ud : UserData) (st0 : Store) : Outcome :=
  let st := with_settings st0 (ensure_first_admin_if_empty update (settings_file st0)) in
  if negb (is_private update) then
    {| out_state := CONVERSATION_END; out_data := ud; out_store := st; out_sent := [] |}
  else if negb (is_admin update (settings_file st)) then
    {| out_state := CONVERSATION_END; out_data := ud; out_store := st; out_sent := [] |}
  else
    {| out_state := ST_JOKE_ADD; out_data := ud; out_store := st; out_sent := [] |}.

(** [st_joke_add_text]. *)
Definition st_joke_add_text (update : Update) (ud : UserData) (st : Store) : Outcome :=
  let joke := strip (message_text update) in
  let jokes := jokes_file st ++ [joke] in
  {| out_state := ST_MENU; out_data := ud; out_store := with_jokes st jokes;
     out_sent := [] |}.

Section Tools.
Context {py : PyLib}.

(** [parse_chat_id(text)]: [-?\d{4,20}] on the stripped text, then [int];
    [decimal_value] reads a run of [\d] characters as [int] does. *)
Definition parse_chat_id (text : str) : option Z :=
  let t := strip text in
  match t with
  | [] => None
  | c :: r =>
    let digits := if c =? 45 then r else t in
    if (4 <=? length digits)%nat && (length digits <=? 20)%nat then
      match decimal_value digits with
      | Some v => Some (if c =? 45 then - v else v)
      | None => None
      end
    else None
  end.

(** [st_set_chat]. *)
Definition st_set_chat (update : Update) (ud : UserData) (st : Store) : Outcome :=
  match parse_chat_id (message_text update) with
  | None =>
    {| out_state := ST_SET_CHAT; out_data := ud; out_store := st; out_sent := [] |}
  | Some cid =>
    let s := settings_file st in
    {| out_state := ST_MENU; out_data := ud;
       out_store := with_settings st {| chat_id := Some cid; admins := admins s |};
       out_sent := [] |}
  end.

(** [st_add_admin]. *)
Definition st_add_admin (update : Update) (ud : UserData) (st : Store) : Outcome :=
  match normalize_username_input (message_text update) with
  | None =>
    {| out_state := ST_ADD_ADMIN; out_data := ud; out_store := st; out_sent := [] |}
  | Some uname =>
    if str_in uname END_WORDS then
      {| out_state := ST_ADD_ADMIN; out_data := ud; out_store := st; out_sent := [] |}
    else
      let s := settings_file st in
      {| out_state := ST_MENU; out_data := ud;
         out_store := with_settings st
                        {| chat_id := chat_id s;
                           admins := sorted_set (uname :: admins s) |};
         out_sent := [] |}
  end.

(** What [menu_router] replies. *)
Inductive MenuReply : Type :=
| MrScheduleHint            (* "Напиши: /r пн ..." *)
| MrDuty (text : str)       (* what [cmd_duty] replies *)
| MrHomeworkHint            (* "Напиши: /dz_list 10 ..." *)
| MrHelp                    (* what [cmd_help] replies *)
| MrOk                      (* "Ок." *)
| MrAskChat                 (* "Пришли chat_id ..." *)
| MrAskAdmin                (* "Пришли @username администратора." *)
| MrAskStudents             (* "Ок! Присылай учеников по одному ..." *)
| MrAskMonday               (* "Введи расписание на Понедельник ..." *)
| MrTest (r : ToolReply)    (* what [cmd_test] replies *)
| MrAskJoke                 (* "Пришли текст анекдота ..." *)
| MrUnknown.                (* "Не понял кнопку/сообщение. ..." *)

(** [menu_router]; [None] when the loop of [cmd_duty] runs out of fuel. *)
Definition menu_router (fuel : nat) (cfg : Config) (today : date)
  (update : Update) (ud : UserData) (st0 : Store)
  : option (result (MenuReply * Outcome)) :=
  let text := strip (message_text update) in
  let stay (r : MenuReply) (st : Store) (sent : list (Z * str)) :=
      Some (Ok (r, {| out_state := ST_MENU; out_data := ud; out_store := st;
                      out_sent := sent |})) in
  if str_eqb text BTN_SCHEDULE then stay MrScheduleHint st0 []
  else if str_eqb text BTN_DUTY then
    match cmd_duty fuel cfg (duty_file st0) today with
    | None => None
    | Some (Raise e) => Some (Raise e)
    | Some (Ok reply) => stay (MrDuty reply) st0 []
    end
  else if str_eqb text BTN_HOMEWORK then stay MrHomeworkHint st0 []
  else if str_eqb text BTN_HELP then stay MrHelp st0 []
  else
    let st := with_settings st0
                (ensure_first_admin_if_empty update (settings_file st0)) in
    if negb (is_admin update (settings_file st)) then stay MrOk st []
    else if str_eqb text BTN_ADD_CHAT then
      Some (Ok (MrAskChat, {| out_state := ST_SET_CHAT; out_data := ud;
                              out_store := st; out_sent := [] |}))
    else if str_eqb text BTN_ADD_ADMIN then
      Some (Ok (MrAskAdmin, {| out_state := ST_ADD_ADMIN; out_data := ud;
                               out_store := st; out_sent := [] |}))
    else if str_eqb text BTN_ADD_STUDENTS then
      Some (Ok (MrAskStudents,
                {| out_state := ST_ADD_STUDENTS;
                   out_data := menu_router_add_students ud;
                   out_store := st; out_sent := [] |}))
    else if str_eqb text BTN_EDIT_SCHEDULE then
      Some (Ok (MrAskMonday,
                {| out_state := ST_EDIT_SCHEDULE;
                   out_data := menu_router_edit_schedule ud;
                   out_store := st; out_sent := [] |}))
    else if str_eqb text BTN_TEST then
      let '(r, st', sent) := cmd_test update st in
      stay (MrTest r) st' sent
    else if str_eqb text BTN_JOKE_ADD then
      Some (Ok (MrAskJoke, {| out_state := ST_JOKE_ADD; out_data := ud;
                              out_store := st; out_sent := [] |}))
    else stay MrUnknown st [].

(** [int(s)] of a string: white space around, an optional sign, decimal
    digits with single underscores between two of them; more than 4300
    digits are refused. *)
Definition is_int_space (c : Z) : bool :=
  is_space c && negb ((28 <=? c) && (c <=? 31)).

Fixpoint lstrip_int (s : str) : str :=
  match s with
  | [] => []
  | c :: s' => if is_int_space c then lstrip_int s' else s
  end.

Definition strip_int (s : str) : str := rev (lstrip_int (rev (lstrip_int s))).

(** The digits after the sign: [after_digit] says that the character before
    was a digit; [acc] is the value and [n] the number of the digits read. *)
Fixpoint int_body (s : str) (after_digit : bool) (acc : Z) (n : nat)
  : option (Z * nat) :=
  match s with
  | [] => if after_digit then Some (acc, n) else None
  | c :: r =>
    if c =? 95 then
      if after_digit then int_body r false acc n else None
    else if is_space c then None
    else
      match ch_decimal c with
      | Some v => int_body r true (acc * 10 + v) (S n)
      | None => None
      end
  end.

Definition MAX_STR_DIGITS : nat := 4300.

Definition py_int (s : str) : result Z :=
  let t := strip_int s in
  let '(neg, body) :=
      match t with
      | c :: r => if c =? 45 then (true, r)
                  else if c =? 43 then (false, r)
                  else (false, t)
      | [] => (false, [])
      end in
  match int_body body false 0 0 with
  | Some (v, n) =>
    if (MAX_STR_DIGITS <? n)%nat then Raise ValueError
    else Ok (if neg then - v else v)
  | None => Raise ValueError
  end.

End Tools.

(** *** Predicates of the statements below *)

(** The number a run of the digits 0 to 9 writes. *)
Definition digits_value (ds : str) : Z :=
  fold_left (fun a c => a * 10 + (c - 48)) ds 0.

Definition is_ascii_digit (c : Z) : bool := (48 <=? c) && (c <=? 57).

(** A list in strictly ascending order. *)
Fixpoint strictly_sorted (l : list str) : Prop :=
  match l with
  | [] => True
  | x :: l' => Forall (str_lt x) l' /\ strictly_sorted l'
  end.

(** No admin entry is the empty string. *)
Definition admins_named (s : Settings) : Prop :=
  Forall (fun a : str => a <> []) (admins s).

(** Back in the menu with nothing changed and nothing sent. *)
Definition back_to_menu (ud : UserData) (st : Store) : Outcome :=
  {| out_state := ST_MENU; out_data := ud; out_store := st; out_sent := [] |}.

(** A message with the text [t] from the user [name] in a chat of kind
    [chat]. *)
Definition message_from (chat : ChatType) (name t : str) : Update :=
  {| effective_chat := Some chat; effective_username := Some name;
     message_text := t |}.

(* ================================================================== *)
(** ** The schedule command, the homework list, edit and delete *)

(** What [/r] replies. *)
Inductive ScheduleReply : Type :=
| SrDay (key text : str)              (* "Расписание (key): text" *)
| SrNotFound                          (* "Не нашёл такой день. ..." *)
| SrWeek (days : list (str * str)).   (* "Расписание (Пн–Пт):", a part per day *)

(** [del d[k]]. *)
Definition dict_del {V : Type} (k : str) (d : dict V) : dict V :=
  filter (fun kv => negb (str_eqb k (fst kv))) d.

(** [items.sort(key=lambda x: x[0])]: the sort is stable, an item goes
    before the items of the same or a later date that came after it. *)
Fixpoint insert_by_date (x : date * str) (l : list (date * str)) : list (date * str) :=
  match l with
  | [] => [x]
  | y :: l' => if fst x <=? fst y then x :: l else y :: insert_by_date x l'
  end.

Definition sort_by_date (l : list (date * str)) : list (date * str) :=
  fold_right insert_by_date [] l.

(** [task.strip().replace("\n", " ")], cut to 117 characters and an
    ellipsis when longer than 120. *)
Definition shorten (task : str) : str :=
  let short := map (fun c => if c =? 10 then 32 else c) (strip task) in
  if (120 <? length short)%nat then firstn 117 short ++ lit "..." else short.

(** The lines of the list: the date, its expiry, the shortened task. *)
Fixpoint list_lines (cfg : Config) (items : list (date * str))
  : result (list (date * date * str)) :=
  match items with
  | [] => Ok []
  | (d, task) :: items' =>
    exp <- expiry_of_homework d cfg ;;
    lines <- list_lines cfg items' ;;
    Ok ((d, exp, shorten task) :: lines)
  end.

(** What [/dz_list] replies. *)
Inductive HwListReply : Type :=
| HlUsage                                     (* "Формат: /dz_list [N] ..." *)
| HlNothing                                   (* "Ближайшей домашки нет 🎉" *)
| HlLines (lines : list (date * date * str)). (* "Ближайшая домашка:" ... *)

(** What [/dz_edit] and [/dz_del] reply. *)
Inductive HwEditReply : Type :=
| HeAdminsOnly | HeFormat | HeEmptyText | HeNoEntry | HeDone.

Inductive HwDelReply : Type :=
| HdAdminsOnly | HdFormat | HdNoEntry | HdDeleted (target : date).

Section Commands.
Context {py : PyLib}.

(** [cmd_schedule] on the stored schedule. *)
Definition cmd_schedule (args : list str) (data : dict str) : ScheduleReply :=
  match args with
  | _ :: _ =>
    let key := normalize_day_query (join (lit " ") args) in
    match dict_get key data with
    | Some text => SrDay key text
    | None => SrNotFound
    end
  | [] =>
    SrWeek (fold_left (fun parts canon =>
                         match dict_get (str_lower canon) data with
                         | Some text => parts ++ [(canon, text)]
                         | None => parts
                         end) DOW_CANON [])
  end.

(** [homework_cleanup_job]: the stored map afterwards and the number it
    logs. *)
Definition homework_cleanup_job (cfg : Config) (today : date) (file : dict str)
  : result (dict str * Z) :=
  r <- cleanup_homework_in_memory file cfg today ;;
  let '(hw2, removed) := r in
  Ok (if removed =? 0 then file else hw2, removed).

(** The loop of [cmd_homework_list] over [hw.items()]. *)
Definition upcoming (today : date) (hw : dict str) : list (date * str) :=
  fold_left (fun items (kv : str * str) =>
               match fromisoformat (fst kv) with
               | None => items
               | Some d => if today <=? d then items ++ [(d, snd kv)] else items
               end) hw [].

(** The number of lines [cmd_homework_list] is asked for: 10 without an
    argument, else [max(1, min(int(args[0]), 50))]; [None] where [int]
    raises [ValueError]. *)
Definition lines_asked (args : list str) : option Z :=
  match args with
  | [] => Some 10
  | arg0 :: _ =>
    match py_int arg0 with
    | Ok n => Some (Z.max 1 (Z.min n 50))
    | Raise _ => None
    end
  end.

(** [cmd_homework_list]: the stored map afterwards, and the reply or the
    exception the handler ends with. *)
Definition cmd_homework_list (cfg : Config) (today : date) (file : dict str)
  (args : list str) : dict str * result HwListReply :=
  match load_homework_clean cfg today file with
  | Raise e => (file, Raise e)
  | Ok (hw, file1) =>
    match lines_asked args with
    | None => (file1, Ok HlUsage)
    | Some n =>
      let items := firstn (Z.to_nat n) (sort_by_date (upcoming today hw)) in
      match items with
      | [] => (file1, Ok HlNothing)
      | _ :: _ => (file1, lines <- list_lines cfg items ;; Ok (HlLines lines))
      end
    end
  end.

(** [cmd_homework_edit]: the stored records afterwards, and the reply or the
    exception. *)
Definition cmd_homework_edit (cfg : Config) (today : date) (update : Update)
  (args : list str) (st0 : Store) : Store * result HwEditReply :=
  let st := with_settings st0 (ensure_first_admin_if_empty update (settings_file st0)) in
  if negb (is_admin update (settings_file st)) then (st, Ok HeAdminsOnly)
  else
    match parse_date_and_consumed today args with
    | Raise e => (st, Raise e)
    | Ok None => (st, Ok HeFormat)
    | Ok (Some (target, consumed)) =>
      let new_task := strip (join (lit " ") (skipn (Z.to_nat consumed) args)) in
      match new_task with
      | [] => (st, Ok HeEmptyText)
      | _ :: _ =>
        match load_homework_clean cfg today (homework_file st) with
        | Raise e => (st, Raise e)
        | Ok (hw, file1) =>
          match dict_get (date_isoformat target) hw with
          | None => (with_homework st file1, Ok HeNoEntry)
          | Some _ =>
            (with_homework st (dict_set (date_isoformat target) new_task hw), Ok HeDone)
          end
        end
      end
    end.

(** [cmd_homework_del]. *)
Definition cmd_homework_del (today : date) (update : Update)
  (args : list str) (st0 : Store) : Store * result HwDelReply :=
  let st := with_settings st0 (ensure_first_admin_if_empty update (settings_file st0)) in
  if negb (is_admin update (settings_file st)) then (st, Ok HdAdminsOnly)
  else
    match parse_date_and_consumed today args with
    | Raise e => (st, Raise e)
    | Ok None => (st, Ok HdFormat)
    | Ok (Some (target, _)) =>
      let hw := homework_file st in
      match dict_get (date_isoformat target) hw with
      | None => (st, Ok HdNoEntry)
      | Some _ =>
        (with_homework st (dict_del (date_isoformat target) hw), Ok (HdDeleted target))
      end
    end.

End Commands.

(** *** Predicates of the statements below *)

(** Dates in ascending order, equal ones allowed. *)
Fixpoint ascending (l : list date) : Prop :=
  match l with
  | [] => True
  | x :: l' => Forall (fun y => x <= y) l' /\ ascending l'
  end.

(** The date, the expiry and the text of a line of the list. *)
Definition line_date (l : date * date * str) : date := fst (fst l).
Definition line_expiry (l : date * date * str) : date := snd (fst l).
Definition line_text (l : date * date * str) : str := snd l.

(** *** A store for the examples *)

(** The records of a bot whose only admin is [@carol], with the homework
    map [hw] and nothing else. *)
Definition carols_store (hw : dict str) : Store :=
  {| settings_file := {| chat_id := None; admins := [lit "@carol"] |};
     schedule_file := []; duty_file := []; homework_file := hw; jokes_file := [] |}.

(** *** The onboarding dialog as a whole *)

(** The dialog entered from the menu, then the texts one after the other,
    each handled by [st_add_students] as long as the conversation is in its
    state. *)
Definition add_students_dialog {py : PyLib} (texts : list str) (ud : UserData)
  (st : Store) : Outcome :=
  fold_left (fun o t =>
               if out_state o =? ST_ADD_STUDENTS
               then then_text st_add_students t o
               else o)
            texts
            {| out_state := ST_ADD_STUDENTS;
               out_data := menu_router_add_students ud;
               out_store := st; out_sent := [] |}.

(** What holds of the dialog at every step: the roster is the former one
    followed by entries of the shape, the session counts them, and nothing
    else is written or sent. *)
Definition onboarding_invariant (st : Store) (o : Outcome) : Prop :=
  exists added : list str,
    duty_file (out_store o) = duty_file st ++ added
    /\ students_added (out_data o) = Some (Z.of_nat (length added))
    /\ Forall entry_shape added
    /\ settings_file (out_store o) = settings_file st
    /\ schedule_file (out_store o) = schedule_file st
    /\ homework_file (out_store o) = homework_file st
    /\ jokes_file (out_store o) = jokes_file st
    /\ out_sent o = [].

(** *** Tactics of the proofs below *)

(** Comparisons of two literal strings are evaluated. *)
Ltac eval_str_eqb :=
  repeat match goal with
  | |- context [str_eqb ?a ?b] =>
    let v := eval vm_compute in (str_eqb a b) in
    change (str_eqb a b) with v; cbv iota
  end.

(** The router on a message whose text is the literal [Hl] names. *)
Ltac router_at Hl :=
  rewrite <- Hl;
  match goal with
  | |- context [strip ?b] =>
    let v := eval vm_compute in (strip b) in change (strip b) with v
  end;
  cbv zeta; eval_str_eqb.

(* ================================================================== *)
(** ** The two conversations of [build_app] *)

(** What the filters of the handlers read of an incoming message. *)
Inductive Incoming : Type :=
| InCommand (name : str)  (* a text that begins with the command [/name] for
                             this bot; [name] in lower case *)
| InForeignCommand        (* a text that begins with a command for another bot *)
| InText                  (* any other text *)
| InPhoto                 (* a photo, with or without a caption *)
| InOther.                (* neither text nor photo: a file, a sticker, ... *)

(** [filters.TEXT], [filters.COMMAND], [filters.PHOTO], [filters.ALL]. *)
Definition filters_TEXT (m : Incoming) : bool :=
  match m with
  | InCommand _ | InForeignCommand | InText => true
  | InPhoto | InOther => false
  end.

Definition filters_COMMAND (m : Incoming) : bool :=
  match m with
  | InCommand _ | InForeignCommand => true
  | InText | InPhoto | InOther => false
  end.

Definition filters_PHOTO (m : Incoming) : bool :=
  match m with
  | InPhoto => true
  | _ => false
  end.

Definition filters_ALL (m : Incoming) : bool := true.

(** The callbacks the conversations register. *)
Inductive Callback : Type :=
| Cb_cmd_start | Cb_cmd_menu | Cb_menu_router
| Cb_st_set_chat | Cb_st_add_admin | Cb_st_add_students
| Cb_st_edit_schedule | Cb_st_joke_add_text
| Cb_cmd_cancel
| Cb_cmd_si | Cb_st_si_chat
| Cb_st_si_photo | Cb_st_si_photo_wrong
| Cb_st_si_text | Cb_st_si_text_wrong.

Inductive Handler : Type :=
| CommandHandler (command : str) (callback : Callback)
| MessageHandler (filters : Incoming -> bool) (callback : Callback).

(** Whether a handler takes a message. *)
Definition check_update (h : Handler) (m : Incoming) : bool :=
  match h with
  | CommandHandler command _ =>
    match m with
    | InCommand name => str_eqb name command
    | _ => false
    end
  | MessageHandler filters _ => filters m
  end.

Definition handler_callback (h : Handler) : Callback :=
  match h with
  | CommandHandler _ callback => callback
  | MessageHandler _ callback => callback
  end.

Record ConversationHandler : Type := {
  entry_points : list Handler;
  states : list (Z * list Handler);
  fallbacks : list Handler
}.

Definition text_no_command (m : Incoming) : bool :=
  filters_TEXT m && negb (filters_COMMAND m).

(** [si_conv]. *)
Definition si_conv : ConversationHandler := {|
  entry_points := [CommandHandler (lit "si") Cb_cmd_si];
  states :=
    [(SI_CHAT, [MessageHandler text_no_command Cb_st_si_chat]);
     (SI_PHOTO, [MessageHandler filters_PHOTO Cb_st_si_photo;
                 MessageHandler (fun m => filters_ALL m && negb (filters_PHOTO m))
                                Cb_st_si_photo_wrong]);
     (SI_TEXT, [MessageHandler text_no_command Cb_st_si_text;
                MessageHandler (fun m => filters_ALL m && negb (filters_TEXT m))
                               Cb_st_si_text_wrong])];
  fallbacks := [CommandHandler (lit "cancel") Cb_cmd_cancel]
|}.

(** [menu_conv]. *)
Definition menu_conv : ConversationHandler := {|
  entry_points := [CommandHandler (lit "start") Cb_cmd_start;
                   CommandHandler (lit "menu") Cb_cmd_menu];
  states :=
    [(ST_MENU, [MessageHandler text_no_command Cb_menu_router]);
     (ST_SET_CHAT, [MessageHandler text_no_command Cb_st_set_chat]);
     (ST_ADD_ADMIN, [MessageHandler text_no_command Cb_st_add_admin]);
     (ST_ADD_STUDENTS, [MessageHandler text_no_command Cb_st_add_students]);
     (ST_EDIT_SCHEDULE, [MessageHandler text_no_command Cb_st_edit_schedule]);
     (ST_JOKE_ADD, [MessageHandler text_no_command Cb_st_joke_add_text])];
  fallbacks := [CommandHandler (lit "cancel") Cb_cmd_cancel]
|}.

(** The first handler of a list that takes the message. *)
Fixpoint first_handler (hs : list Handler) (m : Incoming) : option Callback :=
  match hs with
  | [] => None
  | h :: hs' => if check_update h m then Some (handler_callback h)
                else first_handler hs' m
  end.

(** [states.get(state, [])]. *)
Definition state_handlers (conv : ConversationHandler) (s : Z) : list Handler :=
  match find (fun p => fst p =? s) (states conv) with
  | Some p => snd p
  | None => []
  end.

(** The callback a conversation gives a message to, [state] being the state
    it holds for the user ([None]: the user is not in the conversation):
    without a state an entry point, in a state the first handler of the
    state that takes the message, and the fallbacks when none does. [None]:
    the conversation does not take the message. *)
Definition conversation_callback (conv : ConversationHandler) (state : option Z)
  (m : Incoming) : option Callback :=
  match state with
  | None => first_handler (entry_points conv) m
  | Some s =>
    match first_handler (state_handlers conv s) m with
    | Some cb => Some cb
    | None => first_handler (fallbacks conv) m
    end
  end.

(** The state a conversation holds once a callback has returned [r]:
    [ConversationHandler.END] ends it. *)
Definition conversation_after (r : Z) : option Z :=
  if r =? CONVERSATION_END then None else Some r.

Inductive Conversation : Type := MenuConv | SiConv.

(** [app.add_handler(menu_conv)], then [app.add_handler(si_conv)]: of the
    two, the first that takes the message handles it. *)
Definition app_conversation (menu_state si_state : option Z) (m : Incoming)
  : option (Conversation * Callback) :=
  match conversation_callback menu_conv menu_state m with
  | Some cb => Some (MenuConv, cb)
  | None =>
    match conversation_callback si_conv si_state m with
    | Some cb => Some (SiConv, cb)
    | None => None
    end
  end.

(** The session of a user in the photo dialog after [st_si_chat] has read
    the chat id [cid] and [st_si_photo] has stored a photo without caption
    at [path]. *)
Definition si_session (cid : Z) (path : str) : UserData :=
  {| students_added := None; schedule_step := None; schedule_buf := None;
     si_chat_id := Some cid; si_photo_path := Some path |}.

(* ================================================================== *)
(** ** Basic facts: string equality, date addition, list indexing *)

Lemma str_eqb_eq (a b : str) : str_eqb a b = true <-> a = b.
Proof.
  revert b. induction a as [|x a IH]; intros [|y b]; simpl; split; intros H;
    try reflexivity; try discriminate.
  - apply andb_true_iff in H. destruct H as [Hx Hab].
    apply Z.eqb_eq in Hx. apply IH in Hab. now subst.
  - injection H as -> ->. apply andb_true_iff. split.
    + apply Z.eqb_refl.
    + now apply IH.
Qed.

Lemma str_eqb_refl (a : str) : str_eqb a a = true.
Proof. now apply str_eqb_eq. Qed.

Lemma str_eqb_neq (a b : str) : str_eqb a b = false <-> a <> b.
Proof.
  split.
  - intros H E. apply str_eqb_eq in E. congruence.
  - intros H. destruct (str_eqb a b) eqn:E; [|reflexivity].
    apply str_eqb_eq in E. contradiction.
Qed.

Lemma date_add_ok (d n : Z) :
  Z.abs n <= 999999999 -> 0 < d + n <= MAXORDINAL -> date_add d n = Ok (d + n).
Proof.
  intros Hn Hr. unfold date_add, timedelta_days.
  destruct (Z.abs n <=? 999999999) eqn:E; [|lia]. simpl.
  destruct (0 <? d + n) eqn:E1; destruct (d + n <=? MAXORDINAL) eqn:E2;
    simpl; try reflexivity; lia.
Qed.

Lemma date_add_inv (d n e : Z) :
  date_add d n = Ok e -> e = d + n /\ 0 < e <= MAXORDINAL.
Proof.
  unfold date_add, timedelta_days.
  destruct (Z.abs n <=? 999999999); simpl; [|discriminate].
  destruct (0 <? d + n) eqn:E1; destruct (d + n <=? MAXORDINAL) eqn:E2;
    simpl; try discriminate.
  intros [= <-]. lia.
Qed.

Lemma list_getitem_nth (l : list str) (i : Z) :
  0 <= i < Z.of_nat (length l) -> list_getitem l i = Ok (nth (Z.to_nat i) l []).
Proof.
  intros H. unfold list_getitem.
  destruct (i <? 0) eqn:E; [lia|].
  destruct (0 <=? i) eqn:E1; destruct (i <? Z.of_nat (length l)) eqn:E2;
    simpl; try lia.
  destruct (nth_error l (Z.to_nat i)) eqn:En.
  - now rewrite (nth_error_nth _ _ _ En).
  - apply nth_error_None in En. lia.
Qed.

(* ================================================================== *)
(** ** The duty command follows the four-step policy *)

Lemma dates_from_through_nil (a b : date) : b < a -> dates_from_through a b = [].
Proof.
  intros H. unfold dates_from_through.
  replace (Z.to_nat (b + 1 - a)) with O by lia. reflexivity.
Qed.

Lemma dates_from_through_cons (a b : date) :
  a <= b -> dates_from_through a b = a :: dates_from_through (a + 1) b.
Proof.
  intros H. unfold dates_from_through.
  replace (Z.to_nat (b + 1 - a)) with (S (Z.to_nat (b + 1 - (a + 1)))) by lia.
  simpl. f_equal; [lia|].
  rewrite <- seq_shift, map_map. apply map_ext. intros i. lia.
Qed.

Lemma dates_from_through_last (a b : date) :
  a <= b -> dates_from_through a b = dates_from_through a (b - 1) ++ [b].
Proof.
  intros H. unfold dates_from_through.
  replace (Z.to_nat (b + 1 - a)) with (Z.to_nat (b - 1 + 1 - a) + 1)%nat by lia.
  rewrite seq_app, map_app. simpl. do 2 f_equal. lia.
Qed.

(** The loop of [cmd_duty] counts the school days from [d] through [today],
    whenever it has fuel for one turn per day and one more. *)
Lemma cmd_duty_loop_counts (cfg : Config) (today : date) :
  today < MAXORDINAL ->
  forall (fuel : nat) (d : date) (c : Z),
    1 <= d ->
    (Z.to_nat (today + 1 - d) < fuel)%nat ->
    cmd_duty_loop fuel cfg today d c
    = Some (Ok (c + Z.of_nat (length (filter (spec_is_school_day cfg)
                                             (dates_from_through d today))))).
Proof.
  intros Hmax. induction fuel as [|fuel IH]; intros d c Hd Hfuel; [lia|].
  simpl. destruct (d <=? today) eqn:E.
  - apply Z.leb_le in E.
    rewrite (date_add_ok d 1) by (unfold MAXORDINAL in *; lia).
    rewrite IH by lia.
    rewrite (dates_from_through_cons d today E). simpl.
    unfold spec_is_school_day at 2.
    destruct (negb (is_weekend d) && negb (is_holiday d cfg)); simpl;
      do 2 f_equal; lia.
  - apply Z.leb_gt in E. rewrite dates_from_through_nil by lia. simpl.
    do 2 f_equal. lia.
Qed.

(** On a school day on or after the school start, the count is at least 1. *)
Lemma spec_schoolDayIndex_pos (cfg : Config) (today : date) :
  school_start cfg <= today ->
  spec_is_school_day cfg today = true ->
  1 <= spec_schoolDayIndex cfg today.
Proof.
  intros Hs Hday. unfold spec_schoolDayIndex.
  rewrite (dates_from_through_last _ _ Hs), filter_app, length_app.
  simpl. rewrite Hday. simpl. lia.
Qed.

(** C1. For every roster and every query date before [date.max] (where the
    loop's last [d += timedelta(days=1)] is still a date), [cmd_duty], given
    fuel for its loop, replies what the four-step policy says: the
    roster-empty message for an empty roster; else the year-not-started
    message before the school start; else the no-duty message on a weekend
    day or inside a holiday interval; else the roster entry at index
    (c - 1) mod n, with n the roster length and c the inclusive count of
    school days from the school start through the date. On that last path
    c >= 1 and the index lies in [0, n-1]. *)
Theorem cmd_duty_follows_policy (cfg : Config) (roster : list str) (today : date) :
  valid_date (school_start cfg) ->
  today < MAXORDINAL ->
  (exists fuel0 : nat, forall fuel : nat, (fuel0 <= fuel)%nat ->
     cmd_duty fuel cfg roster today = Some (Ok (spec_duty_policy cfg roster today)))
  /\ (roster <> [] -> school_start cfg <= today ->
      spec_is_school_day cfg today = true ->
      1 <= spec_schoolDayIndex cfg today
      /\ 0 <= spec_todaysDutyIndex (spec_schoolDayIndex cfg today)
                                   (Z.of_nat (length roster))
           < Z.of_nat (length roster)).
Proof.
  intros [Hstart _] Hmax. split.
  - exists (S (Z.to_nat (today + 1 - school_start cfg))). intros fuel Hfuel.
    unfold cmd_duty, spec_duty_policy.
    destruct roster as [|e roster]; cbn [length Nat.eqb]; [reflexivity|].
    destruct (today <? school_start cfg) eqn:E1; [reflexivity|].
    unfold spec_is_school_day at 1.
    destruct (is_weekend today) eqn:E2; [reflexivity|].
    destruct (is_holiday today cfg) eqn:E3; [reflexivity|].
    cbn [orb negb andb].
    rewrite (cmd_duty_loop_counts cfg today Hmax) by lia.
    fold (spec_schoolDayIndex cfg today). rewrite Z.add_0_l.
    fold (spec_todaysDutyIndex (spec_schoolDayIndex cfg today)
                               (Z.of_nat (length (e :: roster)))).
    rewrite list_getitem_nth; [reflexivity|].
    unfold spec_todaysDutyIndex. apply Z.mod_pos_bound. simpl length. lia.
  - intros Hne Hs Hday. split.
    + now apply spec_schoolDayIndex_pos.
    + unfold spec_todaysDutyIndex. apply Z.mod_pos_bound.
      destruct roster; [contradiction|]. simpl length. lia.
Qed.

(** The scenario of the specification: roster A, B, C, school start
    2024-09-02, no holidays, asked on 2024-09-04. *)
Lemma cmd_duty_follows_policy_witness :
  (exists fuel0 : nat, forall fuel : nat, (fuel0 <= fuel)%nat ->
     cmd_duty fuel
       {| homework_ttl_days := 14; school_start := ymd2ord 2024 9 2;
          holiday_periods := [] |}
       [lit "A"; lit "B"; lit "C"] (ymd2ord 2024 9 4)
     = Some (Ok (lit "Сегодня дежурный: C")))
  /\ (1 <= 3 /\ 0 <= 2 < 3).
Proof.
  pose proof (cmd_duty_follows_policy
                {| homework_ttl_days := 14; school_start := ymd2ord 2024 9 2;
                   holiday_periods := [] |}
                [lit "A"; lit "B"; lit "C"] (ymd2ord 2024 9 4)) as H.
  destruct H as [H1 H2].
  - unfold valid_date. vm_compute. split; discriminate.
  - vm_compute. reflexivity.
  - split.
    + exact H1.
    + apply H2.
      * discriminate.
      * vm_compute. discriminate.
      * vm_compute. reflexivity.
Defined.

(* ================================================================== *)
(** ** The daily duty announcement against the duty command *)

Lemma duty_reminder_job_loop_eq (cfg : Config) (today : date) (fuel : nat) :
  forall (d : date) (c : Z),
    duty_reminder_job_loop fuel cfg today d c = cmd_duty_loop fuel cfg today d c.
Proof.
  induction fuel as [|fuel IH]; intros d c; simpl; [reflexivity|].
  destruct (d <=? today); [|reflexivity].
  destruct (date_add d 1); [apply IH | reflexivity].
Qed.

(** C9, as amended. With a broadcast chat configured (a [chat_id] that is
    neither null nor 0), [duty_reminder_job] sends to that chat exactly the
    text [cmd_duty] replies for the same roster and date, and ends as it does
    otherwise; with no chat configured it sends nothing, whatever the command
    would reply. *)
Theorem duty_reminder_job_vs_cmd_duty
  (fuel : nat) (cfg : Config) (s : Settings) (roster : list str) (today : date) :
  duty_reminder_job fuel cfg s roster today
  = match chat_id s with
    | None => Some (Ok None)
    | Some c => if c =? 0 then Some (Ok None)
                else announce c (cmd_duty fuel cfg roster today)
    end.
Proof.
  unfold duty_reminder_job, cmd_duty, announce.
  destruct (chat_id s) as [c|]; [|reflexivity].
  destruct (c =? 0); [reflexivity|].
  destruct roster as [|e roster]; [reflexivity|].
  destruct (today <? school_start cfg); [reflexivity|].
  destruct (is_weekend today || is_holiday today cfg); [reflexivity|].
  rewrite duty_reminder_job_loop_eq.
  destruct (cmd_duty_loop fuel cfg today (school_start cfg) 0) as [[n|e']|];
    try reflexivity.
  destruct (list_getitem (e :: roster) _); reflexivity.
Qed.

(** C9 as stated fails: with the default settings (no chat configured) the
    command names the person on duty and the job sends no message at all. *)
Lemma duty_reminder_job_silent_without_chat :
  cmd_duty 10 default_config [lit "A"; lit "B"; lit "C"] (ymd2ord 2024 9 4)
  = Some (Ok (lit "Сегодня дежурный: C"))
  /\ duty_reminder_job 10 default_config settings_default
       [lit "A"; lit "B"; lit "C"] (ymd2ord 2024 9 4)
     = Some (Ok None).
Proof. split; vm_compute; reflexivity. Qed.

(* ================================================================== *)
(** ** The homework sweep *)

Lemma str_in_In (x : str) (xs : list str) : str_in x xs = true <-> In x xs.
Proof.
  unfold str_in. rewrite existsb_exists. split.
  - intros [y [Hy E]]. apply str_eqb_eq in E. now subst.
  - intros H. exists x. split; [exact H | apply str_eqb_refl].
Qed.

Lemma str_in_not_In (x : str) (xs : list str) : str_in x xs = false <-> ~ In x xs.
Proof.
  rewrite <- str_in_In. destruct (str_in x xs); split; congruence.
Qed.

Section DictFacts.
Context {V : Type}.

Lemma dict_set_fresh (k : str) (v : V) (d : dict V) :
  ~ In k (dict_keys d) -> dict_set k v d = d ++ [(k, v)].
Proof.
  induction d as [|[k' v'] d IH]; simpl; intros H; [reflexivity|].
  destruct (str_eqb k k') eqn:E.
  - apply str_eqb_eq in E. subst. exfalso. apply H. now left.
  - rewrite IH; [reflexivity|]. intros Hin. apply H. now right.
Qed.

Lemma dict_set_keys (k : str) (v : V) (d : dict V) :
  dict_keys (dict_set k v d)
  = if str_in k (dict_keys d) then dict_keys d else dict_keys d ++ [k].
Proof.
  induction d as [|[k' v'] d IH]; simpl; [reflexivity|].
  unfold str_in in *. simpl. destruct (str_eqb k k') eqn:E; simpl; [reflexivity|].
  rewrite IH. now destruct (existsb (str_eqb k) (dict_keys d)).
Qed.

Lemma dict_set_NoDup (k : str) (v : V) (d : dict V) :
  NoDup (dict_keys d) -> NoDup (dict_keys (dict_set k v d)).
Proof.
  intros H. rewrite dict_set_keys. destruct (str_in k (dict_keys d)) eqn:E; [exact H|].
  apply str_in_not_In in E.
  apply NoDup_app; [exact H | repeat constructor; intros [] | ].
  intros x Hx [<-|[]]. contradiction.
Qed.

(** A property of keys that holds of a map's keys and of [k] holds of the
    keys after [d[k] = v]. *)
Lemma dict_set_Forall_key (P : str -> Prop) (k : str) (v : V) (d : dict V) :
  P k -> Forall (fun kv => P (fst kv)) d ->
  Forall (fun kv => P (fst kv)) (dict_set k v d).
Proof.
  intros Hk. induction d as [|[k' v'] d IH]; simpl; intros H.
  - now repeat constructor.
  - inversion H as [|? ? Hk' Hd]; subst. destruct (str_eqb k k'); constructor; auto.
Qed.

End DictFacts.

Section Sweep.
Context {py : PyLib}.
Variable cfg : Config.
Variable today : date.

Lemma expiry_of_homework_inv (d e : date) :
  expiry_of_homework d cfg = Ok e ->
  e = d + homework_ttl_days cfg
  /\ Z.abs (homework_ttl_days cfg) <= 999999999
  /\ 0 < d + homework_ttl_days cfg <= MAXORDINAL.
Proof.
  unfold expiry_of_homework. intros H.
  pose proof (date_add_inv _ _ _ H) as [-> Hr].
  unfold date_add, timedelta_days in H.
  destruct (Z.abs (homework_ttl_days cfg) <=? 999999999) eqn:E; [|discriminate].
  apply Z.leb_le in E. auto.
Qed.

Lemma kept_by_code_retained (kv : str * str) :
  kept_by_code cfg today (fst kv) ->
  expiry_in_range cfg kv /\ spec_retained (homework_ttl_days cfg) today kv = true.
Proof.
  unfold kept_by_code, expiry_in_range, spec_retained.
  destruct (fromisoformat (fst kv)) as [d|]; [|auto].
  intros [e [He Hlt]]. apply expiry_of_homework_inv in He.
  destruct He as [-> [Ha Hr]]. split; [auto|]. apply Z.leb_le. apply Z.ltb_ge in Hlt. lia.
Qed.

(** The loop on a well-formed map: what it has kept so far grows by the
    retained entries, in their order, and the counter by the others. *)
Lemma cleanup_loop_spec (items : list (str * str)) :
  forall (cleaned : dict str) (removed : Z),
    NoDup (dict_keys cleaned ++ dict_keys items) ->
    Forall (expiry_in_range cfg) items ->
    cleanup_loop items cfg today cleaned removed
    = Ok (cleaned ++ filter (spec_retained (homework_ttl_days cfg) today) items,
          removed + Z.of_nat (length (filter (fun kv =>
                      negb (spec_retained (homework_ttl_days cfg) today kv)) items))).
Proof.
  induction items as [|[k v] items IH]; intros cleaned removed Hnd Hr.
  - simpl. now rewrite app_nil_r, Z.add_0_r.
  - inversion Hr as [|? ? Hkv Hitems]; subst.
    assert (Hfresh : ~ In k (dict_keys cleaned)).
    { intros Hin. simpl in Hnd. apply NoDup_remove_2 in Hnd. apply Hnd.
      apply in_or_app. now left. }
    assert (Hnd' : NoDup (dict_keys (cleaned ++ [(k, v)]) ++ dict_keys items)).
    { unfold dict_keys in *. rewrite map_app. simpl. now rewrite <- app_assoc. }
    assert (Hnd0 : NoDup (dict_keys cleaned ++ dict_keys items)).
    { unfold dict_keys in *. simpl in Hnd. now apply NoDup_remove_1 in Hnd. }
    assert (Hret : spec_retained (homework_ttl_days cfg) today (k, v)
                   = match fromisoformat k with
                     | None => true
                     | Some d => today <=? d + homework_ttl_days cfg
                     end) by reflexivity.
    unfold expiry_in_range in Hkv. cbn [fst] in Hkv.
    cbn [cleanup_loop filter]. rewrite Hret.
    destruct (fromisoformat k) as [d|].
    + destruct Hkv as [Ha Hd]. unfold expiry_of_homework.
      rewrite date_add_ok by assumption. cbn [bind].
      destruct (d + homework_ttl_days cfg <? today) eqn:E.
      * replace (today <=? d + homework_ttl_days cfg) with false
          by (symmetry; apply Z.leb_gt; apply Z.ltb_lt in E; lia).
        rewrite IH by assumption. cbn [negb length]. do 2 f_equal. lia.
      * replace (today <=? d + homework_ttl_days cfg) with true
          by (symmetry; apply Z.leb_le; apply Z.ltb_ge in E; lia).
        rewrite dict_set_fresh by assumption. rewrite IH by assumption.
        cbn [negb]. now rewrite <- app_assoc.
    + rewrite dict_set_fresh by assumption. rewrite IH by assumption.
      cbn [negb]. now rewrite <- app_assoc.
Qed.

(** Whatever the loop returns holds distinct keys, each one kept by the
    code, if what it started from does. *)
Lemma cleanup_loop_kept (items : list (str * str)) :
  forall (cleaned out : dict str) (removed removed' : Z),
    NoDup (dict_keys cleaned) ->
    Forall (fun kv => kept_by_code cfg today (fst kv)) cleaned ->
    cleanup_loop items cfg today cleaned removed = Ok (out, removed') ->
    NoDup (dict_keys out) /\ Forall (fun kv => kept_by_code cfg today (fst kv)) out.
Proof.
  induction items as [|[k v] items IH]; intros cleaned out removed removed' Hnd Hk; simpl.
  - intros [= <- <-]. auto.
  - destruct (fromisoformat k) as [d|] eqn:Ek.
    + destruct (expiry_of_homework d cfg) as [e|] eqn:Ee; cbn [bind]; [|discriminate].
      destruct (e <? today) eqn:El.
      * now apply IH.
      * apply IH; [now apply dict_set_NoDup|].
        apply dict_set_Forall_key; [|exact Hk].
        unfold kept_by_code. rewrite Ek. eauto.
    + apply IH; [now apply dict_set_NoDup|].
      apply dict_set_Forall_key; [|exact Hk]. unfold kept_by_code. now rewrite Ek.
Qed.

Lemma filter_all_true {A : Type} (f : A -> bool) (l : list A) :
  Forall (fun x => f x = true) l ->
  filter f l = l /\ filter (fun x => negb (f x)) l = [].
Proof.
  induction 1 as [|x l Hx Hl [IH1 IH2]]; simpl; [auto|].
  rewrite Hx. simpl. now rewrite IH1, IH2.
Qed.

(** C2. For every homework map (distinct keys), TTL and current date for
    which the expiry of each dated entry is a date, the sweep returns the
    entries retained, in their order, with the number of the others: an
    entry is retained iff its key does not parse as a date, or parses as [d]
    with today <= d + TTL; the expiry the code computes for [d] is exactly
    [d + TTL]. *)
Theorem cleanup_homework_removes_expired (hw : dict str) :
  NoDup (dict_keys hw) ->
  Forall (expiry_in_range cfg) hw ->
  cleanup_homework_in_memory hw cfg today
  = Ok (filter (spec_retained (homework_ttl_days cfg) today) hw,
        Z.of_nat (length (filter (fun kv =>
                    negb (spec_retained (homework_ttl_days cfg) today kv)) hw)))
  /\ (forall k v d, In (k, v) hw -> fromisoformat k = Some d ->
        expiry_of_homework d cfg = Ok (d + homework_ttl_days cfg)).
Proof.
  intros Hnd Hr. split.
  - unfold cleanup_homework_in_memory. now rewrite cleanup_loop_spec.
  - intros k v d Hin Hk. rewrite Forall_forall in Hr. specialize (Hr _ Hin).
    unfold expiry_in_range in Hr. simpl in Hr. rewrite Hk in Hr.
    unfold expiry_of_homework. now apply date_add_ok.
Qed.

(** C8. The sweep is idempotent: for every homework map, TTL and current
    date, the map a sweep has produced is returned unchanged by a second
    sweep on the same date, with zero entries removed. *)
Theorem cleanup_homework_idempotent (hw hw' : dict str) (removed : Z) :
  cleanup_homework_in_memory hw cfg today = Ok (hw', removed) ->
  cleanup_homework_in_memory hw' cfg today = Ok (hw', 0).
Proof.
  unfold cleanup_homework_in_memory. intros H.
  apply cleanup_loop_kept in H; [|constructor|constructor].
  destruct H as [Hnd Hk].
  assert (Hall : Forall (fun kv => expiry_in_range cfg kv
                  /\ spec_retained (homework_ttl_days cfg) today kv = true) hw').
  { eapply Forall_impl; [|exact Hk]. intros kv. apply kept_by_code_retained. }
  apply Forall_and_inv in Hall. destruct Hall as [Hr Hret].
  rewrite cleanup_loop_spec by assumption.
  destruct (filter_all_true _ _ Hret) as [-> ->]. reflexivity.
Qed.

End Sweep.

(** The scenario of the specification: TTL 14 days and an entry dated
    2024-09-01, swept on 2024-09-16, beside an entry dated 2024-09-02 and one
    whose key is no date. *)
Lemma cleanup_homework_removes_expired_witness :
  cleanup_homework_in_memory (py := basic_pylib)
    [(lit "2024-09-01", lit "p. 12"); (lit "note", lit "x"); (lit "2024-09-02", lit "p. 14")]
    default_config (ymd2ord 2024 9 16)
  = Ok ([(lit "note", lit "x"); (lit "2024-09-02", lit "p. 14")], 1)
  /\ expiry_of_homework (ymd2ord 2024 9 1) default_config = Ok (ymd2ord 2024 9 15).
Proof.
  pose proof (cleanup_homework_removes_expired (py := basic_pylib)
                default_config (ymd2ord 2024 9 16)
                [(lit "2024-09-01", lit "p. 12"); (lit "note", lit "x");
                 (lit "2024-09-02", lit "p. 14")]) as H.
  destruct H as [H1 H2].
  - repeat constructor; vm_compute; intuition discriminate.
  - repeat constructor; vm_compute; intuition discriminate.
  - split.
    + exact H1.
    + apply (H2 (lit "2024-09-01") (lit "p. 12")); [now left | reflexivity].
Defined.

(** The map the sweep of the scenario returns, swept again the same day. *)
Lemma cleanup_homework_idempotent_witness :
  cleanup_homework_in_memory (py := basic_pylib)
    [(lit "note", lit "x"); (lit "2024-09-02", lit "p. 14")]
    default_config (ymd2ord 2024 9 16)
  = Ok ([(lit "note", lit "x"); (lit "2024-09-02", lit "p. 14")], 0).
Proof.
  apply (cleanup_homework_idempotent (py := basic_pylib)
           default_config (ymd2ord 2024 9 16)
           [(lit "2024-09-01", lit "p. 12"); (lit "note", lit "x");
            (lit "2024-09-02", lit "p. 14")] _ 1).
  vm_compute. reflexivity.
Defined.

(* ================================================================== *)
(** ** The homework date parser *)

Lemma lstrip_no_space (s : str) :
  match s with c :: _ => is_space c = false | [] => True end -> lstrip s = s.
Proof. destruct s as [|c s]; simpl; [reflexivity|]. now intros ->. Qed.

Lemma lstrip_head (s : str) :
  match lstrip s with c :: _ => is_space c = false | [] => True end.
Proof.
  induction s as [|c s IH]; simpl; [exact I|].
  destruct (is_space c) eqn:E; [exact IH | exact E].
Qed.

Lemma lstrip_idem (s : str) : lstrip (lstrip s) = lstrip s.
Proof. apply lstrip_no_space, lstrip_head. Qed.

(** A final character that is no white space survives [lstrip]. *)
Lemma lstrip_keeps_last (l : str) (c : Z) :
  is_space c = false -> exists t, lstrip (l ++ [c]) = t ++ [c].
Proof.
  intros Hc. induction l as [|x l [t IH]]; simpl.
  - rewrite Hc. now exists [].
  - destruct (is_space x); [now exists t|]. now exists (x :: l).
Qed.

Lemma rstrip_head (s : str) :
  match s with c :: _ => is_space c = false | [] => True end ->
  match rstrip s with c :: _ => is_space c = false | [] => True end.
Proof.
  destruct s as [|c s]; [intros _; exact I|]. intros Hc.
  unfold rstrip. simpl rev.
  destruct (lstrip_keeps_last (rev s) c Hc) as [t ->].
  rewrite rev_app_distr. simpl. exact Hc.
Qed.

Lemma strip_idem (s : str) : strip (strip s) = strip s.
Proof.
  unfold strip at 1.
  rewrite (lstrip_no_space (strip s)).
  - unfold strip, rstrip. now rewrite rev_involutive, lstrip_idem.
  - unfold strip. apply rstrip_head, lstrip_head.
Qed.

Section Parser.
Context {py : PyLib}.

Lemma is_date_sep_not_decimal (c : Z) : is_date_sep c = true -> ch_decimal c = None.
Proof.
  unfold is_date_sep. intros H.
  assert (Hc : c = 46 \/ c = 45 \/ c = 47).
  { destruct (c =? 46) eqn:E1; [left; now apply Z.eqb_eq|].
    destruct (c =? 45) eqn:E2; [right; left; now apply Z.eqb_eq|].
    destruct (c =? 47) eqn:E3; [right; right; now apply Z.eqb_eq|]. discriminate. }
  destruct Hc as [->|[->| ->]]; now rewrite ch_decimal_basic.
Qed.

Lemma decimal_value_1 (c : Z) :
  decimal_value [c] = match ch_decimal c with Some v => Some (0 * 10 + v) | None => None end.
Proof. reflexivity. Qed.

Lemma decimal_value_2 (c1 c2 : Z) :
  decimal_value [c1; c2]
  = match ch_decimal c1, ch_decimal c2 with
    | Some v1, Some v2 => Some ((0 * 10 + v1) * 10 + v2)
    | _, _ => None
    end.
Proof.
  unfold decimal_value. simpl.
  destruct (ch_decimal c1); [reflexivity|]. now destruct (ch_decimal c2).
Qed.

Lemma match_sep_digits_ok (sep : Z) (M : str) (mm : Z) :
  is_date_sep sep = true -> (1 <= length M <= 2)%nat -> decimal_value M = Some mm ->
  match_sep_digits (sep :: M) = Some mm.
Proof.
  intros Hs Hl Hm. destruct M as [|d1 [|d2 [|d3 M]]]; simpl in Hl; try lia;
    unfold match_sep_digits; now rewrite Hs.
Qed.

Lemma match_sep_digits_inv (t : str) (mm : Z) :
  match_sep_digits t = Some mm ->
  exists sep M, t = sep :: M /\ is_date_sep sep = true
                /\ (1 <= length M <= 2)%nat /\ decimal_value M = Some mm.
Proof.
  unfold match_sep_digits.
  destruct t as [|s [|d1 [|d2 [|d3 t]]]]; try discriminate;
    destruct (is_date_sep s) eqn:Hs; try discriminate; intros H.
  - exists s, [d1]. simpl. repeat split; auto; lia.
  - exists s, [d1; d2]. simpl. repeat split; auto; lia.
Qed.

(** The model of the regular expression finds every token of the form. *)
Lemma parse_numeric_complete (a0 : str) (dd mm : Z) :
  strip a0 = a0 -> numeric_token a0 dd mm ->
  _parse_numeric_date_token a0 = Some (dd, mm).
Proof.
  intros Hs (D & M & sep & -> & Hsep & HlD & HlM & HD & HM).
  unfold _parse_numeric_date_token. rewrite Hs.
  pose proof (match_sep_digits_ok sep M mm Hsep HlM HM) as Hm.
  destruct D as [|c1 [|c2 [|c3 D]]]; simpl in HlD; try lia.
  - (* one digit: the two-digit attempt fails on the separator *)
    cbn [app]. destruct M as [|m1 M]; [simpl in HlM; lia|].
    rewrite decimal_value_2, (is_date_sep_not_decimal sep Hsep).
    replace (match ch_decimal c1 with Some _ | _ => None end) with (@None Z)
      by now destruct (ch_decimal c1).
    unfold match_digit_sep_digits. rewrite HD, Hm. reflexivity.
  - cbn [app]. rewrite HD, Hm. reflexivity.
Qed.

Lemma match_digit_sep_digits_inv (t : str) (dd mm : Z) :
  match_digit_sep_digits t = Some (dd, mm) -> numeric_token t dd mm.
Proof.
  unfold match_digit_sep_digits. destruct t as [|c1 rest]; [discriminate|].
  destruct (decimal_value [c1]) as [v|] eqn:E1; [|discriminate].
  destruct (match_sep_digits rest) as [w|] eqn:E2; [|discriminate].
  intros [= <- <-]. apply match_sep_digits_inv in E2.
  destruct E2 as (sep & M & -> & Hsep & HlM & HM).
  exists [c1], M, sep. simpl. repeat split; auto; lia.
Qed.

(** And it finds nothing else. *)
Lemma parse_numeric_sound (a0 : str) (dd mm : Z) :
  _parse_numeric_date_token a0 = Some (dd, mm) -> numeric_token (strip a0) dd mm.
Proof.
  unfold _parse_numeric_date_token.
  destruct (strip a0) as [|c1 [|c2 rest]];
    try apply match_digit_sep_digits_inv.
  destruct (decimal_value [c1; c2]) as [v|] eqn:E1;
    [|apply match_digit_sep_digits_inv].
  destruct (match_sep_digits rest) as [w|] eqn:E2;
    [|apply match_digit_sep_digits_inv].
  intros [= <- <-]. apply match_sep_digits_inv in E2.
  destruct E2 as (sep & M & -> & Hsep & HlM & HM).
  exists [c1; c2], M, sep. simpl. repeat split; auto; lia.
Qed.

End Parser.

Lemma next_weekday_spec (today i : Z) :
  valid_date today -> today + 7 <= MAXORDINAL -> 0 <= i < 7 ->
  exists d, next_weekday today i = Ok d
            /\ today < d <= today + 7 /\ weekday d = i
            /\ (weekday today = i -> d = today + 7).
Proof.
  intros [Hlo _] Hhi Hi. unfold next_weekday.
  set (delta := (i - weekday today + 7) mod 7).
  assert (Hw : 0 <= weekday today < 7) by (unfold weekday; apply Z.mod_pos_bound; lia).
  assert (Hdelta : 0 <= delta < 7) by (apply Z.mod_pos_bound; lia).
  assert (Hmod : forall k, 0 <= k -> 1 <= k <= 7 ->
                 (weekday today + k) mod 7 = i -> weekday (today + k) = i).
  { intros k _ _ Hk. unfold weekday in *.
    replace (today + k + 6) with (today + 6 + k) by lia.
    now rewrite Z.add_mod_idemp_l in Hk by lia. }
  destruct (delta =? 0) eqn:E.
  - apply Z.eqb_eq in E. exists (today + 7).
    rewrite date_add_ok by (unfold MAXORDINAL in *; lia).
    repeat split; try lia.
    apply Hmod; try lia. subst delta.
    revert E. generalize (weekday today) Hw. intros w Hw' E.
    assert (i = w) by (pose proof (Z.mod_small (i - w + 7)); Z.div_mod_to_equations; lia).
    subst. rewrite <- Z.add_mod_idemp_r, Z.mod_same, Z.add_0_r by lia.
    apply Z.mod_small; lia.
  - apply Z.eqb_neq in E. exists (today + delta).
    rewrite date_add_ok by (unfold MAXORDINAL in *; lia).
    repeat split; try lia.
    + apply Hmod; try lia. subst delta.
      generalize (weekday today) Hw. intros w Hw'.
      Z.div_mod_to_equations. lia.
    + intros Heq. exfalso. apply E. subst delta. rewrite Heq.
      replace (i - i + 7) with 7 by lia. reflexivity.
Qed.

Section ParserRules.
Context {py : PyLib}.

Lemma no_word_rule_facts (a0 : str) :
  no_word_rule a0 ->
  str_eqb a0 TOMORROW = false /\ str_in a0 DOW_SHORT = false
  /\ str_in a0 DOW_FULL = false.
Proof.
  intros [Ht Hw]. split; [now apply str_eqb_neq|].
  split; apply str_in_not_In; intros Hin;
    destruct (In_nth _ _ [] Hin) as (n & Hn & Hnth);
    apply (Hw (Z.of_nat n)); (split; [simpl in Hn; lia|]);
    rewrite Nat2Z.id; auto.
Qed.

Lemma decimal_value_chars (s : str) (v : Z) :
  decimal_value s = Some v -> forallb ch_isdigit s = true.
Proof.
  unfold decimal_value. generalize (Some 0) as acc. revert v.
  induction s as [|c s IH]; intros v acc; simpl; [reflexivity|].
  destruct (ch_decimal c) as [w|] eqn:Ec.
  - rewrite (ch_decimal_isdigit c w Ec). simpl. apply IH.
  - replace (match acc with Some _ | _ => None end) with (@None Z) by now destruct acc.
    intros H. exfalso. revert H. clear. induction s as [|c s IH]; simpl; [discriminate|].
    exact IH.
Qed.

Lemma all_decimal_isdigit (s : str) (v : Z) :
  all_decimal s v -> isdigit s = true /\ int_of_digits s = Ok v.
Proof.
  intros [Hne Hv]. destruct s as [|c s]; [contradiction|].
  unfold isdigit, int_of_digits. rewrite Hv. split; [|reflexivity].
  now apply decimal_value_chars with (v := v).
Qed.

(** The parser on a weekday word, once the word is known. *)
Lemma parse_weekday_word (today : date) (arg0 : str) (rest : list str) (a0 : str) (i : Z) :
  strip (str_lower arg0) = a0 ->
  str_eqb a0 TOMORROW = false ->
  (if str_in a0 DOW_SHORT then list_index a0 DOW_SHORT
   else if str_in a0 DOW_FULL then list_index a0 DOW_FULL else None) = Some i ->
  parse_date_and_consumed today (arg0 :: rest)
  = (d <- next_weekday today i ;; Ok (Some (d, 1))).
Proof.
  intros Ha Ht Hi. unfold parse_date_and_consumed. rewrite Ha, Ht.
  destruct (str_in a0 DOW_SHORT); [now rewrite Hi|].
  destruct (str_in a0 DOW_FULL); [now rewrite Hi | discriminate].
Qed.

Lemma weekday_name_index (a0 : str) (i : Z) :
  weekday_name a0 i ->
  str_eqb a0 TOMORROW = false
  /\ (if str_in a0 DOW_SHORT then list_index a0 DOW_SHORT
      else if str_in a0 DOW_FULL then list_index a0 DOW_FULL else None) = Some i.
Proof.
  intros [Hi Hn].
  assert (Hc : i = 0 \/ i = 1 \/ i = 2 \/ i = 3 \/ i = 4 \/ i = 5 \/ i = 6) by lia.
  destruct Hc as [->|[->|[->|[->|[->|[->| ->]]]]]];
    destruct Hn as [<- | <-]; split; vm_compute; reflexivity.
Qed.

Lemma month_lookup (mword : str) (mm : Z) :
  In (mword, mm) RU_MONTHS -> dict_get mword RU_MONTHS = Some mm.
Proof.
  intros H. unfold RU_MONTHS in H.
  repeat (destruct H as [[= <- <-]|H]; [vm_compute; reflexivity|]).
  destruct H.
Qed.

End ParserRules.

Section ParserTheorem.
Context {py : PyLib}.

Lemma no_word_rule_of_bools (a0 : str) :
  str_eqb a0 TOMORROW = false -> str_in a0 DOW_SHORT = false ->
  str_in a0 DOW_FULL = false -> no_word_rule a0.
Proof.
  intros Ht Hs Hf. split; [now apply str_eqb_neq|].
  intros i [Hi [H|H]].
  - apply str_in_not_In in Hs. apply Hs. rewrite <- H. apply nth_In. simpl. lia.
  - apply str_in_not_In in Hf. apply Hf. rewrite <- H. apply nth_In. simpl. lia.
Qed.

Lemma no_token_rule_of_none (a0 : str) :
  strip a0 = a0 -> _parse_numeric_date_token a0 = None -> no_token_rule a0.
Proof.
  intros Hs Hn dd mm Htok.
  rewrite (parse_numeric_complete a0 dd mm Hs Htok) in Hn. discriminate.
Qed.

(** C3. For every token list [arg0 :: rest] and every [today] at least a
    week before [date.max], with [a0] the first token lowercased and
    stripped, [parse_date_and_consumed] applies the first rule that matches:
    (1) [a0] is the word for tomorrow: today + 1, one token;
    (2) [a0] is the short or full name of weekday [i]: the first date after
        today that falls on [i], never today and a full week ahead when
        today is that weekday, one token;
    (3) else [a0] is D.M, D-M or D/M: that day and month of today's year,
        one token;
    (4) else two tokens of decimal digits D and M: that date of today's year,
        two tokens;
    (5) else a token of decimal digits and a month name, nominative or
        genitive: that date of today's year, two tokens.
    In (3) to (5) the day and month are taken to name a date of that year. *)
Theorem parse_date_and_consumed_rules (today : date) (arg0 : str) (rest : list str) :
  valid_date today -> today + 7 <= MAXORDINAL ->
  (strip (str_lower arg0) = TOMORROW ->
     parse_date_and_consumed today (arg0 :: rest) = Ok (Some (today + 1, 1)))
  /\ (forall i, weekday_name (strip (str_lower arg0)) i ->
      exists d, parse_date_and_consumed today (arg0 :: rest) = Ok (Some (d, 1))
                /\ today < d <= today + 7 /\ weekday d = i
                /\ (weekday today = i -> d = today + 7))
  /\ (forall dd mm d,
      no_word_rule (strip (str_lower arg0)) ->
      numeric_token (strip (str_lower arg0)) dd mm ->
      mkdate (date_year today) mm dd = Ok d ->
      parse_date_and_consumed today (arg0 :: rest) = Ok (Some (d, 1)))
  /\ (forall arg1 rest' dd mm d,
      rest = arg1 :: rest' ->
      no_word_rule (strip (str_lower arg0)) ->
      no_token_rule (strip (str_lower arg0)) ->
      all_decimal arg0 dd -> all_decimal arg1 mm ->
      mkdate (date_year today) mm dd = Ok d ->
      parse_date_and_consumed today (arg0 :: rest) = Ok (Some (d, 2)))
  /\ (forall arg1 rest' dd mm d,
      rest = arg1 :: rest' ->
      no_word_rule (strip (str_lower arg0)) ->
      no_token_rule (strip (str_lower arg0)) ->
      all_decimal arg0 dd -> isdigit arg1 = false ->
      In (strip (str_lower arg1), mm) RU_MONTHS ->
      mkdate (date_year today) mm dd = Ok d ->
      parse_date_and_consumed today (arg0 :: rest) = Ok (Some (d, 2))).
Proof.
  intros Hv Hmax.
  assert (Hnone : forall a0, no_token_rule a0 -> strip a0 = a0 ->
                             _parse_numeric_date_token a0 = None).
  { intros a0 Hno Hs. destruct (_parse_numeric_date_token a0) as [[dd mm]|] eqn:E;
      [|reflexivity].
    apply parse_numeric_sound in E. rewrite Hs in E. now apply Hno in E. }
  repeat split.
  - (* rule 1 *)
    intros Ha. unfold parse_date_and_consumed. rewrite Ha.
    replace (str_eqb TOMORROW TOMORROW) with true by reflexivity.
    rewrite date_add_ok by (destruct Hv; unfold MAXORDINAL in *; lia). reflexivity.
  - (* rule 2 *)
    intros i Hw. destruct (weekday_name_index _ _ Hw) as [Ht Hi].
    rewrite (parse_weekday_word today arg0 rest _ i eq_refl Ht Hi).
    destruct Hw as [Hr _].
    destruct (next_weekday_spec today i Hv Hmax Hr) as (d & -> & Hd).
    exists d. split; [reflexivity | exact Hd].
  - (* rule 3 *)
    intros dd mm d Hword Htok Hd.
    destruct (no_word_rule_facts _ Hword) as (Ht & Hs & Hf).
    unfold parse_date_and_consumed. rewrite Ht, Hs, Hf.
    rewrite (parse_numeric_complete _ dd mm (strip_idem _) Htok), Hd. reflexivity.
  - (* rule 4 *)
    intros arg1 rest' dd mm d -> Hword Hno [Hi0 Hv0]%all_decimal_isdigit
           [Hi1 Hv1]%all_decimal_isdigit Hd.
    destruct (no_word_rule_facts _ Hword) as (Ht & Hs & Hf).
    unfold parse_date_and_consumed. rewrite Ht, Hs, Hf.
    rewrite (Hnone _ Hno (strip_idem _)), Hi0, Hi1, Hv0, Hv1. cbn [andb bind].
    rewrite Hd. reflexivity.
  - (* rule 5 *)
    intros arg1 rest' dd mm d -> Hword Hno [Hi0 Hv0]%all_decimal_isdigit Hi1 Hm Hd.
    destruct (no_word_rule_facts _ Hword) as (Ht & Hs & Hf).
    unfold parse_date_and_consumed. rewrite Ht, Hs, Hf.
    rewrite (Hnone _ Hno (strip_idem _)), Hi0, Hi1, Hv0. cbn [andb bind].
    rewrite (month_lookup _ _ Hm), Hd. reflexivity.
Qed.

End ParserTheorem.

(** The scenarios of the specification, read on Monday 2024-09-02: the word
    for tomorrow, the short name of Monday, [25.01], [25 01] and
    [25 января]. *)
Lemma parse_date_and_consumed_rules_witness :
  parse_date_and_consumed (py := basic_pylib) (ymd2ord 2024 9 2) [lit "завтра"]
  = Ok (Some (ymd2ord 2024 9 3, 1))
  /\ (exists d,
        parse_date_and_consumed (py := basic_pylib) (ymd2ord 2024 9 2) [lit "пн"]
        = Ok (Some (d, 1))
        /\ ymd2ord 2024 9 2 < d <= ymd2ord 2024 9 2 + 7 /\ weekday d = 0
        /\ (weekday (ymd2ord 2024 9 2) = 0 -> d = ymd2ord 2024 9 2 + 7))
  /\ parse_date_and_consumed (py := basic_pylib) (ymd2ord 2024 9 2) [lit "25.01"]
     = Ok (Some (ymd2ord 2024 1 25, 1))
  /\ parse_date_and_consumed (py := basic_pylib) (ymd2ord 2024 9 2)
       [lit "25"; lit "01"; lit "p. 12"]
     = Ok (Some (ymd2ord 2024 1 25, 2))
  /\ parse_date_and_consumed (py := basic_pylib) (ymd2ord 2024 9 2)
       [lit "25"; lit "января"]
     = Ok (Some (ymd2ord 2024 1 25, 2)).
Proof.
  assert (Hv : valid_date (ymd2ord 2024 9 2)) by (vm_compute; split; discriminate).
  assert (Hm : ymd2ord 2024 9 2 + 7 <= MAXORDINAL) by (vm_compute; discriminate).
  assert (Hword : forall a0, str_eqb a0 TOMORROW = false ->
                             str_in a0 DOW_SHORT = false ->
                             str_in a0 DOW_FULL = false -> no_word_rule a0)
    by exact no_word_rule_of_bools.
  split; [|split; [|split; [|split]]].
  - apply (parse_date_and_consumed_rules (py := basic_pylib) _ (lit "завтра") [] Hv Hm).
    reflexivity.
  - apply (parse_date_and_consumed_rules (py := basic_pylib) _ (lit "пн") [] Hv Hm).
    split; [lia | left; reflexivity].
  - destruct (parse_date_and_consumed_rules (py := basic_pylib) _ (lit "25.01") []
                Hv Hm) as (_ & _ & R3 & _).
    apply (R3 25 1).
    + apply Hword; reflexivity.
    + exists (lit "25"), (lit "01"), 46. repeat split; simpl; lia.
    + reflexivity.
  - destruct (parse_date_and_consumed_rules (py := basic_pylib) _ (lit "25")
                [lit "01"; lit "p. 12"] Hv Hm) as (_ & _ & _ & R4 & _).
    apply (R4 (lit "01") [lit "p. 12"] 25 1).
    + reflexivity.
    + apply Hword; reflexivity.
    + apply (no_token_rule_of_none (py := basic_pylib)); reflexivity.
    + split; [discriminate | reflexivity].
    + split; [discriminate | reflexivity].
    + reflexivity.
  - destruct (parse_date_and_consumed_rules (py := basic_pylib) _ (lit "25")
                [lit "января"] Hv Hm) as (_ & _ & _ & _ & R5).
    apply (R5 (lit "января") [] 25 1).
    + reflexivity.
    + apply Hword; reflexivity.
    + apply (no_token_rule_of_none (py := basic_pylib)); reflexivity.
    + split; [discriminate | reflexivity].
    + reflexivity.
    + simpl. tauto.
    + reflexivity.
Defined.

(* ================================================================== *)
(** ** Tokens that name no calendar date *)

Section ParserRaises.
Context {py : PyLib}.

Lemma decimal_value_basic (s : str) :
  forallb basic_cp s = true ->
  decimal_value s = decimal_value (py := basic_pylib) s.
Proof.
  unfold decimal_value. generalize (Some 0) as acc.
  induction s as [|c s IH]; intros acc Hs; simpl; [reflexivity|].
  simpl in Hs. apply andb_true_iff in Hs. destruct Hs as [Hc Hs].
  rewrite (ch_decimal_basic c Hc). now apply IH.
Qed.

(** Rule (3) up to the construction of the date. *)
Lemma parse_numeric_token_date (today : date) (arg0 : str) (rest : list str) (dd mm : Z) :
  no_word_rule (strip (str_lower arg0)) ->
  numeric_token (strip (str_lower arg0)) dd mm ->
  parse_date_and_consumed today (arg0 :: rest)
  = (d <- mkdate (date_year today) mm dd ;; Ok (Some (d, 1))).
Proof.
  intros Hword Htok. destruct (no_word_rule_facts _ Hword) as (Ht & Hs & Hf).
  unfold parse_date_and_consumed. rewrite Ht, Hs, Hf.
  now rewrite (parse_numeric_complete _ dd mm (strip_idem _) Htok).
Qed.

(** Rule (4) up to the construction of the date. *)
Lemma parse_two_numbers_date (today : date) (arg0 arg1 : str) (rest : list str)
  (dd mm : Z) :
  no_word_rule (strip (str_lower arg0)) ->
  no_token_rule (strip (str_lower arg0)) ->
  all_decimal arg0 dd -> all_decimal arg1 mm ->
  parse_date_and_consumed today (arg0 :: arg1 :: rest)
  = (d <- mkdate (date_year today) mm dd ;; Ok (Some (d, 2))).
Proof.
  intros Hword Hno [Hi0 Hv0]%all_decimal_isdigit [Hi1 Hv1]%all_decimal_isdigit.
  destruct (no_word_rule_facts _ Hword) as (Ht & Hs & Hf).
  unfold parse_date_and_consumed. rewrite Ht, Hs, Hf.
  assert (Hn : _parse_numeric_date_token (strip (str_lower arg0)) = None).
  { destruct (_parse_numeric_date_token (strip (str_lower arg0))) as [[d1 m1]|] eqn:E;
      [|reflexivity].
    apply parse_numeric_sound in E. rewrite strip_idem in E. now apply Hno in E. }
  rewrite Hn, Hi0, Hi1, Hv0, Hv1. reflexivity.
Qed.

(** C4 fails on the code. On 2024-09-02, whatever the library's tables, the
    tokens [31.02] and [99 5] match rules (3) and (4), and the parser raises
    [ValueError] out of [date(...)] instead of returning a date or reporting
    "unparsed"; [cmd_homework] does not catch it, so the handler ends with
    the exception and sends no corrective reply. *)
Theorem parse_date_and_consumed_raises :
  parse_date_and_consumed (ymd2ord 2024 9 2) [lit "31.02"] = Raise ValueError
  /\ parse_date_and_consumed (ymd2ord 2024 9 2) [lit "99"; lit "5"] = Raise ValueError
  /\ cmd_homework default_config (ymd2ord 2024 9 2) [] [lit "31.02"]
     = ([], Raise ValueError)
  /\ cmd_homework default_config (ymd2ord 2024 9 2) [] [lit "99"; lit "5"]
     = ([], Raise ValueError).
Proof.
  assert (H1 : parse_date_and_consumed (ymd2ord 2024 9 2) [lit "31.02"]
               = Raise ValueError).
  { rewrite (parse_numeric_token_date _ _ _ 31 2).
    - vm_compute. reflexivity.
    - rewrite str_lower_basic by reflexivity. apply no_word_rule_of_bools; reflexivity.
    - rewrite str_lower_basic by reflexivity.
      exists (lit "31"), (lit "02"), 46.
      repeat split; try (simpl; lia); try reflexivity;
        rewrite decimal_value_basic; reflexivity. }
  assert (H2 : parse_date_and_consumed (ymd2ord 2024 9 2) [lit "99"; lit "5"]
               = Raise ValueError).
  { rewrite (parse_two_numbers_date _ _ _ _ 99 5).
    - vm_compute. reflexivity.
    - rewrite str_lower_basic by reflexivity. apply no_word_rule_of_bools; reflexivity.
    - rewrite str_lower_basic by reflexivity.
      intros dd mm (D & M & sep & E & _ & HD & HM & _).
      apply (f_equal (@Datatypes.length Z)) in E. rewrite length_app in E.
      simpl in E. lia.
    - split; [discriminate | rewrite decimal_value_basic; reflexivity].
    - split; [discriminate | rewrite decimal_value_basic; reflexivity]. }
  repeat split; try assumption.
  - unfold cmd_homework. cbn [load_homework_clean cleanup_homework_in_memory
                              cleanup_loop bind Z.eqb].
    now rewrite H1.
  - unfold cmd_homework. cbn [load_homework_clean cleanup_homework_in_memory
                              cleanup_loop bind Z.eqb].
    now rewrite H2.
Qed.

End ParserRaises.

(* ================================================================== *)
(** ** Every alias resolves in the schedule the dialog stores *)

Section Aliases.
Context {py : PyLib}.

(** The map the completed dialog stores is built from the five stripped
    texts under the five canonical names. *)
Lemma schedule_dialog_store (t1 t2 t3 t4 t5 : str) (ud : UserData) (st : Store) :
  schedule_file (out_store (schedule_dialog t1 t2 t3 t4 t5 ud st))
  = schedule_out_of
      [(lit "Понедельник", strip t1); (lit "Вторник", strip t2);
       (lit "Среда", strip t3); (lit "Четверг", strip t4);
       (lit "Пятница", strip t5)].
Proof.
  unfold schedule_dialog. lazy -[strip schedule_out_of]. reflexivity.
Qed.

(** On the canonical names and their aliases the library's [lower] is the
    one of Basic Latin and Cyrillic. *)
Lemma build_schedule_aliases_basic (day : str) :
  In day DOW_CANON ->
  build_schedule_aliases day = build_schedule_aliases (py := basic_pylib) day
  /\ Forall (fun alias => normalize_day_query alias
                          = normalize_day_query (py := basic_pylib) alias
                          /\ str_lower alias = @str_lower basic_pylib alias)
            (build_schedule_aliases (py := basic_pylib) day).
Proof.
  intros H. unfold DOW_CANON in H.
  assert (Hgoal : forall d, forallb basic_cp d = true ->
            Forall (fun alias => forallb basic_cp (strip alias) = true
                                 /\ forallb basic_cp alias = true)
                   (build_schedule_aliases (py := basic_pylib) d) ->
            build_schedule_aliases d = build_schedule_aliases (py := basic_pylib) d
            /\ Forall (fun alias => normalize_day_query alias
                                    = normalize_day_query (py := basic_pylib) alias
                                    /\ str_lower alias = @str_lower basic_pylib alias)
                      (build_schedule_aliases (py := basic_pylib) d)).
  { intros d Hd HF. split.
    - unfold build_schedule_aliases. now rewrite str_lower_basic.
    - eapply Forall_impl; [|exact HF]. intros a [Hs Ha]. unfold normalize_day_query.
      now rewrite !str_lower_basic. }
  repeat (destruct H as [<-|H];
          [apply Hgoal; [reflexivity|];
           match goal with
           | |- Forall _ ?l => let l' := eval vm_compute in l in change l with l'
           end;
           repeat (apply Forall_cons; [split; vm_compute; reflexivity|]);
           apply Forall_nil|]).
  destruct H.
Qed.

Lemma schedule_out_of_basic (v1 v2 v3 v4 v5 : str) :
  schedule_out_of
    [(lit "Понедельник", v1); (lit "Вторник", v2); (lit "Среда", v3);
     (lit "Четверг", v4); (lit "Пятница", v5)]
  = schedule_out_of (py := basic_pylib)
      [(lit "Понедельник", v1); (lit "Вторник", v2); (lit "Среда", v3);
       (lit "Четверг", v4); (lit "Пятница", v5)].
Proof.
  unfold schedule_out_of. cbn [fold_left fst snd].
  repeat match goal with
  | |- context [build_schedule_aliases (py := py) ?d] =>
    let H := fresh in
    destruct (build_schedule_aliases_basic d) as [H _];
    [unfold DOW_CANON; simpl; tauto | rewrite H; clear H]
  end.
  assert (Hl : forall d, In d DOW_CANON ->
             forall (v : str) (out : dict str),
               fold_left (fun out' a => dict_set (str_lower a) v out')
                         (build_schedule_aliases (py := basic_pylib) d) out
               = fold_left (fun out' a => dict_set (@str_lower basic_pylib a) v out')
                         (build_schedule_aliases (py := basic_pylib) d) out).
  { intros d Hd v. destruct (build_schedule_aliases_basic d Hd) as [_ HF].
    induction HF as [|a l [_ Ha] _ IH]; intros out; simpl; [reflexivity|].
    now rewrite Ha, IH. }
  rewrite !Hl by (unfold DOW_CANON; simpl; tauto).
  reflexivity.
Qed.

(** C5. When the schedule dialog completes with the texts [t1] to [t5], it
    returns to the menu, and in the schedule map it stores, for each of the
    five canonical weekdays and each alias [build_schedule_aliases] gives for
    it, the normalized alias is a key whose text is the (stripped) text
    entered for that day, the same as under the normalized canonical name. *)
Theorem schedule_aliases_resolve (t1 t2 t3 t4 t5 : str) (ud : UserData) (st : Store) :
  out_state (schedule_dialog t1 t2 t3 t4 t5 ud st) = ST_MENU
  /\ Forall (fun day_text : str * str =>
       Forall (fun alias =>
                 dict_get (normalize_day_query alias)
                          (schedule_file (out_store (schedule_dialog t1 t2 t3 t4 t5 ud st)))
                 = Some (strip (snd day_text))
                 /\ dict_get (normalize_day_query alias)
                      (schedule_file (out_store (schedule_dialog t1 t2 t3 t4 t5 ud st)))
                    = dict_get (normalize_day_query (fst day_text))
                        (schedule_file (out_store (schedule_dialog t1 t2 t3 t4 t5 ud st))))
              (build_schedule_aliases (fst day_text)))
       (combine DOW_CANON [t1; t2; t3; t4; t5]).
Proof.
  split; [reflexivity|].
  rewrite schedule_dialog_store, schedule_out_of_basic.
  unfold DOW_CANON. cbn [combine].
  apply Forall_cons; [|apply Forall_cons; [|apply Forall_cons;
    [|apply Forall_cons; [|apply Forall_cons; [|apply Forall_nil]]]]];
    cbv beta; cbn [fst snd];
    match goal with
    | |- Forall _ (build_schedule_aliases ?d) =>
      destruct (build_schedule_aliases_basic d) as [-> HF];
        [unfold DOW_CANON; simpl; tauto|];
      let l := eval vm_compute in (build_schedule_aliases (py := basic_pylib) d) in
      change (build_schedule_aliases (py := basic_pylib) d) with l in *;
      let Hd := fresh "Hd" in
      pose proof (Forall_inv HF) as [Hd _]; rewrite Hd
    end.
  all: generalize (strip t1) (strip t2) (strip t3) (strip t4) (strip t5);
    intros v1 v2 v3 v4 v5.
  all: repeat match goal with
       | H : Forall _ (_ :: _) |- _ =>
         let Ha := fresh "Ha" in
         apply Forall_cons_iff in H; destruct H as [[Ha _] H];
         apply Forall_cons; [rewrite Ha; split; vm_compute; reflexivity|]
       end.
  all: apply Forall_nil.
Qed.

End Aliases.

(* ================================================================== *)
(** ** The first admin *)

Lemma username_tag_nonempty (update : Update) :
  username_tag update <> [] ->
  exists c tag, username_tag update = c :: tag.
Proof.
  destruct (username_tag update) as [|c tag]; [contradiction|]. eauto.
Qed.

(** Once the admin list is non-empty no call changes the settings. *)
Lemma ensure_first_admin_nonempty (update : Update) (file : Settings) :
  admins file <> [] -> ensure_first_admin_if_empty update file = file.
Proof.
  intros H. unfold ensure_first_admin_if_empty.
  destruct (negb (is_private update)); [reflexivity|].
  destruct (admins file); [contradiction | reflexivity].
Qed.

(** C6. [ensure_first_admin_if_empty] leaves the settings as they are
    outside a private chat, and for a user without a handle; in a private
    chat, with an empty admin list and a user with a handle, it stores that
    handle as the only admin (the chat id is kept); and once the admin list is non-empty any sequence of later
    calls, from any users in any chats, leaves the settings unchanged. *)
Theorem ensure_first_admin_bootstrap (update : Update) (file : Settings) :
  (is_private update = false -> ensure_first_admin_if_empty update file = file)
  /\ (username_tag update = [] -> ensure_first_admin_if_empty update file = file)
  /\ (is_private update = true -> admins file = [] -> username_tag update <> [] ->
      ensure_first_admin_if_empty update file
      = {| chat_id := chat_id file; admins := [username_tag update] |})
  /\ (admins file <> [] ->
      forall later : list Update,
        fold_left (fun f upd => ensure_first_admin_if_empty upd f) later file = file).
Proof.
  repeat split.
  - intros H. unfold ensure_first_admin_if_empty. now rewrite H.
  - intros H. unfold ensure_first_admin_if_empty. rewrite H.
    destruct (negb (is_private update)); [reflexivity|]. now destruct (admins file).
  - intros Hp Ha Hu. unfold ensure_first_admin_if_empty. rewrite Hp, Ha. simpl.
    destruct (username_tag_nonempty update Hu) as (c & tag & ->). reflexivity.
  - intros Ha later. induction later as [|upd later IH]; simpl; [reflexivity|].
    now rewrite ensure_first_admin_nonempty.
Qed.

(** The scenario of the specification: no admins yet, [@x] writes in a
    private chat and becomes the admin; [@y] writing afterwards changes
    nothing; and in a group chat nothing happens at all. *)
Lemma ensure_first_admin_bootstrap_witness :
  ensure_first_admin_if_empty
    {| effective_chat := Some Group; effective_username := Some (lit "x");
       message_text := lit "/d_set list" |} settings_default
  = settings_default
  /\ ensure_first_admin_if_empty
       {| effective_chat := Some Private; effective_username := Some (lit "x");
          message_text := lit "/menu" |} settings_default
     = {| chat_id := None; admins := [lit "@x"] |}
  /\ fold_left (fun f upd => ensure_first_admin_if_empty upd f)
       [{| effective_chat := Some Private; effective_username := Some (lit "y");
           message_text := lit "/menu" |}]
       {| chat_id := None; admins := [lit "@x"] |}
     = {| chat_id := None; admins := [lit "@x"] |}.
Proof.
  split; [|split].
  - apply (proj1 (ensure_first_admin_bootstrap
             {| effective_chat := Some Group; effective_username := Some (lit "x");
                message_text := lit "/d_set list" |} settings_default)).
    reflexivity.
  - destruct (ensure_first_admin_bootstrap
             {| effective_chat := Some Private; effective_username := Some (lit "x");
                message_text := lit "/menu" |} settings_default) as (_ & _ & H & _).
    apply H; [reflexivity | reflexivity | discriminate].
  - destruct (ensure_first_admin_bootstrap
             {| effective_chat := Some Private; effective_username := Some (lit "y");
                message_text := lit "/menu" |}
             {| chat_id := None; admins := [lit "@x"] |}) as (_ & _ & _ & H).
    apply H. discriminate.
Defined.

(* ================================================================== *)
(** ** Roster entries keep their shape *)

Section RosterShape.
Context {py : PyLib}.

(** What [normalize_username_input] returns: nothing, an end word, or [@]
    and the handle of the input, which then matches the pattern. *)
Lemma normalize_username_input_cases (t : str) :
  normalize_username_input t = None
  \/ (exists w, normalize_username_input t = Some w /\ str_in w END_WORDS = true)
  \/ (normalize_username_input t = Some (lit "@" ++ handle_of t)
      /\ username_re (handle_of t) = true
      /\ str_in (lit "@" ++ handle_of t) END_WORDS = false).
Proof.
  unfold normalize_username_input, handle_of.
  destruct (strip t) as [|c s] eqn:Es; [now left|].
  destruct (str_in (str_lower (c :: s)) END_WORDS) eqn:Ee.
  - right. left. eauto.
  - destruct (username_re _) eqn:Er; simpl; [|now left].
    right. right. repeat split; reflexivity.
Qed.

Lemma normalize_username_input_rejects (t : str) :
  username_re (handle_of t) = false ->
  normalize_username_input t = None
  \/ (exists w, normalize_username_input t = Some w /\ str_in w END_WORDS = true).
Proof.
  intros H. destruct (normalize_username_input_cases t) as [H0|[H1|(_ & H2 & _)]];
    auto. congruence.
Qed.

Lemma normalize_username_input_accepts (t : str) :
  username_re (handle_of t) = true ->
  str_in (str_lower (strip t)) END_WORDS = false ->
  normalize_username_input t = Some (lit "@" ++ handle_of t).
Proof.
  unfold normalize_username_input, handle_of.
  destruct (strip t) as [|c s] eqn:Es; [discriminate|].
  cbv zeta. intros Hr He. rewrite He. revert Hr. unfold str. now intros ->.
Qed.

Lemma duty_entry_shape (name : str) :
  username_re name = true ->
  duty_entry_from_username (lit "@" ++ name) = name ++ lit ", @" ++ name
  /\ entry_shape (duty_entry_from_username (lit "@" ++ name)).
Proof.
  intros H.
  assert (E : duty_entry_from_username (lit "@" ++ name) = name ++ lit ", @" ++ name).
  { unfold duty_entry_from_username. simpl. reflexivity. }
  split; [exact E|]. rewrite E. exists name. auto.
Qed.

Lemma handle_of_strip (t : str) : handle_of (strip t) = handle_of t.
Proof. unfold handle_of. now rewrite strip_idem. Qed.

Lemma normalize_username_input_strip (t : str) :
  normalize_username_input (strip t) = normalize_username_input t.
Proof. unfold normalize_username_input. now rewrite strip_idem. Qed.

Lemma filter_same_length {A : Type} (f : A -> bool) (l : list A) :
  length (filter f l) = length l -> filter f l = l.
Proof.
  induction l as [|x l IH]; simpl; [reflexivity|].
  destruct (f x); simpl; intros H.
  - f_equal. apply IH. lia.
  - pose proof (filter_length_le f l). lia.
Qed.

Lemma d_set_new_list_shape (parts : list str) :
  Forall entry_shape (d_set_new_list parts).
Proof.
  unfold d_set_new_list.
  assert (H : forall acc, Forall entry_shape acc ->
            Forall entry_shape
              (fold_left (fun new_list p =>
                            match normalize_username_input p with
                            | Some uname =>
                              if negb (str_in uname END_WORDS)
                              then new_list ++ [duty_entry_from_username uname]
                              else new_list
                            | None => new_list
                            end) parts acc)).
  { induction parts as [|p parts IH]; intros acc Hacc; cbn [fold_left];
      [exact Hacc|].
    apply IH.
    destruct (normalize_username_input_cases p) as [E|[(w & E & Ew)|(E & Hr & Ew)]];
      rewrite E; cbv beta iota; try rewrite Ew; cbn [negb]; try exact Hacc.
    apply Forall_app. split; [exact Hacc|].
    constructor; [|constructor]. now apply duty_entry_shape. }
  apply H. constructor.
Qed.

Lemma d_set_new_list_rejects (parts : list str) :
  Forall (fun p => username_re (handle_of p) = false) parts ->
  d_set_new_list parts = [].
Proof.
  intros H. unfold d_set_new_list. generalize (@nil str) as acc.
  induction H as [|p parts Hp _ IH]; intros acc; cbn [fold_left]; [reflexivity|].
  destruct (normalize_username_input_rejects p Hp) as [E|(w & E & Ew)];
    rewrite E; cbv beta iota; try rewrite Ew; cbn [negb]; apply IH.
Qed.

Lemma st_add_students_roster (update : Update) (ud : UserData) (st : Store) :
  roster_step (duty_file st) (duty_file (out_store (st_add_students update ud st)))
  /\ (username_re (handle_of (message_text update)) = false ->
      out_store (st_add_students update ud st) = st).
Proof.
  unfold st_add_students. rewrite normalize_username_input_strip.
  destruct (normalize_username_input_cases (message_text update))
    as [E|[(w & E & Ew)|(E & Hr & Ew)]]; rewrite E; cbv beta iota;
    try rewrite Ew; cbn [out_store duty_file].
  - split; [constructor | reflexivity].
  - split; [constructor | reflexivity].
  - split; [|congruence].
    apply roster_add. now apply duty_entry_shape.
Qed.

Lemma cmd_d_set_roster (update : Update) (args : list str) (st : Store) :
  roster_step (duty_file st) (duty_file (snd (cmd_d_set update args st)))
  /\ (forall action rest, args = action :: rest ->
      username_re (handle_of (join (lit " ") rest)) = false ->
      str_lower action = lit "add" \/ str_lower action = lit "remove" ->
      duty_file (snd (cmd_d_set update args st)) = duty_file st)
  /\ (forall rest, args = lit "set" :: rest ->
      Forall (fun p => username_re (handle_of p) = false)
             (re_split_seps (strip (join (lit " ") rest)) [] false) ->
      duty_file (snd (cmd_d_set update args st)) = duty_file st).
Proof.
  unfold cmd_d_set.
  cbn [settings_file duty_file].
  destruct (negb (is_admin update _)) eqn:Hadm.
  { repeat split; try constructor; reflexivity. }
  destruct args as [|action rest].
  { repeat split; try constructor; try reflexivity; discriminate. }
  destruct (str_eqb (str_lower action) (lit "list")) eqn:El.
  { apply str_eqb_eq in El.
    split; [destruct (duty_file st); constructor|].
    split; [|intros; destruct (duty_file st); reflexivity].
    intros a r [= <- <-] _ _. destruct (duty_file st); reflexivity. }
  destruct (str_eqb (str_lower action) (lit "add")) eqn:Ea.
  { destruct (normalize_username_input_cases (join (lit " ") rest))
      as [E|[(w & E & Ew)|(E & Hr & Ew)]]; rewrite E; cbv beta iota;
      try rewrite Ew; cbn [snd duty_file with_duty].
    - repeat split; try constructor; reflexivity.
    - repeat split; try constructor; reflexivity.
    - split; [apply roster_add; now apply duty_entry_shape|].
      split.
      + intros a r [= <- <-] Hrej. congruence.
      + intros r [= -> <-]. apply str_eqb_eq in Ea.
        rewrite str_lower_basic in Ea by reflexivity. discriminate. }
  destruct (str_eqb (str_lower action) (lit "remove")) eqn:Erm.
  { destruct (normalize_username_input_cases (join (lit " ") rest))
      as [E|[(w & E & Ew)|(E & Hr & Ew)]]; rewrite E; cbv beta iota;
      try rewrite Ew; cbn [snd duty_file with_duty].
    - repeat split; try constructor; reflexivity.
    - repeat split; try constructor; reflexivity.
    - set (f := fun x => negb (endswith x _)).
      assert (Hstep : roster_step (duty_file st) (filter f (duty_file st)))
        by (apply roster_remove; exact Hr).
      destruct (length (filter f (duty_file st)) =? length (duty_file st))%nat eqn:Elen;
        simpl.
      + apply Nat.eqb_eq, filter_same_length in Elen.
        repeat split; try constructor; reflexivity.
      + split; [exact Hstep|]. split.
        * intros a r [= <- <-] Hrej. congruence.
        * intros r [= -> <-]. apply str_eqb_eq in Erm.
          rewrite str_lower_basic in Erm by reflexivity. discriminate. }
  destruct (str_eqb (str_lower action) (lit "set")) eqn:Es.
  { pose proof (d_set_new_list_shape
                  (re_split_seps (strip (join (lit " ") rest)) [] false)) as Hshape.
    destruct (d_set_new_list _) as [|e l] eqn:Enew; simpl.
    - repeat split; try constructor; reflexivity.
    - split; [apply roster_set; [discriminate | exact Hshape]|].
      split.
      + intros a r [= <- <-] _ [H|H]; rewrite H in Ea, Erm; discriminate.
      + intros r [= -> <-] Hrej. rewrite (d_set_new_list_rejects _ Hrej) in Enew.
        discriminate. }
  repeat split; try constructor; reflexivity.
Qed.

(** What an accepted handle does to the roster. *)
Lemma st_add_students_appends (update : Update) (ud : UserData) (st : Store) :
  username_re (handle_of (message_text update)) = true ->
  str_in (str_lower (strip (message_text update))) END_WORDS = false ->
  duty_file (out_store (st_add_students update ud st))
  = duty_file st
    ++ [handle_of (message_text update) ++ lit ", @" ++ handle_of (message_text update)].
Proof.
  intros Hr He.
  assert (Ew : str_in (lit "@" ++ handle_of (message_text update)) END_WORDS = false)
    by reflexivity.
  unfold st_add_students. rewrite normalize_username_input_strip.
  rewrite (normalize_username_input_accepts _ Hr He), Ew.
  cbn [out_store duty_file]. do 2 f_equal.
Qed.

Lemma cmd_d_set_add_remove (update : Update) (rest : list str) (st : Store) :
  is_admin update (ensure_first_admin_if_empty update (settings_file st)) = true ->
  username_re (handle_of (join (lit " ") rest)) = true ->
  str_in (str_lower (strip (join (lit " ") rest))) END_WORDS = false ->
  duty_file (snd (cmd_d_set update (lit "add" :: rest) st))
  = duty_file st
    ++ [handle_of (join (lit " ") rest) ++ lit ", @" ++ handle_of (join (lit " ") rest)]
  /\ duty_file (snd (cmd_d_set update (lit "remove" :: rest) st))
     = filter (fun x => negb (endswith x (lit ", @" ++ handle_of (join (lit " ") rest))))
              (duty_file st).
Proof.
  intros Hadm Hr He.
  assert (Ew : str_in (lit "@" ++ handle_of (join (lit " ") rest)) END_WORDS = false)
    by reflexivity.
  split; unfold cmd_d_set; cbn [settings_file duty_file]; rewrite Hadm; cbn [negb];
    rewrite str_lower_basic by reflexivity;
    rewrite (normalize_username_input_accepts _ Hr He), Ew.
  - cbn [map lower_basic str_eqb Z.eqb Pos.eqb andb Z.leb Z.compare Pos.compare
         Pos.compare_cont Z.add Pos.add Pos.succ].
    cbn [snd duty_file with_duty]. do 2 f_equal.
  - match goal with
    | |- context [str_eqb ?a ?b] =>
      replace (str_eqb a b) with false by (vm_compute; reflexivity)
    end.
    match goal with
    | |- context [str_eqb ?a ?b] =>
      replace (str_eqb a b) with false by (vm_compute; reflexivity)
    end.
    match goal with
    | |- context [str_eqb ?a ?b] =>
      replace (str_eqb a b) with true by (vm_compute; reflexivity)
    end.
    set (f := fun x => negb (endswith x _)).
    destruct (length (filter f (duty_file st)) =? length (duty_file st))%nat eqn:Elen;
      cbn [snd duty_file with_duty]; [|reflexivity].
    apply Nat.eqb_eq, filter_same_length in Elen. now rewrite Elen.
Qed.

Lemma roster_step_keeps_shape (old new : list str) :
  roster_step old new -> Forall entry_shape old -> Forall entry_shape new.
Proof.
  intros [ |e He|l _ Hl|name _] Hold.
  - exact Hold.
  - apply Forall_app. split; [exact Hold | now repeat constructor].
  - exact Hl.
  - rewrite Forall_forall in *. intros x Hx. apply filter_In in Hx. now apply Hold.
Qed.

(** C10. Each roster operation ([st_add_students], [/d_set] with any
    arguments) changes the roster by one [roster_step]: not at all, by
    appending one entry [name, @name] with [name] matching
    [[A-Za-z0-9_]{3,64}], by replacing it with such entries, or by deleting
    precisely the entries that end with [, @name]. An input whose handle
    (trimmed, the optional [@] dropped) does not match the pattern leaves
    the roster as it is (for [set]: when no part matches); one whose handle
    matches, and that is no end word, is appended as [name, @name] by the
    dialog and by [add], and [remove] from an admin deletes precisely the
    entries ending with [, @name]. Hence a roster of entries of that shape
    stays one. *)
Theorem roster_operations_keep_shape (update : Update) (args : list str)
  (ud : UserData) (st : Store) :
  roster_step (duty_file st) (duty_file (out_store (st_add_students update ud st)))
  /\ roster_step (duty_file st) (duty_file (snd (cmd_d_set update args st)))
  /\ (username_re (handle_of (message_text update)) = false ->
      out_store (st_add_students update ud st) = st)
  /\ (forall action rest, args = action :: rest ->
      username_re (handle_of (join (lit " ") rest)) = false ->
      str_lower action = lit "add" \/ str_lower action = lit "remove" ->
      duty_file (snd (cmd_d_set update args st)) = duty_file st)
  /\ (forall rest, args = lit "set" :: rest ->
      Forall (fun p => username_re (handle_of p) = false)
             (re_split_seps (strip (join (lit " ") rest)) [] false) ->
      duty_file (snd (cmd_d_set update args st)) = duty_file st)
  /\ (username_re (handle_of (message_text update)) = true ->
      str_in (str_lower (strip (message_text update))) END_WORDS = false ->
      duty_file (out_store (st_add_students update ud st))
      = duty_file st
        ++ [handle_of (message_text update) ++ lit ", @"
            ++ handle_of (message_text update)])
  /\ (forall rest,
      is_admin update (ensure_first_admin_if_empty update (settings_file st)) = true ->
      username_re (handle_of (join (lit " ") rest)) = true ->
      str_in (str_lower (strip (join (lit " ") rest))) END_WORDS = false ->
      duty_file (snd (cmd_d_set update (lit "add" :: rest) st))
      = duty_file st
        ++ [handle_of (join (lit " ") rest) ++ lit ", @"
            ++ handle_of (join (lit " ") rest)]
      /\ duty_file (snd (cmd_d_set update (lit "remove" :: rest) st))
         = filter (fun x =>
                     negb (endswith x (lit ", @" ++ handle_of (join (lit " ") rest))))
                  (duty_file st))
  /\ (Forall entry_shape (duty_file st) ->
      Forall entry_shape (duty_file (out_store (st_add_students update ud st)))
      /\ Forall entry_shape (duty_file (snd (cmd_d_set update args st)))).
Proof.
  destruct (st_add_students_roster update ud st) as [Ha Hrej].
  destruct (cmd_d_set_roster update args st) as (Hd & Hrej1 & Hrej2).
  split; [exact Ha|]. split; [exact Hd|]. split; [exact Hrej|].
  split; [exact Hrej1|]. split; [exact Hrej2|].
  split; [apply st_add_students_appends|].
  split; [intros rest; apply cmd_d_set_add_remove|].
  intros Hold. split; eapply roster_step_keeps_shape; eauto.
Qed.

End RosterShape.

(* ================================================================== *)
(** ** Outgoing text and chat ids *)

Lemma str_pair_ind (P : str -> Prop) :
  P [] -> (forall c, P [c]) ->
  (forall c d r, P r -> P (d :: r) -> P (c :: d :: r)) ->
  forall s, P s.
Proof.
  intros H0 H1 H2 s. enough (P s /\ forall c, P (c :: s)) by tauto.
  induction s as [|d r [IHr IHd]]; split; auto.
Qed.

Lemma normalize_text_for_send_cons2 (c d : Z) (r : str) :
  normalize_text_for_send (c :: d :: r)
  = if (c =? 92) && (d =? 110) then 10 :: normalize_text_for_send r
    else c :: normalize_text_for_send (d :: r).
Proof. reflexivity. Qed.

Lemma has_escape_cons2 (c d : Z) (r : str) :
  has_escape (c :: d :: r) = ((c =? 92) && (d =? 110)) || has_escape (d :: r).
Proof. reflexivity. Qed.

(** What the result starts with: a line feed or the first character. *)
Lemma normalize_text_for_send_head (d : Z) (r : str) :
  exists t, normalize_text_for_send (d :: r) = 10 :: t
            \/ normalize_text_for_send (d :: r) = d :: t.
Proof.
  destruct r as [|e r]; [exists []; now right|].
  rewrite normalize_text_for_send_cons2.
  destruct ((d =? 92) && (e =? 110)); eexists; [left | right]; reflexivity.
Qed.

Lemma normalize_text_for_send_clean (s : str) :
  has_escape (normalize_text_for_send s) = false.
Proof.
  induction s as [| c | c d r IHr IHd] using str_pair_ind; try reflexivity.
  rewrite normalize_text_for_send_cons2.
  destruct ((c =? 92) && (d =? 110)) eqn:E.
  - destruct (normalize_text_for_send r) as [|h t]; [reflexivity|].
    rewrite has_escape_cons2. exact IHr.
  - destruct (normalize_text_for_send_head d r) as [t [Ht|Ht]];
      rewrite Ht in *; rewrite has_escape_cons2, IHd.
    + now rewrite andb_false_r.
    + now rewrite E.
Qed.

Lemma normalize_text_for_send_id (s : str) :
  has_escape s = false -> normalize_text_for_send s = s.
Proof.
  induction s as [| c | c d r IHr IHd] using str_pair_ind; try reflexivity.
  rewrite has_escape_cons2, normalize_text_for_send_cons2.
  intros H. apply orb_false_iff in H. destruct H as [-> H].
  now rewrite IHd.
Qed.

Lemma normalize_text_for_send_length (s : str) :
  (length (normalize_text_for_send s) <= length s)%nat.
Proof.
  induction s as [| c | c d r IHr IHd] using str_pair_ind; try (simpl; lia).
  rewrite normalize_text_for_send_cons2.
  destruct ((c =? 92) && (d =? 110)); simpl length in *; lia.
Qed.

(** X1. What [normalize_text_for_send] returns holds no backslash followed
    by [n] any more, so a second pass changes nothing; a text without that
    pair is returned as it is; and the result is never longer than the
    text. *)
Theorem normalize_text_for_send_settles (text : str) :
  has_escape (normalize_text_for_send text) = false
  /\ normalize_text_for_send (normalize_text_for_send text)
     = normalize_text_for_send text
  /\ (has_escape text = false -> normalize_text_for_send text = text)
  /\ (length (normalize_text_for_send text) <= length text)%nat.
Proof.
  split; [apply normalize_text_for_send_clean|].
  split; [apply normalize_text_for_send_id, normalize_text_for_send_clean|].
  split; [apply normalize_text_for_send_id | apply normalize_text_for_send_length].
Qed.

Section ChatIds.
Context {py : PyLib}.

Lemma decimal_fold_none (s : str) :
  fold_left (fun acc c =>
               match acc, ch_decimal c with
               | Some a, Some v => Some (a * 10 + v)
               | _, _ => None
               end) s None = None.
Proof. induction s as [|c s IH]; simpl; [reflexivity | exact IH]. Qed.

(** The value of a run of digits lies below the power of ten of its
    length, when each digit is worth 0 to 9. *)
Lemma decimal_fold_bound (s : str) :
  (forall c v, ch_decimal c = Some v -> 0 <= v <= 9) ->
  forall a v, 0 <= a ->
    fold_left (fun acc c =>
                 match acc, ch_decimal c with
                 | Some a, Some v => Some (a * 10 + v)
                 | _, _ => None
                 end) s (Some a) = Some v ->
    a * 10 ^ Z.of_nat (length s) <= v < (a + 1) * 10 ^ Z.of_nat (length s).
Proof.
  intros Hd. induction s as [|c s IH]; intros a v Ha; simpl fold_left.
  - intros [= <-]. simpl. lia.
  - destruct (ch_decimal c) as [w|] eqn:Ec.
    + intros H. apply IH in H; [|specialize (Hd c w Ec); lia].
      specialize (Hd c w Ec).
      replace (Z.of_nat (length (c :: s))) with (Z.succ (Z.of_nat (length s)))
        by (simpl length; lia).
      rewrite Z.pow_succ_r by lia.
      assert (0 < 10 ^ Z.of_nat (length s)) by (apply Z.pow_pos_nonneg; lia).
      nia.
    + rewrite decimal_fold_none. discriminate.
Qed.

Lemma decimal_value_bound (s : str) (v : Z) :
  (forall c v, ch_decimal c = Some v -> 0 <= v <= 9) ->
  decimal_value s = Some v -> 0 <= v < 10 ^ Z.of_nat (length s).
Proof.
  intros Hd H. apply (decimal_fold_bound s Hd 0 v) in H; lia.
Qed.

Lemma decimal_fold_ascii (ds : str) :
  forallb is_ascii_digit ds = true ->
  forall a,
    fold_left (fun acc c =>
                 match acc, ch_decimal c with
                 | Some a, Some v => Some (a * 10 + v)
                 | _, _ => None
                 end) ds (Some a)
    = Some (fold_left (fun a c => a * 10 + (c - 48)) ds a).
Proof.
  induction ds as [|c ds IH]; intros H a; simpl; [reflexivity|].
  simpl in H. apply andb_true_iff in H. destruct H as [Hc H].
  assert (Hb : basic_cp c = true).
  { unfold is_ascii_digit in Hc. unfold basic_cp. apply andb_true_iff in Hc.
    destruct Hc as [H1%Z.leb_le H2%Z.leb_le].
    apply orb_true_iff. left. apply andb_true_iff. split; apply Z.leb_le; lia. }
  rewrite (ch_decimal_basic c Hb). unfold ascii_digit.
  unfold is_ascii_digit in Hc. rewrite Hc. now apply IH.
Qed.

Lemma decimal_value_ascii (ds : str) :
  forallb is_ascii_digit ds = true -> decimal_value ds = Some (digits_value ds).
Proof. intros H. apply (decimal_fold_ascii ds H 0). Qed.

(** X2. A chat id [parse_chat_id] accepts has fewer than 21 digits, so it
    lies strictly between -10^20 and 10^20, and the trimmed text has 4 to 21
    characters; a text that is empty once trimmed is refused. (Every decimal
    digit of the library's table is worth 0 to 9.) *)
Theorem parse_chat_id_bounded (text : str) (cid : Z) :
  (forall c v, ch_decimal c = Some v -> 0 <= v <= 9) ->
  parse_chat_id text = Some cid ->
  - 10 ^ 20 < cid < 10 ^ 20
  /\ (4 <= length (strip text) <= 21)%nat.
Proof.
  intros Hd. unfold parse_chat_id.
  destruct (strip text) as [|c r] eqn:Et; [discriminate|].
  set (digits := if c =? 45 then r else c :: r).
  destruct ((4 <=? length digits)%nat && (length digits <=? 20)%nat) eqn:El;
    [|discriminate].
  apply andb_true_iff in El. destruct El as [H4%Nat.leb_le H20%Nat.leb_le].
  destruct (decimal_value digits) as [v|] eqn:Ev; [|discriminate].
  apply (decimal_value_bound _ _ Hd) in Ev.
  assert (Hp : 10 ^ Z.of_nat (length digits) <= 10 ^ 20)
    by (apply Z.pow_le_mono_r; lia).
  intros [= <-]. split.
  - destruct (c =? 45); lia.
  - subst digits. destruct (c =? 45); simpl length in *; lia.
Qed.

(** X3. A text that, once trimmed, is 4 to 20 of the digits 0 to 9 is
    accepted as the number they write, and with a minus sign in front as
    its negative; leading zeros are read as such, so [0000] is the chat id
    0. *)
Theorem parse_chat_id_accepts (text ds : str) :
  forallb is_ascii_digit ds = true ->
  (4 <= length ds <= 20)%nat ->
  (strip text = ds -> parse_chat_id text = Some (digits_value ds))
  /\ (strip text = 45 :: ds -> parse_chat_id text = Some (- digits_value ds)).
Proof.
  intros Hds [H4 H20].
  assert (El : (4 <=? length ds)%nat && (length ds <=? 20)%nat = true).
  { apply andb_true_iff. split; now apply Nat.leb_le. }
  split; intros Et; unfold parse_chat_id; rewrite Et.
  - destruct ds as [|c r] eqn:Eds; [simpl in H4; lia|].
    assert (Hc : (c =? 45) = false).
    { simpl in Hds. apply andb_true_iff in Hds. destruct Hds as [Hc _].
      unfold is_ascii_digit in Hc. apply andb_true_iff in Hc.
      destruct Hc as [Hc%Z.leb_le _]. apply Z.eqb_neq. lia. }
    rewrite Hc, El, (decimal_value_ascii _ Hds). reflexivity.
  - rewrite Z.eqb_refl, El, (decimal_value_ascii _ Hds). reflexivity.
Qed.

End ChatIds.

(** A supergroup id with spaces around it, and four zeros. *)
Lemma parse_chat_id_bounded_witness :
  - 10 ^ 20 < -1001234567890 < 10 ^ 20
  /\ (4 <= length (strip (lit " -1001234567890 ")) <= 21)%nat.
Proof.
  apply (parse_chat_id_bounded (py := basic_pylib) (lit " -1001234567890 ")).
  - intros c v. simpl. unfold ascii_digit.
    destruct ((48 <=? c) && (c <=? 57)) eqn:E; [|discriminate].
    intros [= <-]. apply andb_true_iff in E. lia.
  - vm_compute. reflexivity.
Defined.

Lemma parse_chat_id_accepts_witness :
  parse_chat_id (py := basic_pylib) (lit " -1001234567890 ") = Some (-1001234567890)
  /\ parse_chat_id (py := basic_pylib) (lit "0000") = Some 0.
Proof.
  split.
  - apply (proj2 (parse_chat_id_accepts (py := basic_pylib)
                    (lit " -1001234567890 ") (lit "1001234567890")
                    eq_refl ltac:(simpl; lia))).
    vm_compute. reflexivity.
  - apply (proj1 (parse_chat_id_accepts (py := basic_pylib)
                    (lit "0000") (lit "0000") eq_refl ltac:(simpl; lia))).
    vm_compute. reflexivity.
Defined.

(* ================================================================== *)
(** ** The admin tools, the broadcast chat and the admin set *)

Lemma with_settings_same (st : Store) : with_settings st (settings_file st) = st.
Proof. now destruct st. Qed.

Lemma is_admin_admins (update : Update) (s : Settings) :
  is_admin update s = true -> admins s <> [].
Proof. unfold is_admin. destruct (admins s); [discriminate | discriminate]. Qed.

(** For an admin the bootstrap does nothing. *)
Lemma ensure_first_admin_of_admin (update : Update) (s : Settings) :
  is_admin update s = true -> ensure_first_admin_if_empty update s = s.
Proof. intros H. apply ensure_first_admin_nonempty. now apply is_admin_admins in H. Qed.

(** Whoever is no admin after the bootstrap was not made one by it. *)
Lemma ensure_first_admin_of_stranger (update : Update) (s : Settings) :
  is_admin update (ensure_first_admin_if_empty update s) = false ->
  ensure_first_admin_if_empty update s = s.
Proof.
  unfold ensure_first_admin_if_empty.
  destruct (negb (is_private update)); [reflexivity|].
  destruct (admins s) as [|a l]; [|reflexivity].
  destruct (username_tag update) as [|c tag] eqn:Et; [reflexivity|].
  unfold is_admin. rewrite Et. cbn [admins str_in existsb].
  now rewrite str_eqb_refl.
Qed.

Section Broadcast.
Context {py : PyLib}.

(** X4. When [st_set_chat] accepts a text as the chat id [cid], it returns
    to the menu and stores [cid] beside the unchanged admin list; the test
    command of an admin then sends its one message to [cid], unless [cid]
    is 0: a chat id 0 is stored, and the tools go on asking for a chat. *)
Theorem st_set_chat_then_cmd_test
  (update admin : Update) (ud : UserData) (st : Store) (cid : Z) :
  parse_chat_id (message_text update) = Some cid ->
  is_admin admin (settings_file st) = true ->
  out_state (st_set_chat update ud st) = ST_MENU
  /\ settings_file (out_store (st_set_chat update ud st))
     = {| chat_id := Some cid; admins := admins (settings_file st) |}
  /\ cmd_test admin (out_store (st_set_chat update ud st))
     = if cid =? 0
       then (TrNeedChat, out_store (st_set_chat update ud st), [])
       else (TrDone, out_store (st_set_chat update ud st), [(cid, MSG_TEST)]).
Proof.
  intros Hp Ha. unfold st_set_chat. rewrite Hp. cbn [out_state out_store].
  split; [reflexivity|]. split; [reflexivity|].
  set (st1 := with_settings st _).
  assert (Ha1 : is_admin admin (settings_file st1) = true) by exact Ha.
  unfold cmd_test. rewrite (ensure_first_admin_of_admin _ _ Ha1), with_settings_same.
  rewrite Ha1. cbn [negb]. subst st1. cbn [settings_file with_settings chat_id].
  destruct (cid =? 0); reflexivity.
Qed.

End Broadcast.

(** X5. Whatever [/test] and [/s] send goes to the chat id stored in the
    settings, which is then not 0, and comes from a user who is an admin
    once the bootstrap has run; the text holds no backslash followed by
    [n]. *)
Theorem admin_tools_reach_only_the_chat
  (update : Update) (args : list str) (st : Store) (c : Z) (text : str) :
  In (c, text) (snd (cmd_test update st))
  \/ In (c, text) (snd (cmd_send_to_chat update args st)) ->
  chat_id (ensure_first_admin_if_empty update (settings_file st)) = Some c
  /\ c <> 0
  /\ is_admin update (ensure_first_admin_if_empty update (settings_file st)) = true
  /\ has_escape text = false.
Proof.
  unfold cmd_test, cmd_send_to_chat. cbn [with_settings settings_file].
  destruct (is_admin update _) eqn:Ha; cbn [negb snd];
    [|intros [[]|[]]].
  destruct (chat_id _) as [c0|] eqn:Ec; [|intros [[]|[]]].
  destruct (c0 =? 0) eqn:E0; [intros [[]|[]]|].
  apply Z.eqb_neq in E0.
  intros [H|H].
  - destruct H as [[= <- <-]|[]]. repeat split; auto.
  - destruct args as [|a args]; [destruct H|].
    destruct H as [[= <- <-]|[]]. repeat split; auto.
    apply normalize_text_for_send_clean.
Qed.

(** An admin with the chat -1001234567890 configured writes
    [/s a\nb]. *)
Lemma admin_tools_reach_only_the_chat_witness :
  chat_id (ensure_first_admin_if_empty
             (message_from Group (lit "admin") (lit "/s a\nb"))
             {| chat_id := Some (-1001234567890); admins := [lit "@admin"] |})
  = Some (-1001234567890)
  /\ -1001234567890 <> 0
  /\ is_admin (message_from Group (lit "admin") (lit "/s a\nb"))
       (ensure_first_admin_if_empty
          (message_from Group (lit "admin") (lit "/s a\nb"))
          {| chat_id := Some (-1001234567890); admins := [lit "@admin"] |}) = true
  /\ has_escape [97; 10; 98] = false.
Proof.
  apply (admin_tools_reach_only_the_chat
           (message_from Group (lit "admin") (lit "/s a\nb")) [lit "a\nb"]
           {| settings_file := {| chat_id := Some (-1001234567890);
                                  admins := [lit "@admin"] |};
              schedule_file := []; duty_file := []; homework_file := [];
              jokes_file := [] |}).
  right. vm_compute. left. reflexivity.
Defined.

(* ------------------------------------------------------------------ *)
(** *** The order of strings and [sorted(set(...))] *)

Lemma str_compare_refl (a : str) : str_compare a a = Eq.
Proof. induction a as [|x a IH]; simpl; [reflexivity|]. now rewrite Z.compare_refl. Qed.

Lemma str_compare_eq (a b : str) : str_compare a b = Eq -> a = b.
Proof.
  revert b. induction a as [|x a IH]; intros [|y b]; simpl; try discriminate;
    [reflexivity|].
  destruct (x ?= y) eqn:E; try discriminate.
  apply Z.compare_eq in E. intros H. apply IH in H. now subst.
Qed.

Lemma str_compare_antisym (a b : str) :
  str_compare b a = CompOpp (str_compare a b).
Proof.
  revert b. induction a as [|x a IH]; intros [|y b]; simpl; try reflexivity.
  rewrite (Z.compare_antisym x y). destruct (x ?= y); simpl; auto.
Qed.

Lemma str_lt_trans (a b c : str) : str_lt a b -> str_lt b c -> str_lt a c.
Proof.
  unfold str_lt. revert b c.
  induction a as [|x a IH]; intros [|y b] [|z c]; simpl; try discriminate;
    try reflexivity.
  destruct (x ?= y) eqn:Exy; try discriminate.
  - apply Z.compare_eq in Exy. subst y.
    destruct (x ?= z); try discriminate; [apply IH | reflexivity].
  - intros _. destruct (y ?= z) eqn:Eyz; try discriminate.
    + apply Z.compare_eq in Eyz. subst z. now rewrite Exy.
    + intros _. rewrite Z.compare_lt_iff in *.
      replace (x ?= z) with Lt by (symmetry; apply Z.compare_lt_iff; lia).
      reflexivity.
Qed.

Lemma str_lt_irrefl (a : str) : ~ str_lt a a.
Proof. unfold str_lt. now rewrite str_compare_refl. Qed.

Lemma str_lt_asym (a b : str) : str_lt a b -> ~ str_lt b a.
Proof. unfold str_lt. rewrite (str_compare_antisym a b). now intros ->. Qed.

Lemma set_insert_In (x a : str) (l : list str) :
  In a (set_insert x l) <-> a = x \/ In a l.
Proof.
  induction l as [|y l IH]; simpl.
  - intuition.
  - destruct (str_compare x y) eqn:E.
    + apply str_compare_eq in E. subst y. simpl. intuition.
    + simpl. intuition.
    + simpl. rewrite IH. intuition.
Qed.

Lemma set_insert_sorted (x : str) (l : list str) :
  strictly_sorted l -> strictly_sorted (set_insert x l).
Proof.
  induction l as [|y l IH]; simpl.
  - intros _. split; [constructor | exact I].
  - intros [Hy Hl]. destruct (str_compare x y) eqn:E.
    + simpl. auto.
    + simpl. split; [|auto]. constructor; [exact E|].
      eapply Forall_impl; [|exact Hy]. intros z Hz. now apply str_lt_trans with y.
    + simpl. split; [|auto].
      rewrite Forall_forall in *. intros z Hz. apply set_insert_In in Hz.
      destruct Hz as [->|Hz]; [|auto].
      unfold str_lt. rewrite (str_compare_antisym x y), E. reflexivity.
Qed.

Lemma sorted_set_sorted (l : list str) : strictly_sorted (sorted_set l).
Proof.
  induction l as [|x l IH]; simpl; [exact I|]. now apply set_insert_sorted.
Qed.

Lemma sorted_set_In (a : str) (l : list str) : In a (sorted_set l) <-> In a l.
Proof.
  induction l as [|x l IH]; simpl; [tauto|]. rewrite set_insert_In, IH. intuition.
Qed.

(** A sorted list is what [sorted(set(...))] makes of it, and inserting one
    of its members leaves it as it is. *)
Lemma sorted_set_fixed (l : list str) : strictly_sorted l -> sorted_set l = l.
Proof.
  induction l as [|x l IH]; simpl; [reflexivity|]. intros [Hx Hl].
  rewrite (IH Hl). destruct l as [|y l]; [reflexivity|]. simpl.
  apply Forall_inv in Hx. unfold str_lt in Hx. now rewrite Hx.
Qed.

Lemma set_insert_member (x : str) (l : list str) :
  strictly_sorted l -> In x l -> set_insert x l = l.
Proof.
  induction l as [|y l IH]; simpl; [intros _ []|]. intros [Hy Hl] Hin.
  destruct (str_compare x y) eqn:E; [reflexivity| |].
  - exfalso. destruct Hin as [->|Hin].
    + now rewrite str_compare_refl in E.
    + rewrite Forall_forall in Hy. apply (str_lt_asym y x); auto.
  - f_equal. destruct Hin as [->|Hin].
    + now rewrite str_compare_refl in E.
    + now apply IH.
Qed.

Lemma sorted_set_again (x : str) (l : list str) :
  sorted_set (x :: sorted_set (x :: l)) = sorted_set (x :: l).
Proof.
  change (sorted_set (x :: sorted_set (x :: l)))
    with (set_insert x (sorted_set (sorted_set (x :: l)))).
  assert (Hs : strictly_sorted (sorted_set (x :: l))) by apply sorted_set_sorted.
  rewrite (sorted_set_fixed _ Hs). apply set_insert_member; [exact Hs|].
  apply sorted_set_In. now left.
Qed.

Lemma str_in_of_In (x : str) (xs : list str) : In x xs -> str_in x xs = true.
Proof. apply str_in_In. Qed.

Section AdminSet.
Context {py : PyLib}.

(** [st_add_admin] on a text that carries an acceptable handle. *)
Lemma st_add_admin_accepts (update : Update) (ud : UserData) (st : Store) :
  username_re (handle_of (message_text update)) = true ->
  str_in (str_lower (strip (message_text update))) END_WORDS = false ->
  st_add_admin update ud st
  = {| out_state := ST_MENU; out_data := ud;
       out_store := with_settings st
                      {| chat_id := chat_id (settings_file st);
                         admins := sorted_set ((64 :: handle_of (message_text update))
                                                 :: admins (settings_file st)) |};
       out_sent := [] |}.
Proof.
  intros Hr He. unfold st_add_admin.
  rewrite (normalize_username_input_accepts _ Hr He).
  replace (str_in (lit "@" ++ handle_of (message_text update)) END_WORDS) with false
    by reflexivity.
  reflexivity.
Qed.

(** X6. When [st_add_admin] accepts a handle, the stored admin list is in
    strictly ascending order of code points (so without repetitions), its
    members are the former admins and [@handle], and the chat id is kept. *)
Theorem st_add_admin_sorted_set (update : Update) (ud : UserData) (st : Store) :
  username_re (handle_of (message_text update)) = true ->
  str_in (str_lower (strip (message_text update))) END_WORDS = false ->
  out_state (st_add_admin update ud st) = ST_MENU
  /\ chat_id (settings_file (out_store (st_add_admin update ud st)))
     = chat_id (settings_file st)
  /\ strictly_sorted (admins (settings_file (out_store (st_add_admin update ud st))))
  /\ (forall a : str,
        In a (admins (settings_file (out_store (st_add_admin update ud st))))
        <-> a = 64 :: handle_of (message_text update)
            \/ In a (admins (settings_file st))).
Proof.
  intros Hr He. rewrite (st_add_admin_accepts _ _ _ Hr He).
  cbn [out_state out_store with_settings settings_file chat_id admins].
  split; [reflexivity|]. split; [reflexivity|].
  split; [apply sorted_set_sorted|].
  intros a. rewrite sorted_set_In. simpl. intuition.
Qed.

(** X7. After [st_add_admin] has accepted a handle, the user of that name is
    an admin in whatever chat; whoever was an admin still is; and adding the
    same handle a second time changes nothing. *)
Theorem st_add_admin_grants (update : Update) (ud ud' : UserData) (st : Store) :
  username_re (handle_of (message_text update)) = true ->
  str_in (str_lower (strip (message_text update))) END_WORDS = false ->
  (forall (chat : ChatType) (t : str),
      is_admin (message_from chat (handle_of (message_text update)) t)
               (settings_file (out_store (st_add_admin update ud st))) = true)
  /\ (forall other : Update,
        is_admin other (settings_file st) = true ->
        is_admin other (settings_file (out_store (st_add_admin update ud st))) = true)
  /\ out_store (st_add_admin update ud' (out_store (st_add_admin update ud st)))
     = out_store (st_add_admin update ud st).
Proof.
  intros Hr He.
  rewrite (st_add_admin_accepts _ ud' _ Hr He), (st_add_admin_accepts _ ud _ Hr He).
  cbn [out_state out_store with_settings settings_file chat_id admins
       schedule_file duty_file homework_file jokes_file].
  split; [|split].
  - intros chat t. unfold is_admin, username_tag, message_from.
    cbn [effective_username admins].
    destruct (handle_of (message_text update)) as [|c h] eqn:Eh;
      [discriminate|].
    apply str_in_of_In, sorted_set_In. now left.
  - intros other. unfold is_admin. cbn [admins]. intros H.
    apply str_in_In in H. apply str_in_of_In, sorted_set_In. now right.
  - unfold with_settings.
    cbn [settings_file schedule_file duty_file homework_file jokes_file chat_id admins].
    now rewrite sorted_set_again.
Qed.

(** X8. As long as no entry of the admin list is the empty string, a user
    without a username is no admin; and the bootstrap, [st_add_admin] and
    [st_set_chat] keep the list that way, so the handlers never open the
    admin commands to such a user. *)
Theorem anonymous_user_is_no_admin (update : Update) (ud : UserData) (st : Store) :
  admins_named (settings_file st) ->
  (forall anon : Update,
      username_tag anon = [] -> is_admin anon (settings_file st) = false)
  /\ admins_named (ensure_first_admin_if_empty update (settings_file st))
  /\ admins_named (settings_file (out_store (st_add_admin update ud st)))
  /\ admins_named (settings_file (out_store (st_set_chat update ud st))).
Proof.
  unfold admins_named. intros Hn. split; [|split; [|split]].
  - intros anon Ht. unfold is_admin. rewrite Ht. apply str_in_not_In.
    intros Hin. rewrite Forall_forall in Hn. now apply (Hn [] Hin).
  - unfold ensure_first_admin_if_empty.
    destruct (negb (is_private update)); [exact Hn|].
    destruct (admins (settings_file st)) eqn:Ea; [|now rewrite Ea].
    destruct (username_tag update) as [|c tag]; [now rewrite Ea|].
    cbn [admins]. repeat constructor. discriminate.
  - unfold st_add_admin.
    destruct (normalize_username_input_cases (message_text update))
      as [E|[(w & E & Ew)|(E & Hr & Ew)]]; rewrite E; cbv beta iota;
      try rewrite Ew; cbn [out_store]; try exact Hn.
    cbn [with_settings settings_file admins].
    rewrite Forall_forall in *. intros a Ha.
    apply (proj1 (sorted_set_In _ _)) in Ha. apply in_inv in Ha. destruct Ha as [<-|Ha]; [discriminate | auto].
  - unfold st_set_chat.
    destruct (parse_chat_id (message_text update)); cbn [out_store]; exact Hn.
Qed.

End AdminSet.

(** [@bob] is added to the admins [@carol], [@alice] (stored in that
    order). *)
Lemma st_add_admin_sorted_set_witness :
  admins (settings_file (out_store
    (st_add_admin (py := basic_pylib)
       (message_from Private (lit "carol") (lit " @bob "))
       user_data_empty
       {| settings_file := {| chat_id := None;
                              admins := [lit "@carol"; lit "@alice"] |};
          schedule_file := []; duty_file := []; homework_file := [];
          jokes_file := [] |})))
  = [lit "@alice"; lit "@bob"; lit "@carol"]
  /\ strictly_sorted [lit "@alice"; lit "@bob"; lit "@carol"].
Proof.
  pose proof (st_add_admin_sorted_set (py := basic_pylib)
                (message_from Private (lit "carol") (lit " @bob "))
                user_data_empty
                {| settings_file := {| chat_id := None;
                                       admins := [lit "@carol"; lit "@alice"] |};
                   schedule_file := []; duty_file := []; homework_file := [];
                   jokes_file := [] |} eq_refl eq_refl) as (_ & _ & Hs & _).
  split; [vm_compute; reflexivity | exact Hs].
Defined.

Lemma st_add_admin_grants_witness :
  is_admin (message_from Group (lit "bob") (lit "/d_set list"))
    (settings_file (out_store
       (st_add_admin (py := basic_pylib)
          (message_from Private (lit "carol") (lit " @bob "))
          user_data_empty
          {| settings_file := {| chat_id := None; admins := [lit "@carol"] |};
             schedule_file := []; duty_file := []; homework_file := [];
             jokes_file := [] |}))) = true.
Proof.
  pose proof (st_add_admin_grants (py := basic_pylib)
                (message_from Private (lit "carol") (lit " @bob "))
                user_data_empty user_data_empty
                {| settings_file := {| chat_id := None; admins := [lit "@carol"] |};
                   schedule_file := []; duty_file := []; homework_file := [];
                   jokes_file := [] |} eq_refl eq_refl) as (H & _ & _).
  exact (H Group (lit "/d_set list")).
Defined.

Lemma anonymous_user_is_no_admin_witness :
  is_admin {| effective_chat := Some Private; effective_username := None;
              message_text := lit "/d_set list" |}
           {| chat_id := None; admins := [lit "@carol"] |} = false.
Proof.
  pose proof (anonymous_user_is_no_admin (py := basic_pylib)
                (message_from Private (lit "carol") (lit "x")) user_data_empty
                {| settings_file := {| chat_id := None; admins := [lit "@carol"] |};
                   schedule_file := []; duty_file := []; homework_file := [];
                   jokes_file := [] |}) as H.
  destruct H as (H & _).
  - repeat constructor. discriminate.
  - apply H. reflexivity.
Defined.

Lemma st_set_chat_then_cmd_test_witness :
  cmd_test (message_from Private (lit "carol") (lit "/test"))
    (out_store (st_set_chat (py := basic_pylib)
       (message_from Private (lit "carol") (lit "-1001234567890"))
       user_data_empty
       {| settings_file := {| chat_id := None; admins := [lit "@carol"] |};
          schedule_file := []; duty_file := []; homework_file := [];
          jokes_file := [] |}))
  = (TrDone,
     {| settings_file := {| chat_id := Some (-1001234567890);
                            admins := [lit "@carol"] |};
        schedule_file := []; duty_file := []; homework_file := [];
        jokes_file := [] |},
     [(-1001234567890, MSG_TEST)]).
Proof.
  pose proof (st_set_chat_then_cmd_test (py := basic_pylib)
                (message_from Private (lit "carol") (lit "-1001234567890"))
                (message_from Private (lit "carol") (lit "/test"))
                user_data_empty
                {| settings_file := {| chat_id := None; admins := [lit "@carol"] |};
                   schedule_file := []; duty_file := []; homework_file := [];
                   jokes_file := [] |} (-1001234567890) eq_refl eq_refl)
    as (_ & _ & H).
  exact H.
Defined.

(* ================================================================== *)
(** ** The menu: its buttons and who may use them *)

Section Menu.
Context {py : PyLib}.
Variables (fuel : nat) (cfg : Config) (today : date).

(** The router for a user who is no admin once the bootstrap has run. *)
Lemma menu_router_stranger (update : Update) (ud : UserData) (st : Store) :
  is_admin update (ensure_first_admin_if_empty update (settings_file st)) = false ->
  menu_router fuel cfg today update ud st
  = let text := strip (message_text update) in
    if str_eqb text BTN_SCHEDULE then Some (Ok (MrScheduleHint, back_to_menu ud st))
    else if str_eqb text BTN_DUTY then
      match cmd_duty fuel cfg (duty_file st) today with
      | None => None
      | Some (Raise e) => Some (Raise e)
      | Some (Ok reply) => Some (Ok (MrDuty reply, back_to_menu ud st))
      end
    else if str_eqb text BTN_HOMEWORK then Some (Ok (MrHomeworkHint, back_to_menu ud st))
    else if str_eqb text BTN_HELP then Some (Ok (MrHelp, back_to_menu ud st))
    else Some (Ok (MrOk, back_to_menu ud st)).
Proof.
  intros Ha. unfold menu_router. cbn [settings_file with_settings]. rewrite Ha.
  rewrite (ensure_first_admin_of_stranger _ _ Ha), with_settings_same. reflexivity.
Qed.

(** The router for an admin, on a text that is none of the four public
    buttons. *)
Lemma menu_router_admin (update : Update) (ud : UserData) (st0 : Store) :
  is_admin update (ensure_first_admin_if_empty update (settings_file st0)) = true ->
  str_eqb (strip (message_text update)) BTN_SCHEDULE = false ->
  str_eqb (strip (message_text update)) BTN_DUTY = false ->
  str_eqb (strip (message_text update)) BTN_HOMEWORK = false ->
  str_eqb (strip (message_text update)) BTN_HELP = false ->
  menu_router fuel cfg today update ud st0
  = let text := strip (message_text update) in
    let st := with_settings st0
                (ensure_first_admin_if_empty update (settings_file st0)) in
    if str_eqb text BTN_ADD_CHAT then
      Some (Ok (MrAskChat, {| out_state := ST_SET_CHAT; out_data := ud;
                              out_store := st; out_sent := [] |}))
    else if str_eqb text BTN_ADD_ADMIN then
      Some (Ok (MrAskAdmin, {| out_state := ST_ADD_ADMIN; out_data := ud;
                               out_store := st; out_sent := [] |}))
    else if str_eqb text BTN_ADD_STUDENTS then
      Some (Ok (MrAskStudents,
                {| out_state := ST_ADD_STUDENTS;
                   out_data := menu_router_add_students ud;
                   out_store := st; out_sent := [] |}))
    else if str_eqb text BTN_EDIT_SCHEDULE then
      Some (Ok (MrAskMonday,
                {| out_state := ST_EDIT_SCHEDULE;
                   out_data := menu_router_edit_schedule ud;
                   out_store := st; out_sent := [] |}))
    else if str_eqb text BTN_TEST then
      Some (Ok (MrTest (fst (fst (cmd_test update st))),
                {| out_state := ST_MENU; out_data := ud;
                   out_store := snd (fst (cmd_test update st));
                   out_sent := snd (cmd_test update st) |}))
    else if str_eqb text BTN_JOKE_ADD then
      Some (Ok (MrAskJoke, {| out_state := ST_JOKE_ADD; out_data := ud;
                              out_store := st; out_sent := [] |}))
    else Some (Ok (MrUnknown, back_to_menu ud st)).
Proof.
  intros Ha H1 H2 H3 H4. unfold menu_router. rewrite H1, H2, H3, H4.
  cbn [settings_file with_settings]. rewrite Ha. cbn [negb]. cbv zeta.
  destruct (cmd_test update _) as [[r st'] sent]. reflexivity.
Qed.

(** X9. Every button of the keyboard shown to a user is understood by
    [menu_router] when that user presses it: the reply is neither the
    fallback ("did not understand") nor the refusal given to users who are
    no admins; the duty button gives what [cmd_duty] replies. *)
Theorem menu_keyboard_buttons_understood
  (update : Update) (ud : UserData) (st : Store) (label : str) :
  message_text update = label ->
  In label (concat (menu_keyboard
                      (is_admin update
                         (ensure_first_admin_if_empty update (settings_file st))))) ->
  (label <> BTN_DUTY ->
   exists r o, menu_router fuel cfg today update ud st = Some (Ok (r, o))
               /\ r <> MrUnknown /\ r <> MrOk)
  /\ (label = BTN_DUTY ->
      menu_router fuel cfg today update ud st
      = match cmd_duty fuel cfg (duty_file st) today with
        | None => None
        | Some (Raise e) => Some (Raise e)
        | Some (Ok reply) => Some (Ok (MrDuty reply, back_to_menu ud st))
        end).
Proof.
  intros Hmsg Hin. subst label.
  assert (Hpublic : In (message_text update)
                       [BTN_SCHEDULE; BTN_DUTY; BTN_HOMEWORK; BTN_HELP] ->
            (message_text update <> BTN_DUTY ->
             exists r o, menu_router fuel cfg today update ud st = Some (Ok (r, o))
                         /\ r <> MrUnknown /\ r <> MrOk)
            /\ (message_text update = BTN_DUTY ->
                menu_router fuel cfg today update ud st
                = match cmd_duty fuel cfg (duty_file st) today with
                  | None => None
                  | Some (Raise e) => Some (Raise e)
                  | Some (Ok reply) => Some (Ok (MrDuty reply, back_to_menu ud st))
                  end)).
  { intros H. simpl in H. destruct H as [Hl|[Hl|[Hl|[Hl|[]]]]].
    - split; [intros _ | intros He; rewrite <- Hl in He; vm_compute in He;
                         discriminate He].
      unfold menu_router. router_at Hl.
      do 2 eexists; split; [reflexivity | split; discriminate].
    - split; [intros Hne; now contradiction Hne | intros _].
      unfold menu_router. router_at Hl. reflexivity.
    - split; [intros _ | intros He; rewrite <- Hl in He; vm_compute in He;
                         discriminate He].
      unfold menu_router. router_at Hl.
      do 2 eexists; split; [reflexivity | split; discriminate].
    - split; [intros _ | intros He; rewrite <- Hl in He; vm_compute in He;
                         discriminate He].
      unfold menu_router. router_at Hl.
      do 2 eexists; split; [reflexivity | split; discriminate]. }
  destruct (is_admin update _) eqn:Ha.
  - unfold menu_keyboard in Hin. cbn [app concat] in Hin.
    apply in_inv in Hin. destruct Hin as [Hl|Hin]; [apply Hpublic; simpl; tauto|].
    apply in_inv in Hin. destruct Hin as [Hl|Hin]; [apply Hpublic; simpl; tauto|].
    apply in_inv in Hin. destruct Hin as [Hl|Hin]; [apply Hpublic; simpl; tauto|].
    simpl in Hin.
    destruct Hin as [Hl|[Hl|[Hl|[Hl|[Hl|[Hl|[Hl|[]]]]]]]];
      try (apply Hpublic; simpl; tauto);
      (split; [intros _ | intros He; rewrite <- Hl in He; vm_compute in He;
                          discriminate He]);
      rewrite (menu_router_admin update ud st Ha)
        by (rewrite <- Hl; vm_compute; reflexivity);
      router_at Hl;
      do 2 eexists; (split; [reflexivity | split; discriminate]).
  - unfold menu_keyboard in Hin. cbn [app concat] in Hin.
    apply Hpublic. simpl in *. tauto.
Qed.

(** X10. For a user who is no admin once the bootstrap has run,
    [menu_router] answers and leaves everything as it was, whatever the
    text: it returns the menu state, keeps the session and the stored
    records, and sends nothing to any chat; only the duty button depends on
    [cmd_duty] having an answer. *)
Theorem menu_router_keeps_strangers_out
  (update : Update) (ud : UserData) (st : Store) :
  is_admin update (ensure_first_admin_if_empty update (settings_file st)) = false ->
  (forall r o, menu_router fuel cfg today update ud st = Some (Ok (r, o)) ->
               o = back_to_menu ud st)
  /\ (strip (message_text update) <> BTN_DUTY ->
      exists r, menu_router fuel cfg today update ud st
                = Some (Ok (r, back_to_menu ud st))).
Proof.
  intros Ha. rewrite (menu_router_stranger _ _ _ Ha). cbv zeta. split.
  - intros r o.
    destruct (str_eqb _ BTN_SCHEDULE); [now intros [= <- <-]|].
    destruct (str_eqb _ BTN_DUTY).
    { destruct (cmd_duty fuel cfg (duty_file st) today) as [[reply|e]|];
        try discriminate. now intros [= <- <-]. }
    destruct (str_eqb _ BTN_HOMEWORK); [now intros [= <- <-]|].
    destruct (str_eqb _ BTN_HELP); now intros [= <- <-].
  - intros Hne. apply str_eqb_neq in Hne. rewrite Hne.
    destruct (str_eqb _ BTN_SCHEDULE); [eauto|].
    destruct (str_eqb _ BTN_HOMEWORK); [eauto|].
    destruct (str_eqb _ BTN_HELP); eauto.
Qed.

Lemma is_admin_self (chat : ChatType) (c : Z) (name t : str) (x : option Z) :
  is_admin (message_from chat (c :: name) t)
           {| chat_id := x; admins := [64 :: c :: name] |} = true.
Proof.
  unfold is_admin, username_tag, message_from. cbn [effective_username admins].
  change (lit "@" ++ c :: name) with (64 :: c :: name).
  cbn [str_in existsb]. now rewrite str_eqb_refl.
Qed.

(** X11. The first run. With no admin stored, a user who has a username
    starts the bot in a private chat and is shown the keyboard with the
    admin buttons; the button for the chat leads to the state that reads a
    chat id; an accepted id other than 0 leads back to the menu; and the
    test button then sends the test message to that chat, the settings
    holding that chat and this user as the only admin. *)
Theorem first_run_reaches_the_chat
  (name text_cid : str) (cid : Z) (ud : UserData) (st : Store) :
  name <> [] ->
  admins (settings_file st) = [] ->
  parse_chat_id text_cid = Some cid ->
  cid <> 0 ->
  exists (kb : list (list str)) (o1 o2 o4 : Outcome),
    cmd_start (message_from Private name (lit "/start")) ud st = (kb, o1)
    /\ In BTN_ADD_CHAT (concat kb) /\ In BTN_TEST (concat kb)
    /\ out_state o1 = ST_MENU
    /\ menu_router fuel cfg today (message_from Private name BTN_ADD_CHAT)
         (out_data o1) (out_store o1) = Some (Ok (MrAskChat, o2))
    /\ out_state o2 = ST_SET_CHAT
    /\ out_state (st_set_chat (message_from Private name text_cid)
                    (out_data o2) (out_store o2)) = ST_MENU
    /\ menu_router fuel cfg today (message_from Private name BTN_TEST)
         (out_data (st_set_chat (message_from Private name text_cid)
                      (out_data o2) (out_store o2)))
         (out_store (st_set_chat (message_from Private name text_cid)
                       (out_data o2) (out_store o2)))
       = Some (Ok (MrTest TrDone, o4))
    /\ out_state o4 = ST_MENU
    /\ out_sent o4 = [(cid, MSG_TEST)]
    /\ settings_file (out_store o4)
       = {| chat_id := Some cid; admins := [64 :: name] |}.
Proof.
  intros Hname Hadm Hcid Hnz. destruct name as [|c name]; [contradiction|].
  set (s1 := {| chat_id := chat_id (settings_file st); admins := [64 :: c :: name] |}).
  assert (Hboot : forall t,
            ensure_first_admin_if_empty (message_from Private (c :: name) t)
              (settings_file st) = s1).
  { intros t. unfold ensure_first_admin_if_empty, is_private, username_tag,
      message_from. cbn [effective_chat effective_username negb]. now rewrite Hadm. }
  assert (Hcs : cmd_start (message_from Private (c :: name) (lit "/start")) ud st
                = (menu_keyboard true,
                   {| out_state := ST_MENU; out_data := ud;
                      out_store := with_settings st s1; out_sent := [] |})).
  { unfold cmd_start. cbn [is_private message_from effective_chat].
    rewrite Hboot. cbn [settings_file with_settings].
    unfold s1. now rewrite is_admin_self. }
  set (st1 := with_settings st s1) in *.
  assert (Ha1 : forall t, is_admin (message_from Private (c :: name) t)
                            (settings_file st1) = true).
  { intros t. apply is_admin_self. }
  set (o2 := {| out_state := ST_SET_CHAT; out_data := ud; out_store := st1;
                out_sent := [] |}).
  set (st3 := with_settings st1 {| chat_id := Some cid; admins := [64 :: c :: name] |}).
  assert (Hset : st_set_chat (message_from Private (c :: name) text_cid) ud st1
                 = {| out_state := ST_MENU; out_data := ud; out_store := st3;
                      out_sent := [] |}).
  { unfold st_set_chat. cbn [message_from message_text]. now rewrite Hcid. }
  assert (Ha3 : forall t, is_admin (message_from Private (c :: name) t)
                            (settings_file st3) = true).
  { intros t. apply is_admin_self. }
  assert (Htest : cmd_test (message_from Private (c :: name) BTN_TEST) st3
                  = (TrDone, st3, [(cid, MSG_TEST)])).
  { unfold cmd_test. rewrite (ensure_first_admin_of_admin _ _ (Ha3 BTN_TEST)).
    rewrite with_settings_same, Ha3. cbn [negb]. unfold st3 at 1.
    cbn [settings_file with_settings chat_id].
    apply Z.eqb_neq in Hnz. now rewrite Hnz. }
  exists (menu_keyboard true), {| out_state := ST_MENU; out_data := ud;
                                  out_store := st1; out_sent := [] |}, o2,
         {| out_state := ST_MENU; out_data := ud; out_store := st3;
            out_sent := [(cid, MSG_TEST)] |}.
  split; [exact Hcs|].
  split; [vm_compute; tauto|]. split; [vm_compute; tauto|].
  split; [reflexivity|].
  cbn [out_data out_store].
  split.
  { assert (Hb : ensure_first_admin_if_empty
                   (message_from Private (c :: name) BTN_ADD_CHAT) (settings_file st1)
                 = settings_file st1) by apply ensure_first_admin_of_admin, Ha1.
    rewrite menu_router_admin;
      [| rewrite Hb; apply Ha1 | vm_compute; reflexivity ..].
    rewrite Hb, with_settings_same. cbn [message_from message_text].
    change (strip BTN_ADD_CHAT) with BTN_ADD_CHAT. cbv zeta.
    now rewrite str_eqb_refl. }
  split; [reflexivity|].
  unfold o2. cbn [out_data out_store]. rewrite Hset. cbn [out_state out_data out_store].
  split; [reflexivity|].
  split.
  { assert (Hb : ensure_first_admin_if_empty
                   (message_from Private (c :: name) BTN_TEST) (settings_file st3)
                 = settings_file st3) by apply ensure_first_admin_of_admin, Ha3.
    rewrite menu_router_admin;
      [| rewrite Hb; apply Ha3 | vm_compute; reflexivity ..].
    rewrite Hb, with_settings_same. cbn [message_from message_text].
    match goal with
    | |- context [strip ?b] =>
      let v := eval vm_compute in (strip b) in change (strip b) with v
    end. cbv zeta. eval_str_eqb.
    change {| effective_chat := Some Private; effective_username := Some (c :: name);
              message_text := BTN_TEST |}
      with (message_from Private (c :: name) BTN_TEST).
    rewrite Htest. reflexivity. }
  split; [reflexivity|]. split; reflexivity.
Qed.

End Menu.

Lemma menu_keyboard_buttons_understood_witness :
  exists r o,
    menu_router 0 default_config (ymd2ord 2024 9 4)
      (message_from Private (lit "carol") BTN_EDIT_SCHEDULE) user_data_empty
      {| settings_file := {| chat_id := None; admins := [lit "@carol"] |};
         schedule_file := []; duty_file := []; homework_file := [];
         jokes_file := [] |} = Some (Ok (r, o))
    /\ r <> MrUnknown /\ r <> MrOk.
Proof.
  apply (menu_keyboard_buttons_understood 0 default_config
           (ymd2ord 2024 9 4)
           (message_from Private (lit "carol") BTN_EDIT_SCHEDULE) user_data_empty
           {| settings_file := {| chat_id := None; admins := [lit "@carol"] |};
              schedule_file := []; duty_file := []; homework_file := [];
              jokes_file := [] |} BTN_EDIT_SCHEDULE eq_refl).
  - vm_compute. tauto.
  - discriminate.
Defined.

(** [@dave] is no admin and sends the label of an admin button. *)
Lemma menu_router_keeps_strangers_out_witness :
  exists r,
    menu_router 0 default_config (ymd2ord 2024 9 4)
      (message_from Private (lit "dave") BTN_ADD_ADMIN) user_data_empty
      {| settings_file := {| chat_id := None; admins := [lit "@carol"] |};
         schedule_file := []; duty_file := []; homework_file := [];
         jokes_file := [] |}
    = Some (Ok (r, back_to_menu user_data_empty
                     {| settings_file := {| chat_id := None; admins := [lit "@carol"] |};
                        schedule_file := []; duty_file := []; homework_file := [];
                        jokes_file := [] |})).
Proof.
  apply (menu_router_keeps_strangers_out 0 default_config
           (ymd2ord 2024 9 4)
           (message_from Private (lit "dave") BTN_ADD_ADMIN) user_data_empty
           {| settings_file := {| chat_id := None; admins := [lit "@carol"] |};
              schedule_file := []; duty_file := []; homework_file := [];
              jokes_file := [] |} eq_refl).
  vm_compute. discriminate.
Defined.

Lemma first_run_reaches_the_chat_witness :
  exists (kb : list (list str)) (o1 o2 o4 : Outcome),
    cmd_start (message_from Private (lit "carol") (lit "/start")) user_data_empty
      {| settings_file := settings_default; schedule_file := []; duty_file := [];
         homework_file := []; jokes_file := [] |} = (kb, o1)
    /\ In BTN_ADD_CHAT (concat kb) /\ In BTN_TEST (concat kb)
    /\ out_state o1 = ST_MENU
    /\ menu_router 0 default_config (ymd2ord 2024 9 4)
         (message_from Private (lit "carol") BTN_ADD_CHAT)
         (out_data o1) (out_store o1) = Some (Ok (MrAskChat, o2))
    /\ out_state o2 = ST_SET_CHAT
    /\ out_state (st_set_chat (py := basic_pylib)
                    (message_from Private (lit "carol") (lit "-1001234567890"))
                    (out_data o2) (out_store o2)) = ST_MENU
    /\ menu_router 0 default_config (ymd2ord 2024 9 4)
         (message_from Private (lit "carol") BTN_TEST)
         (out_data (st_set_chat (py := basic_pylib)
                      (message_from Private (lit "carol") (lit "-1001234567890"))
                      (out_data o2) (out_store o2)))
         (out_store (st_set_chat (py := basic_pylib)
                       (message_from Private (lit "carol") (lit "-1001234567890"))
                       (out_data o2) (out_store o2)))
       = Some (Ok (MrTest TrDone, o4))
    /\ out_state o4 = ST_MENU
    /\ out_sent o4 = [(-1001234567890, MSG_TEST)]
    /\ settings_file (out_store o4)
       = {| chat_id := Some (-1001234567890); admins := [lit "@carol"] |}.
Proof.
  apply (first_run_reaches_the_chat (py := basic_pylib) 0 default_config
           (ymd2ord 2024 9 4) (lit "carol") (lit "-1001234567890")
           (-1001234567890) user_data_empty
           {| settings_file := settings_default; schedule_file := [];
              duty_file := []; homework_file := []; jokes_file := [] |}).
  - discriminate.
  - reflexivity.
  - vm_compute. reflexivity.
  - discriminate.
Defined.

(* ================================================================== *)
(** ** The schedule command on what the dialog stored *)

Section ScheduleCommand.
Context {py : PyLib}.

(** X12. After the schedule dialog has completed with the texts [t1] to
    [t5], [/r] without an argument lists the five days from Monday to
    Friday, in that order, each with the text entered for it (trimmed). *)
Theorem cmd_schedule_week_after_dialog
  (t1 t2 t3 t4 t5 : str) (ud : UserData) (st : Store) :
  cmd_schedule [] (schedule_file (out_store (schedule_dialog t1 t2 t3 t4 t5 ud st)))
  = SrWeek [(lit "Понедельник", strip t1); (lit "Вторник", strip t2);
            (lit "Среда", strip t3); (lit "Четверг", strip t4);
            (lit "Пятница", strip t5)].
Proof.
  rewrite schedule_dialog_store, schedule_out_of_basic.
  unfold cmd_schedule, DOW_CANON. cbn [fold_left].
  rewrite !str_lower_basic by reflexivity.
  generalize (strip t1) (strip t2) (strip t3) (strip t4) (strip t5).
  intros v1 v2 v3 v4 v5. vm_compute. reflexivity.
Qed.

(** X13. After the dialog, [/r] with a query that, trimmed and lowercased,
    is the lowercase form of an alias of a day, shows the text entered for
    that day: the day is found whatever the case the query is written
    in. *)
Theorem cmd_schedule_finds_aliases
  (t1 t2 t3 t4 t5 : str) (ud : UserData) (st : Store)
  (args : list str) (day_text : str * str) (alias : str) :
  args <> [] ->
  In day_text (combine DOW_CANON [t1; t2; t3; t4; t5]) ->
  In alias (build_schedule_aliases (fst day_text)) ->
  normalize_day_query (join (lit " ") args) = str_lower alias ->
  cmd_schedule args (schedule_file (out_store (schedule_dialog t1 t2 t3 t4 t5 ud st)))
  = SrDay (str_lower alias) (strip (snd day_text)).
Proof.
  intros Hargs Hday Halias Hq.
  rewrite schedule_dialog_store, schedule_out_of_basic.
  unfold cmd_schedule. destruct args as [|a args]; [contradiction|].
  rewrite Hq. clear Hq Hargs.
  assert (Hd : In (fst day_text) DOW_CANON).
  { unfold DOW_CANON in *. cbn [combine] in Hday. simpl in Hday.
    destruct Hday as [<-|[<-|[<-|[<-|[<-|[]]]]]]; simpl; tauto. }
  destruct (build_schedule_aliases_basic _ Hd) as [Hb HF].
  rewrite Hb in Halias. rewrite Forall_forall in HF.
  destruct (HF _ Halias) as [_ Hlow]. rewrite Hlow. clear Hb HF Hlow Hd.
  unfold DOW_CANON in Hday. cbn [combine] in Hday.
  repeat (apply in_inv in Hday; destruct Hday as [<-|Hday];
          [cbn [fst snd] in *;
           generalize (strip t1) (strip t2) (strip t3) (strip t4) (strip t5);
           intros v1 v2 v3 v4 v5; vm_compute in Halias;
           repeat (destruct Halias as [<-|Halias]; [vm_compute; reflexivity|]);
           destruct Halias|]).
  destruct Hday.
Qed.

End ScheduleCommand.

(** [/r ПН] after a dialog that stored "math" for Monday. *)
Lemma cmd_schedule_finds_aliases_witness :
  cmd_schedule (py := basic_pylib) [lit "ПН"]
    (schedule_file (out_store
       (schedule_dialog (py := basic_pylib)
          (lit " math ") (lit "b") (lit "c") (lit "d") (lit "e") user_data_empty
          {| settings_file := settings_default; schedule_file := [];
             duty_file := []; homework_file := []; jokes_file := [] |})))
  = SrDay (lit "пн") (lit "math").
Proof.
  apply (cmd_schedule_finds_aliases (py := basic_pylib)
           (lit " math ") (lit "b") (lit "c") (lit "d") (lit "e") user_data_empty
           {| settings_file := settings_default; schedule_file := [];
              duty_file := []; homework_file := []; jokes_file := [] |}
           [lit "ПН"] (lit "Понедельник", lit " math ") (lit "пн")).
  - discriminate.
  - left. reflexivity.
  - vm_compute. tauto.
  - vm_compute. reflexivity.
Defined.

(* ================================================================== *)
(** ** The homework list *)

Lemma insert_by_date_In (x a : date * str) (l : list (date * str)) :
  In a (insert_by_date x l) <-> a = x \/ In a l.
Proof.
  induction l as [|y l IH]; simpl; [intuition|].
  destruct (fst x <=? fst y); simpl; [intuition|]. rewrite IH. intuition.
Qed.

Lemma sort_by_date_In (a : date * str) (l : list (date * str)) :
  In a (sort_by_date l) <-> In a l.
Proof.
  induction l as [|x l IH]; simpl; [tauto|].
  rewrite insert_by_date_In, IH. intuition.
Qed.

Lemma insert_by_date_ascending (x : date * str) (l : list (date * str)) :
  ascending (map fst l) -> ascending (map fst (insert_by_date x l)).
Proof.
  induction l as [|y l IH]; simpl; [intros _; split; [constructor | exact I]|].
  intros [Hy Hl]. destruct (fst x <=? fst y) eqn:E; simpl.
  - apply Z.leb_le in E. split; [|auto]. constructor; [exact E|].
    eapply Forall_impl; [|exact Hy]. simpl. intros; lia.
  - apply Z.leb_gt in E. split; [|auto].
    rewrite Forall_forall in *. intros d Hd. apply in_map_iff in Hd.
    destruct Hd as (a & <- & Ha). apply insert_by_date_In in Ha.
    destruct Ha as [->|Ha]; [lia|]. apply Hy. now apply in_map.
Qed.

Lemma sort_by_date_ascending (l : list (date * str)) :
  ascending (map fst (sort_by_date l)).
Proof.
  induction l as [|x l IH]; simpl; [exact I|]. now apply insert_by_date_ascending.
Qed.

Lemma firstn_In {A : Type} (n : nat) (l : list A) (x : A) :
  In x (firstn n l) -> In x l.
Proof.
  intros H. rewrite <- (firstn_skipn n l). apply in_or_app. now left.
Qed.

Lemma firstn_ascending (n : nat) (l : list date) :
  ascending l -> ascending (firstn n l).
Proof.
  revert n. induction l as [|x l IH]; intros [|n]; simpl; auto.
  intros [Hx Hl]. split; [|auto].
  rewrite Forall_forall in *. intros y Hy. apply Hx. eapply firstn_In; eauto.
Qed.

(** The shortened text has at most 120 characters and no line feed. *)
Lemma shorten_short (task : str) :
  (length (shorten task) <= 120)%nat /\ ~ In 10 (shorten task).
Proof.
  unfold shorten.
  set (short := map (fun c => if c =? 10 then 32 else c) (strip task)).
  assert (Hno : ~ In 10 short).
  { subst short. intros H. apply in_map_iff in H. destruct H as (c & Hc & _).
    destruct (c =? 10) eqn:E; [discriminate|]. apply Z.eqb_neq in E. lia. }
  destruct (120 <? length short)%nat eqn:E.
  - split.
    + rewrite length_app. pose proof (firstn_le_length 117 short).
      change (length (lit "...")) with 3%nat. lia.
    + intros H. apply in_app_or in H. destruct H as [H|H].
      * apply Hno. eapply firstn_In; eauto.
      * simpl in H. intuition discriminate.
  - apply Nat.ltb_ge in E. auto.
Qed.

Lemma dict_set_In {V : Type} (k : str) (v : V) (d : dict V) (kv : str * V) :
  In kv (dict_set k v d) -> (exists k', kv = (k', v) /\ str_eqb k k' = true) \/ In kv d.
Proof.
  induction d as [|[k' v'] d IH]; simpl.
  - intros [<-|[]]. left. exists k. split; [reflexivity | apply str_eqb_refl].
  - destruct (str_eqb k k') eqn:E; simpl.
    + intros [<-|H]; [left; eauto | auto].
    + intros [<-|H]; [auto|]. destruct (IH H); auto.
Qed.

Section HomeworkList.
Context {py : PyLib}.
Variable cfg : Config.
Variable today : date.

(** Whatever the sweep keeps was in the map. *)
Lemma cleanup_loop_sub (items : list (str * str)) :
  forall (cleaned out : dict str) (removed removed' : Z),
    cleanup_loop items cfg today cleaned removed = Ok (out, removed') ->
    forall kv, In kv out -> In kv cleaned \/ In kv items.
Proof.
  induction items as [|[k v] items IH]; intros cleaned out removed removed'; simpl.
  - intros [= <- <-]. auto.
  - assert (Hset : forall r, cleanup_loop items cfg today (dict_set k v cleaned) r
                             = Ok (out, removed') ->
                   forall kv, In kv out -> In kv cleaned \/ (k, v) = kv \/ In kv items).
    { intros r H kv Hin. destruct (IH _ _ _ _ H kv Hin) as [Hc|Hi]; [|auto].
      apply dict_set_In in Hc. destruct Hc as [(k' & -> & Ek)|Hc]; [|auto].
      apply str_eqb_eq in Ek. subst k'. auto. }
    destruct (fromisoformat k) as [d|].
    + destruct (expiry_of_homework d cfg) as [e|]; cbn [bind]; [|discriminate].
      destruct (e <? today).
      * intros H kv Hin. destruct (IH _ _ _ _ H kv Hin); auto.
      * apply Hset.
    + apply Hset.
Qed.

(** What [load_homework_clean] returns: entries of the stored map, each
    one kept by the sweep. *)
Lemma load_homework_clean_inv (file hw file1 : dict str) :
  load_homework_clean cfg today file = Ok (hw, file1) ->
  Forall (fun kv => kept_by_code cfg today (fst kv)) hw
  /\ (forall kv, In kv hw -> In kv file)
  /\ NoDup (dict_keys hw).
Proof.
  unfold load_homework_clean, cleanup_homework_in_memory.
  destruct (cleanup_loop file cfg today [] 0) as [[hw2 removed]|] eqn:E;
    cbn [bind]; [|discriminate].
  intros [= <- <-].
  pose proof (cleanup_loop_kept cfg today file [] hw2 0 removed
                (NoDup_nil _) (Forall_nil _) E) as [Hnd Hk].
  split; [exact Hk|]. split; [|exact Hnd].
  intros kv Hin. destruct (cleanup_loop_sub _ _ _ _ _ E kv Hin) as [[]|H]; exact H.
Qed.

(** The entries the list is drawn from. *)
Lemma upcoming_spec (hw : dict str) (it : date * str) :
  In it (upcoming today hw) ->
  exists k, In (k, snd it) hw /\ fromisoformat k = Some (fst it) /\ today <= fst it.
Proof.
  unfold upcoming.
  enough (H : forall acc,
             In it (fold_left (fun items (kv : str * str) =>
                       match fromisoformat (fst kv) with
                       | None => items
                       | Some d => if today <=? d then items ++ [(d, snd kv)] else items
                       end) hw acc) ->
             In it acc
             \/ exists k, In (k, snd it) hw /\ fromisoformat k = Some (fst it)
                          /\ today <= fst it).
  { intros Hin. destruct (H [] Hin) as [[]|H']; exact H'. }
  induction hw as [|[k v] hw IH]; intros acc; simpl; [auto|].
  intros Hin. apply IH in Hin. destruct Hin as [Hin|(k' & H1 & H2 & H3)].
  - destruct (fromisoformat k) as [d|] eqn:Ek; [|auto].
    destruct (today <=? d) eqn:El; [|auto].
    apply in_app_or in Hin. destruct Hin as [Hin|[<-|[]]]; [auto|].
    right. exists k. simpl. apply Z.leb_le in El. auto.
  - right. exists k'. auto.
Qed.

(** The lines built from the items. *)
Lemma list_lines_spec (items : list (date * str)) (lines : list (date * date * str)) :
  list_lines cfg items = Ok lines ->
  map line_date lines = map fst items
  /\ Forall (fun l => expiry_of_homework (line_date l) cfg = Ok (line_expiry l)
                      /\ exists task, In (line_date l, task) items
                                      /\ line_text l = shorten task) lines.
Proof.
  revert lines. induction items as [|[d task] items IH]; intros lines; simpl.
  - intros [= <-]. split; [reflexivity | constructor].
  - destruct (expiry_of_homework d cfg) as [e|] eqn:Ee; cbn [bind]; [|discriminate].
    destruct (list_lines cfg items) as [ls|]; cbn [bind]; [|discriminate].
    intros [= <-]. destruct (IH ls eq_refl) as [Hm HF]. split.
    + simpl. now rewrite Hm.
    + constructor.
      * split; [exact Ee|]. exists task. split; [now left | reflexivity].
      * eapply Forall_impl; [|exact HF]. intros l [H1 (t & H2 & H3)].
        split; [exact H1|]. exists t. split; [now right | exact H3].
Qed.

Lemma list_lines_total (items : list (date * str)) :
  Forall (fun it => exists e, expiry_of_homework (fst it) cfg = Ok e) items ->
  exists lines, list_lines cfg items = Ok lines /\ length lines = length items.
Proof.
  induction 1 as [|[d task] items [e He] _ [lines [IH Hl]]]; simpl.
  - now exists [].
  - simpl in He. rewrite He, IH. cbn [bind]. eexists. split; [reflexivity|].
    simpl. now rewrite Hl.
Qed.

Lemma cmd_homework_list_eq (file : dict str) (args : list str) :
  cmd_homework_list cfg today file args
  = match load_homework_clean cfg today file with
    | Raise e => (file, Raise e)
    | Ok (hw, file1) =>
      match lines_asked args with
      | None => (file1, Ok HlUsage)
      | Some n =>
        match firstn (Z.to_nat n) (sort_by_date (upcoming today hw)) with
        | [] => (file1, Ok HlNothing)
        | it :: items =>
          (file1, lines <- list_lines cfg (it :: items) ;; Ok (HlLines lines))
        end
      end
    end.
Proof.
  unfold cmd_homework_list.
  destruct (load_homework_clean cfg today file) as [[hw file1]|]; [|reflexivity].
  destruct (lines_asked args) as [n|]; [|reflexivity]. cbv zeta.
  now destruct (firstn (Z.to_nat n) (sort_by_date (upcoming today hw))).
Qed.

Lemma lines_asked_range (args : list str) (n : Z) :
  lines_asked args = Some n -> 1 <= n <= 50 /\ (args = [] -> n = 10).
Proof.
  unfold lines_asked. destruct args as [|a args].
  - intros [= <-]. split; [lia | reflexivity].
  - destruct (py_int a); [|discriminate]. intros [= <-]. split; [lia | discriminate].
Qed.

(** X14. When [/dz_list] replies with lines, there are between 1 and 50 of
    them (at most 10 without an argument), in ascending order of date; each
    line is for a date that is today or later, taken from an entry of the
    stored map whose key parses as that date; it shows the expiry the code
    computes for that date, which is not before today; and its text is the
    entry's, shortened: at most 120 characters and no line feed. *)
Theorem cmd_homework_list_lines
  (file file' : dict str) (args : list str) (lines : list (date * date * str)) :
  cmd_homework_list cfg today file args = (file', Ok (HlLines lines)) ->
  (1 <= length lines <= 50)%nat
  /\ (args = [] -> (length lines <= 10)%nat)
  /\ ascending (map line_date lines)
  /\ Forall (fun l =>
       today <= line_date l
       /\ expiry_of_homework (line_date l) cfg = Ok (line_expiry l)
       /\ today <= line_expiry l
       /\ (length (line_text l) <= 120)%nat
       /\ ~ In 10 (line_text l)
       /\ exists k task, In (k, task) file
                         /\ fromisoformat k = Some (line_date l)
                         /\ line_text l = shorten task) lines.
Proof.
  rewrite cmd_homework_list_eq.
  destruct (load_homework_clean cfg today file) as [[hw file1]|] eqn:El;
    [|discriminate].
  destruct (load_homework_clean_inv _ _ _ El) as (Hk & Hsub & _).
  destruct (lines_asked args) as [n|] eqn:En; [|discriminate].
  destruct (lines_asked_range _ _ En) as [Hn Hn10].
  set (items := firstn (Z.to_nat n) (sort_by_date (upcoming today hw))).
  assert (Hlen : (length items <= Z.to_nat n)%nat) by apply firstn_le_length.
  assert (Hasc : ascending (map fst items)).
  { subst items. rewrite <- firstn_map. apply firstn_ascending, sort_by_date_ascending. }
  assert (Hin : forall it, In it items -> In it (upcoming today hw)).
  { intros it H. apply sort_by_date_In. eapply firstn_In; eauto. }
  destruct items as [|it items'] eqn:Ei; [discriminate|].
  destruct (list_lines cfg (it :: items')) as [ls|] eqn:Els; cbn [bind];
    [|discriminate].
  intros [= _ <-].
  destruct (list_lines_spec _ _ Els) as [Hm HF].
  assert (Hl : length ls = length (it :: items')).
  { rewrite <- (length_map line_date), Hm. apply length_map. }
  split; [simpl length in *; lia|].
  split; [intros Ha; specialize (Hn10 Ha); simpl length in *; lia|].
  split; [now rewrite Hm|].
  eapply Forall_impl; [|exact HF]. intros l [He (task & Hit & Ht)].
  apply Hin, upcoming_spec in Hit. cbn [fst snd] in Hit.
  destruct Hit as (k & Hkin & Hiso & Hge).
  rewrite Forall_forall in Hk. specialize (Hk _ Hkin).
  unfold kept_by_code in Hk. cbn [fst] in Hk. rewrite Hiso in Hk.
  destruct Hk as (e & He' & Hlt). rewrite He in He'. injection He' as <-.
  apply Z.ltb_ge in Hlt.
  destruct (shorten_short task) as [Hs1 Hs2]. rewrite Ht.
  repeat split; auto. exists k, task. auto.
Qed.

(** X15. [/dz_list] ends with an exception only when the sweep of
    [load_homework_clean] does: once the sweep has gone through, every
    expiry the list needs has been computed by it, and the command replies
    (the usage line for an argument that is no integer) and leaves stored
    what the sweep stored. *)
Theorem cmd_homework_list_replies
  (file hw file1 : dict str) (args : list str) :
  load_homework_clean cfg today file = Ok (hw, file1) ->
  exists reply, cmd_homework_list cfg today file args = (file1, Ok reply)
                /\ (lines_asked args = None -> reply = HlUsage).
Proof.
  intros El. rewrite cmd_homework_list_eq, El.
  destruct (load_homework_clean_inv _ _ _ El) as (Hk & _ & _).
  destruct (lines_asked args) as [n|]; [|exists HlUsage; auto].
  set (items := firstn (Z.to_nat n) (sort_by_date (upcoming today hw))).
  assert (Hin : forall it, In it items -> In it (upcoming today hw)).
  { intros it H. apply sort_by_date_In. eapply firstn_In; eauto. }
  destruct items as [|it items'] eqn:Ei; [exists HlNothing; split; [auto | discriminate]|].
  destruct (list_lines_total (it :: items')) as (lines & Hls & _).
  { rewrite Forall_forall. intros x Hx. apply Hin, upcoming_spec in Hx.
    destruct Hx as (k & Hkin & Hiso & _).
    rewrite Forall_forall in Hk. specialize (Hk _ Hkin).
    unfold kept_by_code in Hk. cbn [fst] in Hk. rewrite Hiso in Hk.
    destruct Hk as (e & He & _). eauto. }
  rewrite Hls. cbn [bind]. exists (HlLines lines). split; [auto | discriminate].
Qed.

Lemma upcoming_complete (hw : dict str) (k v : str) (d : date) :
  In (k, v) hw -> fromisoformat k = Some d -> today <= d ->
  In (d, v) (upcoming today hw).
Proof.
  unfold upcoming. intros Hin Hk Hd.
  set (f := fun items (kv : str * str) =>
              match fromisoformat (fst kv) with
              | None => items
              | Some d => if today <=? d then items ++ [(d, snd kv)] else items
              end).
  assert (Hmono : forall l acc x, In x acc -> In x (fold_left f l acc)).
  { induction l as [|[k' v'] l IH]; intros acc x Hx; cbn [fold_left]; [exact Hx|].
    apply IH. unfold f. cbn [fst snd]. destruct (fromisoformat k'); [|exact Hx].
    destruct (today <=? d0); [apply in_or_app; now left | exact Hx]. }
  generalize (@nil (date * str)) as acc.
  induction hw as [|[k' v'] hw IH]; intros acc; [destruct Hin|].
  cbn [fold_left]. destruct Hin as [[= -> ->]|Hin]; [|now apply IH].
  apply Hmono. unfold f. cbn [fst snd]. rewrite Hk.
  replace (today <=? d) with true by (symmetry; now apply Z.leb_le).
  apply in_or_app. right. now left.
Qed.

Lemma ascending_app (a b : list (date * str)) :
  ascending (map fst (a ++ b)) ->
  forall x y, In x a -> In y b -> fst x <= fst y.
Proof.
  induction a as [|z a IH]; intros H x y Hx Hy; [destruct Hx|].
  cbn [map app ascending] in H. destruct H as [Hz Ha].
  destruct Hx as [->|Hx]; [|now apply IH].
  rewrite Forall_forall in Hz. apply Hz. apply in_map, in_or_app. now right.
Qed.

Lemma list_lines_texts (items : list (date * str)) (lines : list (date * date * str)) :
  list_lines cfg items = Ok lines ->
  map (fun l => (line_date l, line_text l)) lines
  = map (fun it => (fst it, shorten (snd it))) items.
Proof.
  revert lines. induction items as [|[d task] items IH]; intros lines; simpl.
  - now intros [= <-].
  - destruct (expiry_of_homework d cfg) as [e|]; cbn [bind]; [|discriminate].
    destruct (list_lines cfg items) as [ls|]; cbn [bind]; [|discriminate].
    intros [= <-]. simpl. now rewrite (IH ls eq_refl).
Qed.

(** X30. The list shows the earliest entries: an entry of the swept map
    dated today or later is either shown (its date with its shortened
    text), or the list is full, with as many lines as were asked for, and
    none of them is dated after that entry. *)
Theorem cmd_homework_list_earliest
  (file file' hw file1 : dict str) (args : list str) (n : Z)
  (lines : list (date * date * str)) :
  load_homework_clean cfg today file = Ok (hw, file1) ->
  lines_asked args = Some n ->
  cmd_homework_list cfg today file args = (file', Ok (HlLines lines)) ->
  forall (k v : str) (d : date),
    In (k, v) hw -> fromisoformat k = Some d -> today <= d ->
    In (d, shorten v) (map (fun l => (line_date l, line_text l)) lines)
    \/ (length lines = Z.to_nat n /\ Forall (fun l => line_date l <= d) lines).
Proof.
  intros El En. rewrite cmd_homework_list_eq, El, En.
  set (sorted := sort_by_date (upcoming today hw)).
  destruct (firstn (Z.to_nat n) sorted) as [|it items'] eqn:Ei; [discriminate|].
  destruct (list_lines cfg (it :: items')) as [ls|] eqn:Els; cbn [bind];
    [|discriminate].
  intros [= _ <-] k v d Hin Hk Hd.
  pose proof (list_lines_texts _ _ Els) as Ht.
  destruct (list_lines_spec _ _ Els) as [Hm _].
  assert (Hs : In (d, v) sorted)
    by (apply sort_by_date_In; now apply upcoming_complete with k).
  rewrite <- (firstn_skipn (Z.to_nat n) sorted) in Hs.
  apply in_app_or in Hs. destruct Hs as [Hs|Hs].
  - left. rewrite Ht, <- Ei.
    apply (in_map (fun it => (fst it, shorten (snd it))) _ _ Hs).
  - right. split.
    + rewrite <- (length_map line_date), Hm, length_map, <- Ei.
      apply firstn_length_le.
      destruct (Nat.le_gt_cases (Z.to_nat n) (length sorted)) as [Hle|Hgt]; [exact Hle|].
      rewrite skipn_all2 in Hs by lia. destruct Hs.
    + pose proof (sort_by_date_ascending (upcoming today hw)) as Hasc.
      fold sorted in Hasc. rewrite <- (firstn_skipn (Z.to_nat n) sorted) in Hasc.
      rewrite Ei in Hasc.
      apply Forall_forall. intros l Hl.
      assert (Hld : In (line_date l) (map fst (it :: items'))).
      { rewrite <- Hm. now apply in_map. }
      apply in_map_iff in Hld. destruct Hld as (x & Hx & Hxin).
      rewrite <- Hx. apply (ascending_app _ _ Hasc x (d, v) Hxin Hs).
Qed.

End HomeworkList.

(** Two dated entries and a note, listed on 2024-09-04. *)
Lemma cmd_homework_list_lines_witness :
  (1 <= 2 <= 50)%nat /\ ascending [ymd2ord 2024 9 10; ymd2ord 2024 9 20].
Proof.
  pose proof (cmd_homework_list_lines (py := basic_pylib) default_config
                (ymd2ord 2024 9 4)
                [(lit "2024-09-20", lit "read p. 5"); (lit "note", lit "x");
                 (lit "2024-09-10", lit "essay")]
                [(lit "2024-09-20", lit "read p. 5"); (lit "note", lit "x");
                 (lit "2024-09-10", lit "essay")]
                []
                [(ymd2ord 2024 9 10, ymd2ord 2024 9 24, lit "essay");
                 (ymd2ord 2024 9 20, ymd2ord 2024 10 4, lit "read p. 5")]) as H.
  destruct H as (H1 & _ & H3 & _); [vm_compute; reflexivity|].
  split; [exact H1 | exact H3].
Defined.

Lemma cmd_homework_list_replies_witness :
  exists reply,
    cmd_homework_list (py := basic_pylib) default_config (ymd2ord 2024 9 4)
      [(lit "2024-09-20", lit "read p. 5"); (lit "2024-08-01", lit "old")]
      [lit "ten"]
    = ([(lit "2024-09-20", lit "read p. 5")], Ok reply)
    /\ (lines_asked (py := basic_pylib) [lit "ten"] = None -> reply = HlUsage).
Proof.
  apply (cmd_homework_list_replies (py := basic_pylib) default_config
           (ymd2ord 2024 9 4)
           [(lit "2024-09-20", lit "read p. 5"); (lit "2024-08-01", lit "old")]
           [(lit "2024-09-20", lit "read p. 5")]).
  vm_compute. reflexivity.
Defined.

(** [/dz_list 1] with two dated entries: the later one is not shown, and
    the line shown is not dated after it. *)
Lemma cmd_homework_list_earliest_witness :
  In (ymd2ord 2024 9 20, shorten (lit "read p. 5"))
     (map (fun l => (line_date l, line_text l))
          [(ymd2ord 2024 9 10, ymd2ord 2024 9 24, lit "essay")])
  \/ (length [(ymd2ord 2024 9 10, ymd2ord 2024 9 24, lit "essay")] = Z.to_nat 1
      /\ Forall (fun l => line_date l <= ymd2ord 2024 9 20)
                [(ymd2ord 2024 9 10, ymd2ord 2024 9 24, lit "essay")]).
Proof.
  apply (cmd_homework_list_earliest (py := basic_pylib) default_config
           (ymd2ord 2024 9 4)
           [(lit "2024-09-20", lit "read p. 5"); (lit "2024-09-10", lit "essay")]
           [(lit "2024-09-20", lit "read p. 5"); (lit "2024-09-10", lit "essay")]
           [(lit "2024-09-20", lit "read p. 5"); (lit "2024-09-10", lit "essay")]
           [(lit "2024-09-20", lit "read p. 5"); (lit "2024-09-10", lit "essay")]
           [lit "1"] 1
           [(ymd2ord 2024 9 10, ymd2ord 2024 9 24, lit "essay")]
           eq_refl eq_refl eq_refl
           (lit "2024-09-20") (lit "read p. 5") (ymd2ord 2024 9 20)).
  - left. reflexivity.
  - reflexivity.
  - vm_compute. discriminate.
Defined.

(* ================================================================== *)
(** ** Saving, showing, editing and deleting homework *)

Section DictLookup.
Context {V : Type}.

Lemma dict_get_set_same (k : str) (v : V) (d : dict V) :
  dict_get k (dict_set k v d) = Some v.
Proof.
  induction d as [|[k' v'] d IH]; simpl.
  - now rewrite str_eqb_refl.
  - destruct (str_eqb k k') eqn:E; simpl; rewrite E; [reflexivity | exact IH].
Qed.

Lemma dict_get_set_other (k k0 : str) (v : V) (d : dict V) :
  k0 <> k -> dict_get k0 (dict_set k v d) = dict_get k0 d.
Proof.
  intros Hne. induction d as [|[k' v'] d IH]; simpl.
  - apply str_eqb_neq in Hne. now rewrite Hne.
  - destruct (str_eqb k k') eqn:E; simpl.
    + apply str_eqb_eq in E. subst k'.
      apply str_eqb_neq in Hne. now rewrite Hne.
    + now rewrite IH.
Qed.

Lemma dict_get_del_same (k : str) (d : dict V) : dict_get k (dict_del k d) = None.
Proof.
  induction d as [|[k' v'] d IH]; simpl; [reflexivity|].
  destruct (str_eqb k k') eqn:E; simpl; [exact IH|]. now rewrite E.
Qed.

Lemma dict_get_del_other (k k0 : str) (d : dict V) :
  k0 <> k -> dict_get k0 (dict_del k d) = dict_get k0 d.
Proof.
  intros Hne. induction d as [|[k' v'] d IH]; simpl; [reflexivity|].
  destruct (str_eqb k k') eqn:E; simpl.
  - apply str_eqb_eq in E. subst k'. apply str_eqb_neq in Hne. now rewrite Hne.
  - now rewrite IH.
Qed.

Lemma dict_get_None (k : str) (d : dict V) :
  dict_get k d = None <-> ~ In k (dict_keys d).
Proof.
  induction d as [|[k' v'] d IH]; simpl; [tauto|].
  destruct (str_eqb k k') eqn:E.
  - apply str_eqb_eq in E. subst k'. split; [discriminate | tauto].
  - apply str_eqb_neq in E. rewrite IH. split; [intros H [H'|H']; auto | tauto].
Qed.

Lemma dict_get_In (k : str) (v : V) (d : dict V) :
  dict_get k d = Some v -> In (k, v) d.
Proof.
  induction d as [|[k' v'] d IH]; simpl; [discriminate|].
  destruct (str_eqb k k') eqn:E; [|auto].
  apply str_eqb_eq in E. subst k'. intros [= <-]. now left.
Qed.

End DictLookup.

(** What [date(y, m, d)] returns is a date between [date.min] and
    [date.max]. *)
Lemma day_of_year_bound (leap : bool) (m d : Z) :
  1 <= m <= 12 -> 1 <= d <= days_in_month_of leap m ->
  1 <= days_before_month_of leap m + d <= 365 + (if leap then 1 else 0).
Proof.
  intros Hm Hd.
  assert (H : m = 1 \/ m = 2 \/ m = 3 \/ m = 4 \/ m = 5 \/ m = 6 \/ m = 7
              \/ m = 8 \/ m = 9 \/ m = 10 \/ m = 11 \/ m = 12) by lia.
  assert (Hb : 0 <= days_before_month_of leap m
               /\ days_before_month_of leap m + days_in_month_of leap m
                  <= 365 + (if leap then 1 else 0)).
  { destruct leap;
      repeat (destruct H as [->|H]; [vm_compute; split; discriminate|]);
      subst m; vm_compute; split; discriminate. }
  lia.
Qed.

Lemma days_before_year_bound (y : Z) :
  1 <= y <= 9999 ->
  0 <= days_before_year y
  /\ days_before_year y + 365 + (if is_leap y then 1 else 0) <= MAXORDINAL.
Proof.
  intros Hy. unfold days_before_year, MAXORDINAL. cbv zeta.
  assert (Hc : y = 9999 \/ y <= 9998) by lia. destruct Hc as [-> | Hc].
  - vm_compute. split; discriminate.
  - assert (Hl : (if is_leap y then 1 else 0) <= 1) by (destruct (is_leap y); lia).
    revert Hl. generalize (if is_leap y then 1 else 0). intros leap Hl.
    Z.div_mod_to_equations. lia.
Qed.

Lemma mkdate_valid (y m d : Z) (x : date) : mkdate y m d = Ok x -> valid_date x.
Proof.
  unfold mkdate.
  destruct (negb (fits_c_int y && fits_c_int m && fits_c_int d)); [discriminate|].
  destruct ((1 <=? y) && (y <=? 9999)) eqn:Ey; cbn [negb]; [|discriminate].
  destruct ((1 <=? m) && (m <=? 12)) eqn:Em; cbn [negb]; [|discriminate].
  destruct ((1 <=? d) && (d <=? days_in_month y m)) eqn:Ed; cbn [negb]; [|discriminate].
  intros [= <-].
  apply andb_true_iff in Ey, Em, Ed.
  destruct Ey as [Hy1%Z.leb_le Hy2%Z.leb_le].
  destruct Em as [Hm1%Z.leb_le Hm2%Z.leb_le].
  destruct Ed as [Hd1%Z.leb_le Hd2%Z.leb_le].
  pose proof (days_before_year_bound y (conj Hy1 Hy2)) as [Hb1 Hb2].
  pose proof (day_of_year_bound (is_leap y) m d (conj Hm1 Hm2) (conj Hd1 Hd2)) as Hdoy.
  unfold valid_date, ymd2ord, days_before_month.
  destruct (is_leap y); lia.
Qed.

Section HomeworkCommands.
Context {py : PyLib}.
Variable cfg : Config.
Variable today : date.

(** A map the sweep would keep whole is loaded as it is, and nothing is
    written. *)
Lemma load_homework_clean_fixed (m : dict str) :
  NoDup (dict_keys m) ->
  Forall (fun kv => kept_by_code cfg today (fst kv)) m ->
  load_homework_clean cfg today m = Ok (m, m).
Proof.
  intros Hnd Hk.
  assert (Hall : Forall (fun kv => expiry_in_range cfg kv
                  /\ spec_retained (homework_ttl_days cfg) today kv = true) m).
  { eapply Forall_impl; [|exact Hk]. intros kv. apply kept_by_code_retained. }
  apply Forall_and_inv in Hall. destruct Hall as [Hr Hret].
  unfold load_homework_clean, cleanup_homework_in_memory.
  rewrite cleanup_loop_spec by assumption.
  destruct (filter_all_true _ _ Hret) as [-> ->]. reflexivity.
Qed.

Lemma load_homework_clean_eq (file hw file1 : dict str) :
  load_homework_clean cfg today file = Ok (hw, file1) ->
  exists removed, cleanup_homework_in_memory file cfg today = Ok (hw, removed)
                  /\ file1 = if removed =? 0 then file else hw.
Proof.
  unfold load_homework_clean.
  destruct (cleanup_homework_in_memory file cfg today) as [[hw2 removed]|];
    cbn [bind]; [|discriminate].
  intros [= <- <-]. eauto.
Qed.

(** The date words alone parse as they do in front of a text. *)
Lemma parse_date_and_consumed_prefix (args : list str) (target : date) (consumed : Z) :
  parse_date_and_consumed today args = Ok (Some (target, consumed)) ->
  valid_date target
  /\ (consumed = 1 \/ consumed = 2)
  /\ (Z.to_nat consumed <= length args)%nat
  /\ parse_date_and_consumed today (firstn (Z.to_nat consumed) args)
     = Ok (Some (target, consumed)).
Proof.
  destruct args as [|a0 rest]; [discriminate|].
  assert (Hnw : forall i a, next_weekday today i = Ok a -> valid_date a).
  { intros i a H. unfold next_weekday in H. apply date_add_inv in H.
    unfold valid_date. lia. }
  unfold parse_date_and_consumed.
  destruct (str_eqb _ TOMORROW) eqn:E1.
  { destruct (date_add today 1) eqn:Ed; cbn [bind]; [|discriminate].
    intros [= <- <-]. change (Z.to_nat 1) with 1%nat. cbn [firstn].
    rewrite ?E1, ?Ed. cbn [bind]; simpl length. repeat split; auto; try lia;
      first [eapply mkdate_valid; eassumption | eapply Hnw; eassumption
            | apply date_add_inv in Ed; unfold valid_date; lia]. }
  destruct (str_in _ DOW_SHORT) eqn:E2.
  { destruct (list_index _ DOW_SHORT) as [i|] eqn:Ei; cbn [bind]; [|discriminate].
    destruct (next_weekday today i) eqn:Ed; cbn [bind]; [|discriminate].
    intros [= <- <-]. change (Z.to_nat 1) with 1%nat. cbn [firstn].
    rewrite ?E1, ?E2, ?Ei. cbn [bind]. rewrite ?Ed. cbn [bind]; simpl length.
    repeat split; auto; try lia;
      first [eapply mkdate_valid; eassumption | eapply Hnw; eassumption
            | apply date_add_inv in Ed; unfold valid_date; lia]. }
  destruct (str_in _ DOW_FULL) eqn:E3.
  { destruct (list_index _ DOW_FULL) as [i|] eqn:Ei; cbn [bind]; [|discriminate].
    destruct (next_weekday today i) eqn:Ed; cbn [bind]; [|discriminate].
    intros [= <- <-]. change (Z.to_nat 1) with 1%nat. cbn [firstn].
    rewrite ?E1, ?E2, ?E3, ?Ei. cbn [bind]. rewrite ?Ed. cbn [bind]; simpl length.
    repeat split; auto; try lia;
      first [eapply mkdate_valid; eassumption | eapply Hnw; eassumption
            | apply date_add_inv in Ed; unfold valid_date; lia]. }
  destruct (_parse_numeric_date_token _) as [[dd mm]|] eqn:E4.
  { destruct (mkdate (date_year today) mm dd) eqn:Ed; cbn [bind]; [|discriminate].
    intros [= <- <-]. change (Z.to_nat 1) with 1%nat. cbn [firstn].
    rewrite ?E1, ?E2, ?E3, ?E4, ?Ed. cbn [bind]; simpl length. repeat split; auto; try lia;
      first [eapply mkdate_valid; eassumption | eapply Hnw; eassumption
            | apply date_add_inv in Ed; unfold valid_date; lia]. }
  destruct rest as [|a1 rest]; [discriminate|].
  destruct (isdigit a0 && isdigit a1) eqn:E5.
  { destruct (int_of_digits a0) as [dd|] eqn:Ea; cbn [bind]; [|discriminate].
    destruct (int_of_digits a1) as [mm|] eqn:Eb; cbn [bind]; [|discriminate].
    destruct (mkdate (date_year today) mm dd) eqn:Ed; cbn [bind]; [|discriminate].
    intros [= <- <-]. change (Z.to_nat 2) with 2%nat. cbn [firstn].
    rewrite ?E1, ?E2, ?E3, ?E4, ?E5, ?Ea. cbn [bind]. rewrite ?Eb. cbn [bind].
    rewrite ?Ed. cbn [bind]; simpl length. repeat split; auto; try lia;
      first [eapply mkdate_valid; eassumption | eapply Hnw; eassumption
            | apply date_add_inv in Ed; unfold valid_date; lia]. }
  destruct (isdigit a0) eqn:E6; [|discriminate].
  destruct (int_of_digits a0) as [dd|] eqn:Ea; cbn [bind]; [|discriminate].
  destruct (dict_get _ RU_MONTHS) as [mm|] eqn:Em; [|discriminate].
  destruct (mkdate (date_year today) mm dd) eqn:Ed; cbn [bind]; [|discriminate].
  intros [= <- <-]. change (Z.to_nat 2) with 2%nat. cbn [firstn].
  rewrite ?E1, ?E2, ?E3, ?E4, ?E6, ?E5, ?Ea. cbn [bind]. rewrite ?Em, ?Ed.
  cbn [bind]; simpl length.
  repeat split; auto; try lia; eapply mkdate_valid; eassumption.
Qed.

Lemma skipn_firstn_nil {A : Type} (n : nat) (l : list A) : skipn n (firstn n l) = [].
Proof.
  revert l. induction n as [|n IH]; intros [|x l]; simpl; auto.
Qed.

(** What [cmd_homework] does with a date and a text. *)
Lemma cmd_homework_saves (file : dict str) (args : list str)
  (target : date) (consumed : Z) (file1 : dict str) (exp : date) :
  parse_date_and_consumed today args = Ok (Some (target, consumed)) ->
  cmd_homework cfg today file args = (file1, Ok (HwSaved target exp)) ->
  exists hw file0 a rest,
    load_homework_clean cfg today file = Ok (hw, file0)
    /\ skipn (Z.to_nat consumed) args = a :: rest
    /\ file1 = dict_set (date_isoformat target)
                        (strip (join (lit " ") (a :: rest))) hw
    /\ expiry_of_homework target cfg = Ok exp.
Proof.
  intros Hp. unfold cmd_homework.
  destruct (load_homework_clean cfg today file) as [[hw file0]|] eqn:El;
    [|discriminate].
  destruct args as [|a0 args0]; [discriminate|]. rewrite Hp.
  destruct (skipn (Z.to_nat consumed) (a0 :: args0)) as [|a rest] eqn:Es.
  - destruct (dict_get _ hw) as [[|c t]|];
      destruct (expiry_of_homework target cfg); cbn [bind]; discriminate.
  - destruct (expiry_of_homework target cfg) as [e|] eqn:Ee; cbn [bind];
      [|discriminate].
    intros [= <- <-]. exists hw, file0, a, rest. auto.
Qed.

(** X16. Save, then show. When [/dz] with a date and a text has replied
    that it saved the task, and the task does not expire before today, [/dz]
    with the same date words alone, on the same day, shows that task (the
    text joined and trimmed) with the same expiry, and writes nothing.
    (The key written for the date reads back as that date.) *)
Theorem cmd_homework_save_then_show
  (file file1 : dict str) (args : list str) (target : date) (consumed : Z) (exp : date) :
  parse_date_and_consumed today args = Ok (Some (target, consumed)) ->
  cmd_homework cfg today file args = (file1, Ok (HwSaved target exp)) ->
  fromisoformat (date_isoformat target) = Some target ->
  today <= exp ->
  cmd_homework cfg today file1 (firstn (Z.to_nat consumed) args)
  = (file1,
     match strip (join (lit " ") (skipn (Z.to_nat consumed) args)) with
     | [] => Ok (HwNone target exp)
     | c :: task => Ok (HwShow target (c :: task) exp)
     end).
Proof.
  intros Hp Hsave Hiso Hexp.
  destruct (cmd_homework_saves _ _ _ _ _ _ Hp Hsave)
    as (hw & file0 & a & rest & El & Es & -> & Ee).
  destruct (parse_date_and_consumed_prefix _ _ _ Hp) as (_ & Hc & Hlen & Hp').
  destruct (load_homework_clean_inv _ _ _ _ _ El) as (Hk & _ & Hnd).
  set (key := date_isoformat target) in *.
  set (task := strip (join (lit " ") (a :: rest))).
  assert (Hfix : load_homework_clean cfg today (dict_set key task hw)
                 = Ok (dict_set key task hw, dict_set key task hw)).
  { apply load_homework_clean_fixed.
    - now apply dict_set_NoDup.
    - apply dict_set_Forall_key; [|exact Hk].
      unfold kept_by_code. rewrite Hiso. exists exp. split; [exact Ee|].
      apply Z.ltb_ge. lia. }
  unfold cmd_homework. rewrite Hfix.
  destruct (firstn (Z.to_nat consumed) args) as [|b0 bs] eqn:Ef.
  { exfalso. destruct args as [|a0 args0]; [discriminate Hp|].
    destruct Hc as [-> | ->]; discriminate Ef. }
  rewrite Hp'. rewrite <- Ef, skipn_firstn_nil.
  rewrite dict_get_set_same, Ee. cbn [bind]. rewrite Es. fold task.
  destruct task; reflexivity.
Qed.

(** X17. Save, then gone. When [/dz] has replied that it saved a task whose
    expiry is already before today (a date early in the current year, say),
    the entry is swept by the next command: [/dz] with the same date words
    finds no homework for that date and stores the map without it. *)
Theorem cmd_homework_save_expired
  (file file1 : dict str) (args : list str) (target : date) (consumed : Z) (exp : date) :
  parse_date_and_consumed today args = Ok (Some (target, consumed)) ->
  cmd_homework cfg today file args = (file1, Ok (HwSaved target exp)) ->
  fromisoformat (date_isoformat target) = Some target ->
  exp < today ->
  exists hw file0,
    load_homework_clean cfg today file = Ok (hw, file0)
    /\ dict_get (date_isoformat target) hw = None
    /\ cmd_homework cfg today file1 (firstn (Z.to_nat consumed) args)
       = (hw, Ok (HwNone target exp)).
Proof.
  intros Hp Hsave Hiso Hexp.
  destruct (cmd_homework_saves _ _ _ _ _ _ Hp Hsave)
    as (hw & file0 & a & rest & El & Es & -> & Ee).
  destruct (parse_date_and_consumed_prefix _ _ _ Hp) as (_ & Hc & Hlen & Hp').
  destruct (load_homework_clean_inv _ _ _ _ _ El) as (Hk & _ & Hnd).
  set (key := date_isoformat target) in *.
  set (task := strip (join (lit " ") (a :: rest))).
  assert (Hfresh : ~ In key (dict_keys hw)).
  { intros Hin. unfold dict_keys in Hin. apply in_map_iff in Hin.
    destruct Hin as ([k v] & Hkey & Hin). simpl in Hkey. subst k.
    rewrite Forall_forall in Hk. specialize (Hk _ Hin).
    unfold kept_by_code in Hk. cbn [fst] in Hk. rewrite Hiso in Hk.
    destruct Hk as (e & He & Hlt). rewrite Ee in He. injection He as <-.
    apply Z.ltb_ge in Hlt. lia. }
  exists hw, file0. split; [exact El|].
  split; [now apply dict_get_None|].
  assert (Hall : Forall (fun kv => expiry_in_range cfg kv
                  /\ spec_retained (homework_ttl_days cfg) today kv = true) hw).
  { eapply Forall_impl; [|exact Hk]. intros kv. apply kept_by_code_retained. }
  apply Forall_and_inv in Hall. destruct Hall as [Hr Hret].
  destruct (expiry_of_homework_inv _ _ _ Ee) as (Hexp_eq & Habs & Hrange).
  assert (Hload : load_homework_clean cfg today (dict_set key task hw) = Ok (hw, hw)).
  { rewrite dict_set_fresh by exact Hfresh.
    unfold load_homework_clean, cleanup_homework_in_memory.
    rewrite cleanup_loop_spec.
    - rewrite !filter_app. destruct (filter_all_true _ _ Hret) as [-> ->].
      cbn [filter]. unfold spec_retained at 1 2. cbn [fst]. rewrite Hiso.
      replace (today <=? target + homework_ttl_days cfg) with false
        by (symmetry; apply Z.leb_gt; lia).
      cbn [negb app length bind]. rewrite app_nil_r. reflexivity.
    - cbn [app]. rewrite <- (dict_set_fresh key task hw Hfresh).
      now apply dict_set_NoDup.
    - apply Forall_app. split; [exact Hr|]. repeat constructor.
      unfold expiry_in_range. cbn [fst]. rewrite Hiso. auto. }
  unfold cmd_homework. rewrite Hload.
  destruct (firstn (Z.to_nat consumed) args) as [|b0 bs] eqn:Ef.
  { exfalso. destruct args as [|a0 args0]; [discriminate Hp|].
    destruct Hc as [-> | ->]; discriminate Ef. }
  rewrite Hp'. rewrite <- Ef, skipn_firstn_nil.
  assert (Hg : dict_get (date_isoformat target) hw = None)
    by now apply dict_get_None.
  rewrite Hg, Ee. reflexivity.
Qed.

(** X18. [/dz_edit] and [/dz_del] from a user who is no admin once the
    bootstrap has run are refused and leave every stored record as it
    was. *)
Theorem homework_edit_del_admin_only (update : Update) (args : list str) (st : Store) :
  is_admin update (ensure_first_admin_if_empty update (settings_file st)) = false ->
  cmd_homework_edit cfg today update args st = (st, Ok HeAdminsOnly)
  /\ cmd_homework_del today update args st = (st, Ok HdAdminsOnly).
Proof.
  intros Ha. unfold cmd_homework_edit, cmd_homework_del.
  cbn [settings_file with_settings]. rewrite Ha. cbn [negb].
  now rewrite (ensure_first_admin_of_stranger _ _ Ha), with_settings_same.
Qed.

(** X19. Whatever [/dz_edit] stores when it replies "done", [/dz] with the
    same arguments stores as well, for any user: the admin check of the edit
    command guards nothing that the open command would not do. What the
    edit adds is the refusal of dates without an entry: the stored map has
    the keys of the swept map, no new one. *)
Theorem cmd_homework_edit_as_save (update : Update) (args : list str)
  (st st' : Store) :
  cmd_homework_edit cfg today update args st = (st', Ok HeDone) ->
  homework_file st' = fst (cmd_homework cfg today (homework_file st) args)
  /\ exists hw file1,
       load_homework_clean cfg today (homework_file st) = Ok (hw, file1)
       /\ dict_keys (homework_file st') = dict_keys hw.
Proof.
  unfold cmd_homework_edit. cbn [settings_file with_settings homework_file].
  destruct (negb (is_admin update _)); [discriminate|].
  destruct (parse_date_and_consumed today args) as [[[target consumed]|]|] eqn:Hp;
    try discriminate.
  destruct (strip (join (lit " ") (skipn (Z.to_nat consumed) args)))
    as [|c task] eqn:Et; [discriminate|].
  destruct (load_homework_clean cfg today (homework_file st)) as [[hw file1]|] eqn:El;
    [|discriminate].
  destruct (dict_get (date_isoformat target) hw) as [old|] eqn:Eg; [|discriminate].
  intros [= <-]. cbn [homework_file with_homework fst]. split.
  - unfold cmd_homework. rewrite El.
    destruct args as [|a0 args0]; [discriminate Hp|]. rewrite Hp.
    destruct (skipn (Z.to_nat consumed) (a0 :: args0)) as [|a rest] eqn:Es.
    + discriminate Et.
    + cbn [fst]. now rewrite Et.
  - exists hw, file1. split; [reflexivity|].
    rewrite dict_set_keys.
    destruct (str_in (date_isoformat target) (dict_keys hw)) eqn:Ei; [reflexivity|].
    apply str_in_not_In, dict_get_None in Ei. congruence.
Qed.

(** X20. When [/dz_del] replies that it deleted the homework of a date, the
    stored map has no entry for that date any more, every other key reads as
    before, and the duty roster, the schedule and the jokes are untouched;
    the command does not sweep the map. *)
Theorem cmd_homework_del_exact (update : Update) (args : list str)
  (st st' : Store) (target : date) :
  cmd_homework_del today update args st = (st', Ok (HdDeleted target)) ->
  dict_get (date_isoformat target) (homework_file st') = None
  /\ (forall k, k <> date_isoformat target ->
        dict_get k (homework_file st') = dict_get k (homework_file st))
  /\ homework_file st' = dict_del (date_isoformat target) (homework_file st)
  /\ duty_file st' = duty_file st
  /\ schedule_file st' = schedule_file st
  /\ jokes_file st' = jokes_file st.
Proof.
  unfold cmd_homework_del. cbn [settings_file with_settings homework_file].
  destruct (is_admin update _) eqn:Ha; cbn [negb]; [|discriminate].
  destruct (parse_date_and_consumed today args) as [[[t consumed]|]|];
    try discriminate.
  destruct (dict_get (date_isoformat t) (homework_file st)) eqn:Eg; [|discriminate].
  intros [= <- <-]. cbn [homework_file with_homework with_settings settings_file
                          duty_file schedule_file jokes_file].
  split; [apply dict_get_del_same|].
  split; [intros k Hk; now apply dict_get_del_other|].
  auto.
Qed.

End HomeworkCommands.

(** On 2024-09-04, [/dz 10.09 essay p.5] and then [/dz 10.09]. *)
Lemma cmd_homework_save_then_show_witness :
  cmd_homework (py := basic_pylib) default_config (ymd2ord 2024 9 4)
    [(lit "2024-09-10", lit "essay p.5")] [lit "10.09"]
  = ([(lit "2024-09-10", lit "essay p.5")],
     Ok (HwShow (ymd2ord 2024 9 10) (lit "essay p.5") (ymd2ord 2024 9 24))).
Proof.
  apply (cmd_homework_save_then_show (py := basic_pylib) default_config
           (ymd2ord 2024 9 4) [] [(lit "2024-09-10", lit "essay p.5")]
           [lit "10.09"; lit "essay"; lit "p.5"] (ymd2ord 2024 9 10) 1
           (ymd2ord 2024 9 24)).
  - vm_compute. reflexivity.
  - vm_compute. reflexivity.
  - vm_compute. reflexivity.
  - vm_compute. discriminate.
Defined.

(** On 2024-09-04, [/dz 01.02 old] and then [/dz 01.02]: the first of
    February of the current year expired on the 15th. *)
Lemma cmd_homework_save_expired_witness :
  exists hw file0,
    load_homework_clean (py := basic_pylib) default_config (ymd2ord 2024 9 4) []
    = Ok (hw, file0)
    /\ dict_get (date_isoformat (ymd2ord 2024 2 1)) hw = None
    /\ cmd_homework (py := basic_pylib) default_config (ymd2ord 2024 9 4)
         [(lit "2024-02-01", lit "old")]
         (firstn (Z.to_nat 1) [lit "01.02"; lit "old"])
       = (hw, Ok (HwNone (ymd2ord 2024 2 1) (ymd2ord 2024 2 15))).
Proof.
  apply (cmd_homework_save_expired (py := basic_pylib) default_config
           (ymd2ord 2024 9 4) [] [(lit "2024-02-01", lit "old")]
           [lit "01.02"; lit "old"] (ymd2ord 2024 2 1) 1 (ymd2ord 2024 2 15)).
  - vm_compute. reflexivity.
  - vm_compute. reflexivity.
  - vm_compute. reflexivity.
  - vm_compute. reflexivity.
Defined.

(** [@dave] is no admin of Carol's bot. *)
Lemma homework_edit_del_admin_only_witness :
  cmd_homework_edit (py := basic_pylib) default_config (ymd2ord 2024 9 4)
    (message_from Group (lit "dave") (lit "/dz_edit 10.09 none"))
    [lit "10.09"; lit "none"] (carols_store [(lit "2024-09-10", lit "essay")])
  = (carols_store [(lit "2024-09-10", lit "essay")], Ok HeAdminsOnly)
  /\ cmd_homework_del (py := basic_pylib) (ymd2ord 2024 9 4)
       (message_from Group (lit "dave") (lit "/dz_edit 10.09 none"))
       [lit "10.09"; lit "none"] (carols_store [(lit "2024-09-10", lit "essay")])
     = (carols_store [(lit "2024-09-10", lit "essay")], Ok HdAdminsOnly).
Proof.
  apply (homework_edit_del_admin_only (py := basic_pylib) default_config
           (ymd2ord 2024 9 4)
           (message_from Group (lit "dave") (lit "/dz_edit 10.09 none"))
           [lit "10.09"; lit "none"] (carols_store [(lit "2024-09-10", lit "essay")])).
  reflexivity.
Defined.

(** [@carol] edits the entry of 2024-09-10. *)
Lemma cmd_homework_edit_as_save_witness :
  [(lit "2024-09-10", lit "essay p.6")]
  = fst (cmd_homework (py := basic_pylib) default_config (ymd2ord 2024 9 4)
           [(lit "2024-09-10", lit "essay")] [lit "10.09"; lit "essay"; lit "p.6"]).
Proof.
  apply (cmd_homework_edit_as_save (py := basic_pylib) default_config
           (ymd2ord 2024 9 4)
           (message_from Private (lit "carol") (lit "/dz_edit 10.09 essay p.6"))
           [lit "10.09"; lit "essay"; lit "p.6"]
           (carols_store [(lit "2024-09-10", lit "essay")])
           (carols_store [(lit "2024-09-10", lit "essay p.6")])).
  vm_compute. reflexivity.
Defined.

(** [@carol] deletes the entry of 2024-09-10 and keeps the one of the
    12th. *)
Lemma cmd_homework_del_exact_witness :
  dict_get (date_isoformat (ymd2ord 2024 9 10))
    [(lit "2024-09-12", lit "poem")] = None
  /\ [(lit "2024-09-12", lit "poem")]
     = dict_del (date_isoformat (ymd2ord 2024 9 10))
         [(lit "2024-09-10", lit "essay"); (lit "2024-09-12", lit "poem")].
Proof.
  pose proof (cmd_homework_del_exact (py := basic_pylib) (ymd2ord 2024 9 4)
                (message_from Private (lit "carol") (lit "/dz_del 10.09"))
                [lit "10.09"]
                (carols_store [(lit "2024-09-10", lit "essay");
                               (lit "2024-09-12", lit "poem")])
                (carols_store [(lit "2024-09-12", lit "poem")])
                (ymd2ord 2024 9 10)) as H.
  destruct H as (H1 & _ & H3 & _); [vm_compute; reflexivity|].
  split; [exact H1 | exact H3].
Defined.

(* ================================================================== *)
(** ** The rotation from one school day to the next *)

Lemma dates_from_through_In (a b d : date) :
  In d (dates_from_through a b) -> a <= d <= b.
Proof.
  unfold dates_from_through. intros H. apply in_map_iff in H.
  destruct H as (i & <- & Hi). apply in_seq in Hi. lia.
Qed.

Lemma dates_from_through_app (a b c : date) :
  a <= b + 1 -> b <= c ->
  dates_from_through a c = dates_from_through a b ++ dates_from_through (b + 1) c.
Proof.
  intros Hab Hbc.
  remember (Z.to_nat (b + 1 - a)) as n eqn:En. revert a Hab En.
  induction n as [|n IH]; intros a Hab En.
  - assert (a = b + 1) by lia. subst a.
    now rewrite (dates_from_through_nil (b + 1) b) by lia.
  - rewrite (dates_from_through_cons a c), (dates_from_through_cons a b) by lia.
    rewrite (IH (a + 1)) by lia. reflexivity.
Qed.

Lemma filter_none {A : Type} (f : A -> bool) (l : list A) :
  Forall (fun x => f x = false) l -> filter f l = [].
Proof.
  induction 1 as [|x l Hx _ IH]; simpl; [reflexivity|]. now rewrite Hx.
Qed.

(** [cmd_duty] on a school day on or after the school start: the entry at the
    position the count of school days gives. *)
Lemma cmd_duty_on_school_day (cfg : Config) (roster : list str) (today : date) :
  1 <= school_start cfg -> today < MAXORDINAL ->
  roster <> [] -> school_start cfg <= today ->
  spec_is_school_day cfg today = true ->
  forall fuel : nat, (Z.to_nat (today + 1 - school_start cfg) < fuel)%nat ->
    cmd_duty fuel cfg roster today
    = Some (Ok (MSG_DUTY_TODAY
                ++ nth (Z.to_nat ((spec_schoolDayIndex cfg today - 1)
                                  mod Z.of_nat (length roster))) roster [])).
Proof.
  intros Hstart Hmax Hne Hs Hday fuel Hfuel. unfold cmd_duty.
  destruct roster as [|e roster]; [contradiction|].
  replace (today <? school_start cfg) with false by (symmetry; apply Z.ltb_ge; lia).
  unfold spec_is_school_day in Hday. apply andb_true_iff in Hday.
  destruct Hday as [Hw Hh]. apply negb_true_iff in Hw, Hh. rewrite Hw, Hh.
  cbn [orb]. rewrite (cmd_duty_loop_counts cfg today Hmax) by lia.
  fold (spec_schoolDayIndex cfg today). rewrite Z.add_0_l.
  rewrite list_getitem_nth; [reflexivity|].
  apply Z.mod_pos_bound. simpl length. lia.
Qed.

(** X21. The rotation moves by one. For two school days [d1 < d2] on or
    after the school start, with no school day between them, [cmd_duty]
    names on [d2] the roster entry that follows (cyclically) the one it
    names on [d1]. *)
Theorem cmd_duty_round_robin (cfg : Config) (roster : list str) (d1 d2 : date) :
  valid_date (school_start cfg) ->
  roster <> [] ->
  school_start cfg <= d1 -> d1 < d2 -> d2 < MAXORDINAL ->
  spec_is_school_day cfg d1 = true ->
  spec_is_school_day cfg d2 = true ->
  (forall d, d1 < d < d2 -> spec_is_school_day cfg d = false) ->
  exists (i : Z) (fuel0 : nat),
    0 <= i < Z.of_nat (length roster)
    /\ forall fuel : nat, (fuel0 <= fuel)%nat ->
         cmd_duty fuel cfg roster d1
         = Some (Ok (MSG_DUTY_TODAY ++ nth (Z.to_nat i) roster []))
         /\ cmd_duty fuel cfg roster d2
            = Some (Ok (MSG_DUTY_TODAY
                        ++ nth (Z.to_nat ((i + 1) mod Z.of_nat (length roster)))
                               roster [])).
Proof.
  intros [Hstart _] Hne Hs H12 Hmax Hday1 Hday2 Hgap.
  set (n := Z.of_nat (length roster)).
  assert (Hn : 0 < n) by (subst n; destruct roster; [contradiction | simpl length; lia]).
  assert (Hcount : spec_schoolDayIndex cfg d2 = spec_schoolDayIndex cfg d1 + 1).
  { unfold spec_schoolDayIndex.
    rewrite (dates_from_through_app (school_start cfg) d1 d2) by lia.
    rewrite filter_app, length_app.
    rewrite (dates_from_through_last (d1 + 1) d2) by lia.
    rewrite filter_app. cbn [filter]. rewrite Hday2.
    rewrite (filter_none (spec_is_school_day cfg)
               (dates_from_through (d1 + 1) (d2 - 1))).
    - simpl length. lia.
    - apply Forall_forall. intros d Hd. apply dates_from_through_In in Hd.
      apply Hgap. lia. }
  exists ((spec_schoolDayIndex cfg d1 - 1) mod n),
         (S (Z.to_nat (d2 + 1 - school_start cfg))).
  split; [apply Z.mod_pos_bound; lia|].
  intros fuel Hfuel. split.
  - apply cmd_duty_on_school_day; auto; lia.
  - rewrite (cmd_duty_on_school_day cfg roster d2); auto; try lia.
    rewrite Hcount. fold n. do 4 f_equal.
    replace (spec_schoolDayIndex cfg d1 + 1 - 1)
      with (spec_schoolDayIndex cfg d1 - 1 + 1) by lia.
    now rewrite Z.add_mod_idemp_l by lia.
Qed.

(** Friday 2024-09-06 (ordinal 739135) and Monday 2024-09-09: with the
    roster A, B, C and the default configuration, B is followed by C. *)
Lemma cmd_duty_round_robin_witness :
  exists (i : Z) (fuel0 : nat),
    0 <= i < 3
    /\ forall fuel : nat, (fuel0 <= fuel)%nat ->
         cmd_duty fuel default_config [lit "A"; lit "B"; lit "C"] 739135
         = Some (Ok (MSG_DUTY_TODAY ++ nth (Z.to_nat i) [lit "A"; lit "B"; lit "C"] []))
         /\ cmd_duty fuel default_config [lit "A"; lit "B"; lit "C"] 739138
            = Some (Ok (MSG_DUTY_TODAY
                        ++ nth (Z.to_nat ((i + 1) mod 3))
                               [lit "A"; lit "B"; lit "C"] [])).
Proof.
  apply (cmd_duty_round_robin default_config [lit "A"; lit "B"; lit "C"]
           739135 739138).
  - unfold valid_date. vm_compute. split; discriminate.
  - discriminate.
  - vm_compute. discriminate.
  - lia.
  - vm_compute. reflexivity.
  - vm_compute. reflexivity.
  - vm_compute. reflexivity.
  - intros d Hd. assert (Hc : d = 739136 \/ d = 739137) by lia.
    destruct Hc as [-> | ->]; vm_compute; reflexivity.
Defined.

(* ================================================================== *)
(** ** Jokes *)

(** X22. [st_joke_add_text] returns to the menu and stores the former
    jokes followed by the trimmed text; [/joke] afterwards always has a joke
    to tell, one of the former ones or the new one, whichever index is
    drawn, and the last index draws the new one. [/joke_add] leads to the
    state that reads the joke only for an admin in a private chat. *)
Theorem st_joke_add_text_then_cmd_joke
  (update : Update) (ud : UserData) (st : Store) (pick : nat) :
  (pick < length (jokes_file (out_store (st_joke_add_text update ud st))))%nat ->
  out_state (st_joke_add_text update ud st) = ST_MENU
  /\ jokes_file (out_store (st_joke_add_text update ud st))
     = jokes_file st ++ [strip (message_text update)]
  /\ (exists text,
        cmd_joke pick (jokes_file (out_store (st_joke_add_text update ud st)))
        = JkJoke text
        /\ (In text (jokes_file st) \/ text = strip (message_text update)))
  /\ cmd_joke (length (jokes_file st))
              (jokes_file (out_store (st_joke_add_text update ud st)))
     = JkJoke (strip (message_text update))
  /\ (out_state (cmd_joke_add update ud st) = ST_JOKE_ADD
      <-> is_private update = true
          /\ is_admin update (ensure_first_admin_if_empty update (settings_file st))
             = true).
Proof.
  unfold st_joke_add_text. cbn [out_state out_store with_jokes jokes_file].
  intros Hpick. split; [reflexivity|]. split; [reflexivity|].
  assert (Hc : forall l i, l <> [] -> cmd_joke i l = JkJoke (nth i l [])).
  { intros [|x l] i H; [contradiction | reflexivity]. }
  assert (Hne : jokes_file st ++ [strip (message_text update)] <> [])
    by (destruct (jokes_file st); discriminate).
  split; [|split].
  - eexists. split; [apply Hc, Hne|].
    pose proof (nth_In _ [] Hpick) as Hin. apply in_app_or in Hin.
    destruct Hin as [Hin|[Hin|[]]]; [now left | now right].
  - rewrite Hc by exact Hne. now rewrite nth_middle.
  - unfold cmd_joke_add. cbn [settings_file with_settings].
    destruct (is_private update); cbn [negb];
      [|split; [discriminate | intros [H _]; discriminate H]].
    destruct (is_admin update _); cbn [negb out_state].
    + split; auto.
    + split; [discriminate | intros [_ H]; discriminate H].
Qed.

Lemma st_joke_add_text_then_cmd_joke_witness :
  cmd_joke 1 (jokes_file (out_store
    (st_joke_add_text (message_from Private (lit "carol") (lit " knock knock "))
       user_data_empty
       {| settings_file := settings_default; schedule_file := []; duty_file := [];
          homework_file := []; jokes_file := [lit "old one"] |})))
  = JkJoke (lit "knock knock").
Proof.
  pose proof (st_joke_add_text_then_cmd_joke
                (message_from Private (lit "carol") (lit " knock knock "))
                user_data_empty
                {| settings_file := settings_default; schedule_file := [];
                   duty_file := []; homework_file := [];
                   jokes_file := [lit "old one"] |} 1) as H.
  destruct H as (_ & _ & _ & H & _); [simpl; lia|]. exact H.
Defined.

(* ================================================================== *)
(** ** The roster: whom [remove] deletes, what [set] stores *)

Lemma startswith_app (p r : str) : startswith (p ++ r) p = true.
Proof.
  induction p as [|c p IH]; simpl; [now destruct r|]. now rewrite Z.eqb_refl.
Qed.

(** Two runs without [x], each followed by [x]: if one text starts with the
    other, the runs are the same. *)
Lemma startswith_run_eq (x : Z) (A B R R' : str) :
  Forall (fun c => c <> x) A -> Forall (fun c => c <> x) B ->
  startswith (A ++ x :: R) (B ++ x :: R') = true -> A = B.
Proof.
  intros HA. revert B. induction HA as [|a A Ha _ IH]; intros B HB.
  - destruct HB as [|b B Hb _]; [reflexivity|]. simpl.
    intros H. apply andb_true_iff in H. destruct H as [H%Z.eqb_eq _]. contradiction.
  - destruct HB as [|b B Hb HB]; simpl.
    + intros H. apply andb_true_iff in H. destruct H as [H%Z.eqb_eq _].
      symmetry in H. contradiction.
    + intros H. apply andb_true_iff in H. destruct H as [H%Z.eqb_eq H'].
      subst b. f_equal. now apply IH.
Qed.

Lemma username_chars_no_at (s : str) :
  forallb is_username_char s = true -> Forall (fun c => c <> 64) s.
Proof.
  intros H. apply Forall_forall. intros c Hc.
  rewrite forallb_forall in H. specialize (H c Hc).
  intros ->. discriminate H.
Qed.

Lemma username_re_chars (s : str) :
  username_re s = true -> forallb is_username_char s = true.
Proof.
  unfold username_re. intros H. apply andb_true_iff in H. tauto.
Qed.

(** An entry of the shape ends with [, @h] only if it is the entry of
    [h]. *)
Lemma entry_endswith (e h : str) :
  entry_shape e -> username_re h = true ->
  endswith e (lit ", @" ++ h) = str_eqb e (h ++ lit ", @" ++ h).
Proof.
  intros (n & Hn & ->) Hh.
  destruct (str_eqb (n ++ lit ", @" ++ n) (h ++ lit ", @" ++ h)) eqn:E.
  - apply str_eqb_eq in E. rewrite E. unfold endswith.
    rewrite (rev_app_distr h (lit ", @" ++ h)). apply startswith_app.
  - apply str_eqb_neq in E.
    destruct (endswith (n ++ lit ", @" ++ n) (lit ", @" ++ h)) eqn:Ew; [|reflexivity].
    exfalso. apply E. unfold endswith in Ew.
    rewrite !rev_app_distr in Ew. cbn [rev app] in Ew.
    rewrite <- !app_assoc in Ew. cbn [app] in Ew.
    apply startswith_run_eq in Ew.
    + apply (f_equal (@rev Z)) in Ew. rewrite !rev_involutive in Ew. now subst.
    + apply Forall_rev, username_chars_no_at, username_re_chars, Hn.
    + apply Forall_rev, username_chars_no_at, username_re_chars, Hh.
Qed.

Lemma is_username_char_no_space (c : Z) :
  is_username_char c = true -> is_space c = false.
Proof. unfold is_username_char, is_space. lia. Qed.

Lemma is_username_char_no_sep (c : Z) :
  is_username_char c = true -> is_list_sep c = false.
Proof. unfold is_username_char, is_list_sep. lia. Qed.

Lemma is_username_char_basic (c : Z) :
  is_username_char c = true -> basic_cp c = true.
Proof. unfold is_username_char, basic_cp. lia. Qed.

(** A text that neither starts nor ends with white space is its own
    trimmed form. *)
Lemma strip_clean (s : str) :
  forallb (fun c => negb (is_space c)) s = true -> strip s = s.
Proof.
  intros H. unfold strip. rewrite lstrip_no_space.
  - unfold rstrip. rewrite lstrip_no_space; [apply rev_involutive|].
    destruct (rev s) as [|c r] eqn:Er; [exact I|].
    rewrite forallb_forall in H. apply negb_true_iff, H.
    apply in_rev. rewrite Er. now left.
  - destruct s as [|c s]; [exact I|]. simpl in H.
    apply andb_true_iff in H. destruct H as [H _]. now apply negb_true_iff.
Qed.

Lemma handle_clean (h : str) :
  forallb is_username_char h = true -> forallb (fun c => negb (is_space c)) h = true.
Proof.
  intros H. apply forallb_forall. intros c Hc. rewrite forallb_forall in H.
  apply negb_true_iff, is_username_char_no_space, H, Hc.
Qed.

(** The pieces [re.split] cuts a [; ]-joined list of handles into. *)
Lemma re_split_seps_piece (item raw cur : str) (in_sep : bool) :
  item <> [] -> forallb is_username_char item = true ->
  re_split_seps ((64 :: item) ++ raw) cur in_sep
  = re_split_seps raw (rev (64 :: item) ++ cur) false.
Proof.
  intros _ H.
  assert (Hgen : forall s raw cur b, forallb (fun c => negb (is_list_sep c)) s = true ->
            s <> [] ->
            re_split_seps (s ++ raw) cur b = re_split_seps raw (rev s ++ cur) false).
  { clear. induction s as [|c s IH]; intros raw cur b Hs Hne; [contradiction|].
    simpl in Hs. apply andb_true_iff in Hs. destruct Hs as [Hc Hs].
    apply negb_true_iff in Hc. cbn [app re_split_seps]. rewrite Hc.
    destruct s as [|d s'].
    - reflexivity.
    - rewrite IH by (auto; discriminate). cbn [rev]. now rewrite <- !app_assoc. }
  apply Hgen; [|discriminate].
  cbn [forallb]. apply andb_true_iff. split; [reflexivity|].
  apply forallb_forall. intros c Hc. rewrite forallb_forall in H.
  apply negb_true_iff, is_username_char_no_sep, H, Hc.
Qed.

Lemma re_split_seps_handles (hs : list str) (h : str) (cur : str) (in_sep : bool) :
  Forall (fun h => username_re h = true) (h :: hs) ->
  re_split_seps (join (lit "; ") (map (fun h => 64 :: h) (h :: hs))) cur in_sep
  = (rev cur ++ 64 :: h) :: map (fun h => 32 :: 64 :: h) hs.
Proof.
  revert h cur in_sep. induction hs as [|h' hs IH]; intros h cur in_sep HF.
  - cbn [map join]. rewrite <- (app_nil_r (64 :: h)).
    inversion HF as [|? ? Hh _]; subst.
    rewrite re_split_seps_piece.
    + cbn [re_split_seps map]. now rewrite rev_app_distr, rev_involutive, app_nil_r.
    + unfold username_re in Hh. destruct h; [discriminate | discriminate].
    + now apply username_re_chars.
  - inversion HF as [|? ? Hh HF']; subst.
    change (join (lit "; ") (map (fun h => 64 :: h) (h :: h' :: hs)))
      with ((64 :: h) ++ 59 :: 32
            :: join (lit "; ") (map (fun h => 64 :: h) (h' :: hs))).
    rewrite re_split_seps_piece.
    + cbn [re_split_seps]. change (is_list_sep 59) with true.
      change (is_list_sep 32) with false. cbv iota.
      rewrite (IH h' [32] false HF'). cbn [map rev app]. f_equal.
      rewrite !rev_app_distr, rev_involutive. reflexivity.
    + unfold username_re in Hh. destruct h; [discriminate | discriminate].
    + now apply username_re_chars.
Qed.

Section RosterRoundTrip.
Context {py : PyLib}.

(** A handle with its [@], white space around it or not, is accepted as
    it is written. *)
Lemma normalize_username_input_handle (pad : str) (h : str) :
  username_re h = true -> pad = [] \/ pad = [32] ->
  normalize_username_input (pad ++ 64 :: h) = Some (64 :: h).
Proof.
  intros Hh Hpad.
  assert (Hs : strip (pad ++ 64 :: h) = 64 :: h).
  { assert (Hc : strip (64 :: h) = 64 :: h).
    { apply strip_clean. cbn [forallb]. apply andb_true_iff. split; [reflexivity|].
      apply handle_clean, username_re_chars, Hh. }
    destruct Hpad as [-> | ->]; [exact Hc|].
    unfold strip in *. cbn [app lstrip]. exact Hc. }
  assert (Hh' : strip h = h) by apply strip_clean, handle_clean, username_re_chars, Hh.
  assert (Hhandle : handle_of (pad ++ 64 :: h) = h).
  { unfold handle_of. rewrite Hs.
    assert (Hsw : startswith (64 :: h) (lit "@") = true) by (simpl; now destruct h).
    rewrite Hsw. cbn [tl]. exact Hh'. }
  rewrite <- Hhandle at 2.
  apply normalize_username_input_accepts.
  - now rewrite Hhandle.
  - rewrite Hs. rewrite str_lower_basic.
    + reflexivity.
    + cbn [forallb]. apply andb_true_iff. split; [reflexivity|].
      apply forallb_forall. intros c Hc. apply is_username_char_basic.
      pose proof (username_re_chars _ Hh) as Hu. rewrite forallb_forall in Hu. auto.
Qed.

Lemma d_set_new_list_handles (hs : list str) (h : str) :
  Forall (fun h => username_re h = true) (h :: hs) ->
  d_set_new_list ((64 :: h) :: map (fun h => 32 :: 64 :: h) hs)
  = map (fun h => h ++ lit ", @" ++ h) (h :: hs).
Proof.
  intros HF. unfold d_set_new_list.
  assert (Hgen : forall (l : list str) (acc : list str),
            Forall (fun h => username_re h = true) l ->
            fold_left (fun new_list p =>
                         match normalize_username_input p with
                         | Some uname =>
                           if negb (str_in uname END_WORDS)
                           then new_list ++ [duty_entry_from_username uname]
                           else new_list
                         | None => new_list
                         end) (map (fun h => 32 :: 64 :: h) l) acc
            = acc ++ map (fun h => h ++ lit ", @" ++ h) l).
  { induction l as [|x l IH]; intros acc Hl; cbn [map fold_left].
    - now rewrite app_nil_r.
    - inversion Hl as [|? ? Hx Hl']; subst.
      pose proof (normalize_username_input_handle [32] x Hx (or_intror eq_refl)) as Hn.
      cbn [app] in Hn. rewrite Hn.
      replace (str_in (64 :: x) END_WORDS) with false by reflexivity.
      cbn [negb]. rewrite (IH _ Hl').
      rewrite <- app_assoc. cbn [app]. do 2 f_equal. }
  inversion HF as [|? ? Hh HF']; subst. cbn [fold_left].
  pose proof (normalize_username_input_handle [] h Hh (or_introl eq_refl)) as Hn.
  cbn [app] in Hn. rewrite Hn.
  replace (str_in (64 :: h) END_WORDS) with false by reflexivity.
  cbn [negb app]. rewrite (Hgen hs _ HF'). cbn [app map]. reflexivity.
Qed.

(** X23. In a roster whose entries have the shape [name, @name], [remove]
    from an admin deletes the entries of the handle it is given and no
    other: an entry goes exactly when it is [h, @h]. Entries of users whose
    name only ends like [h] stay. *)
Theorem cmd_d_set_remove_exact (update : Update) (rest : list str) (st : Store) :
  is_admin update (ensure_first_admin_if_empty update (settings_file st)) = true ->
  username_re (handle_of (join (lit " ") rest)) = true ->
  str_in (str_lower (strip (join (lit " ") rest))) END_WORDS = false ->
  Forall entry_shape (duty_file st) ->
  duty_file (snd (cmd_d_set update (lit "remove" :: rest) st))
  = filter (fun x => negb (str_eqb x (handle_of (join (lit " ") rest) ++ lit ", @"
                                      ++ handle_of (join (lit " ") rest))))
           (duty_file st).
Proof.
  intros Ha Hr He Hshape.
  destruct (cmd_d_set_add_remove update rest st Ha Hr He) as [_ ->].
  apply filter_ext_in. intros x Hx. f_equal.
  rewrite Forall_forall in Hshape. now apply entry_endswith; auto.
Qed.

(** X24. [set] from an admin with handles written [@h1; @h2; ...] stores
    the entries [h1, @h1], [h2, @h2], ... in that order, in place of the
    former roster, and replies with their number; [list] then shows
    them. *)
Theorem cmd_d_set_set_round_trip
  (update : Update) (rest : list str) (st : Store) (h : str) (hs : list str) :
  is_admin update (ensure_first_admin_if_empty update (settings_file st)) = true ->
  Forall (fun h => username_re h = true) (h :: hs) ->
  strip (join (lit " ") rest)
  = join (lit "; ") (map (fun h => 64 :: h) (h :: hs)) ->
  fst (cmd_d_set update (lit "set" :: rest) st) = DSetUpdated (length (h :: hs))
  /\ duty_file (snd (cmd_d_set update (lit "set" :: rest) st))
     = map (fun h => h ++ lit ", @" ++ h) (h :: hs)
  /\ fst (cmd_d_set update [lit "list"] (snd (cmd_d_set update (lit "set" :: rest) st)))
     = DSetListing (map (fun h => h ++ lit ", @" ++ h) (h :: hs)).
Proof.
  intros Ha HF Hraw.
  assert (Hset : cmd_d_set update (lit "set" :: rest) st
                 = (DSetUpdated (length (h :: hs)),
                    with_duty (with_settings st
                                 (ensure_first_admin_if_empty update (settings_file st)))
                              (map (fun h => h ++ lit ", @" ++ h) (h :: hs)))).
  { unfold cmd_d_set. cbn [settings_file duty_file]. rewrite Ha. cbn [negb].
    rewrite str_lower_basic by reflexivity.
    repeat match goal with
    | |- context [str_eqb (map lower_basic ?a) ?b] =>
      let v := eval vm_compute in (str_eqb (map lower_basic a) b) in
      change (str_eqb (map lower_basic a) b) with v; cbv iota
    end.
    rewrite Hraw, (re_split_seps_handles hs h [] false HF). cbn [rev app].
    rewrite (d_set_new_list_handles hs h HF). cbn [map length].
    rewrite length_map. reflexivity. }
  rewrite Hset. cbn [fst snd with_duty duty_file].
  split; [reflexivity|]. split; [reflexivity|].
  unfold cmd_d_set. cbn [settings_file duty_file with_duty with_settings].
  rewrite (ensure_first_admin_of_admin _ _ Ha), Ha. cbn [negb].
  rewrite str_lower_basic by reflexivity.
  repeat match goal with
  | |- context [str_eqb (map lower_basic ?a) ?b] =>
    let v := eval vm_compute in (str_eqb (map lower_basic a) b) in
    change (str_eqb (map lower_basic a) b) with v; cbv iota
  end.
  reflexivity.
Qed.

End RosterRoundTrip.

(** [@carol] removes [bob] from a roster that also holds [xbob]. *)
Lemma cmd_d_set_remove_exact_witness :
  duty_file (snd (cmd_d_set (py := basic_pylib)
    (message_from Group (lit "carol") (lit "/d_set remove @bob"))
    [lit "remove"; lit "@bob"]
    {| settings_file := {| chat_id := None; admins := [lit "@carol"] |};
       schedule_file := []; duty_file := [lit "xbob, @xbob"; lit "bob, @bob"];
       homework_file := []; jokes_file := [] |}))
  = filter (fun x => negb (str_eqb x (lit "bob, @bob")))
           [lit "xbob, @xbob"; lit "bob, @bob"].
Proof.
  apply (cmd_d_set_remove_exact (py := basic_pylib)
           (message_from Group (lit "carol") (lit "/d_set remove @bob"))
           [lit "@bob"]
           {| settings_file := {| chat_id := None; admins := [lit "@carol"] |};
              schedule_file := []; duty_file := [lit "xbob, @xbob"; lit "bob, @bob"];
              homework_file := []; jokes_file := [] |}).
  - reflexivity.
  - reflexivity.
  - reflexivity.
  - repeat constructor.
    + exists (lit "xbob"). split; reflexivity.
    + exists (lit "bob"). split; reflexivity.
Defined.

(** [/d_set set @ann; @bob] from [@carol]. *)
Lemma cmd_d_set_set_round_trip_witness :
  fst (cmd_d_set (py := basic_pylib)
         (message_from Group (lit "carol") (lit "/d_set set @ann; @bob"))
         [lit "set"; lit "@ann;"; lit "@bob"] (carols_store []))
  = DSetUpdated 2
  /\ duty_file (snd (cmd_d_set (py := basic_pylib)
         (message_from Group (lit "carol") (lit "/d_set set @ann; @bob"))
         [lit "set"; lit "@ann;"; lit "@bob"] (carols_store [])))
     = [lit "ann, @ann"; lit "bob, @bob"].
Proof.
  pose proof (cmd_d_set_set_round_trip (py := basic_pylib)
                (message_from Group (lit "carol") (lit "/d_set set @ann; @bob"))
                [lit "@ann;"; lit "@bob"] (carols_store [])
                (lit "ann") [lit "bob"]) as H.
  destruct H as (H1 & H2 & _).
  - reflexivity.
  - repeat constructor.
  - vm_compute. reflexivity.
  - split; [exact H1 | exact H2].
Defined.

(* ================================================================== *)
(** ** What the date parser hands to the homework commands *)

(** The year of the [doy]-th day of the year [y]. *)
Lemma date_year_of_day (y doy : Z) :
  1 <= y <= 9999 ->
  1 <= doy <= 365 + (if is_leap y then 1 else 0) ->
  date_year (days_before_year y + doy) = y.
Proof.
  intros Hy Hdoy. unfold date_year, ord2ymd, days_before_year. cbv zeta.
  unfold is_leap in Hdoy.
  match goal with
  | |- fst (fst (if ?c then _ else _)) = _ => destruct c eqn:Ec
  end.
  - cbn [fst].
    apply orb_true_iff in Ec.
    destruct ((y mod 4 =? 0) && (negb (y mod 100 =? 0) || (y mod 400 =? 0))) eqn:El.
    + apply andb_true_iff in El. destruct El as [E4 El]. apply Z.eqb_eq in E4.
      apply orb_true_iff in El.
      destruct Ec as [Ec|Ec]; apply Z.eqb_eq in Ec;
      destruct El as [El|El];
        [apply negb_true_iff, Z.eqb_neq in El | apply Z.eqb_eq in El
        |apply negb_true_iff, Z.eqb_neq in El | apply Z.eqb_eq in El];
        revert Ec; Z.div_mod_to_equations; lia.
    + destruct Ec as [Ec|Ec]; apply Z.eqb_eq in Ec;
        apply andb_false_iff in El; 
        revert Ec; Z.div_mod_to_equations; lia.
  - match goal with
    | |- fst (fst (if ?c then _ else _)) = _ => destruct c
    end; cbn [fst];
    apply orb_false_iff in Ec; destruct Ec as [E1 E2];
    apply Z.eqb_neq in E1, E2;
    destruct ((y mod 4 =? 0) && (negb (y mod 100 =? 0) || (y mod 400 =? 0))) eqn:El;
    revert E1 E2; Z.div_mod_to_equations; lia.
Qed.

Lemma date_year_ymd2ord (y m d : Z) :
  1 <= y <= 9999 -> 1 <= m <= 12 -> 1 <= d <= days_in_month y m ->
  date_year (ymd2ord y m d) = y.
Proof.
  intros Hy Hm Hd.
  pose proof (day_of_year_bound (is_leap y) m d Hm Hd) as Hdoy.
  unfold ymd2ord, days_before_month. rewrite <- Z.add_assoc.
  now apply date_year_of_day.
Qed.

Lemma mkdate_year (y m d : Z) (x : date) : mkdate y m d = Ok x -> date_year x = y.
Proof.
  unfold mkdate.
  destruct (negb (fits_c_int y && fits_c_int m && fits_c_int d)); [discriminate|].
  destruct ((1 <=? y) && (y <=? 9999)) eqn:Ey; cbn [negb]; [|discriminate].
  destruct ((1 <=? m) && (m <=? 12)) eqn:Em; cbn [negb]; [|discriminate].
  destruct ((1 <=? d) && (d <=? days_in_month y m)) eqn:Ed; cbn [negb]; [|discriminate].
  intros [= <-].
  apply andb_true_iff in Ey, Em, Ed.
  destruct Ey as [Hy1%Z.leb_le Hy2%Z.leb_le].
  destruct Em as [Hm1%Z.leb_le Hm2%Z.leb_le].
  destruct Ed as [Hd1%Z.leb_le Hd2%Z.leb_le].
  now apply date_year_ymd2ord.
Qed.

Section ParsedDates.
Context {py : PyLib}.
Variable today : date.

(** X25. What [parse_date_and_consumed] returns can be used as the
    handlers use it: the date lies between [date.min] and [date.max], the
    count of consumed arguments is 1 or 2 and not more than there are
    arguments, and the consumed arguments alone parse to the same date. *)
Theorem parse_date_and_consumed_consumes
  (args : list str) (target : date) (consumed : Z) :
  parse_date_and_consumed today args = Ok (Some (target, consumed)) ->
  valid_date target
  /\ (consumed = 1 \/ consumed = 2)
  /\ (Z.to_nat consumed <= length args)%nat
  /\ parse_date_and_consumed today (firstn (Z.to_nat consumed) args)
     = Ok (Some (target, consumed)).
Proof. apply parse_date_and_consumed_prefix. Qed.

(** X26. A date written in numbers or with a month name (any first word
    other than "tomorrow" and the weekday names) is placed in the year of
    the current date, also when that day of the year has passed: the parser
    never moves it to the next year. *)
Theorem parse_date_in_current_year
  (arg0 : str) (rest : list str) (target : date) (consumed : Z) :
  no_word_rule (strip (str_lower arg0)) ->
  parse_date_and_consumed today (arg0 :: rest) = Ok (Some (target, consumed)) ->
  date_year target = date_year today.
Proof.
  intros Hword. destruct (no_word_rule_facts _ Hword) as (Ht & Hs & Hf).
  unfold parse_date_and_consumed. rewrite Ht, Hs, Hf.
  destruct (_parse_numeric_date_token _) as [[dd mm]|].
  { destruct (mkdate (date_year today) mm dd) eqn:Ed; cbn [bind]; [|discriminate].
    intros [= <- _]. eapply mkdate_year; eassumption. }
  destruct rest as [|arg1 rest]; [discriminate|].
  destruct (isdigit arg0 && isdigit arg1).
  { destruct (int_of_digits arg0) as [dd|]; cbn [bind]; [|discriminate].
    destruct (int_of_digits arg1) as [mm|]; cbn [bind]; [|discriminate].
    destruct (mkdate (date_year today) mm dd) eqn:Ed; cbn [bind]; [|discriminate].
    intros [= <- _]. eapply mkdate_year; eassumption. }
  destruct (isdigit arg0); [|discriminate].
  destruct (int_of_digits arg0) as [dd|]; cbn [bind]; [|discriminate].
  destruct (dict_get _ RU_MONTHS) as [mm|]; [|discriminate].
  destruct (mkdate (date_year today) mm dd) eqn:Ed; cbn [bind]; [|discriminate].
  intros [= <- _]. eapply mkdate_year; eassumption.
Qed.

Variable cfg : Config.

(** A sweep that counts nothing removed has kept every entry. *)
Lemma cleanup_loop_counts (items : list (str * str)) :
  forall (cleaned out : dict str) (removed removed' : Z),
    cleanup_loop items cfg today cleaned removed = Ok (out, removed') ->
    removed <= removed'
    /\ (removed' = removed ->
        Forall (fun kv => kept_by_code cfg today (fst kv)) items).
Proof.
  induction items as [|[k v] items IH]; intros cleaned out removed removed'; simpl.
  - intros [= _ <-]. split; [lia | constructor].
  - destruct (fromisoformat k) as [d|] eqn:Ek.
    + destruct (expiry_of_homework d cfg) as [e|] eqn:Ee; cbn [bind]; [|discriminate].
      destruct (e <? today) eqn:El; intros H; apply IH in H; destruct H as [Hle Hall].
      * split; [lia | intros ->; lia].
      * split; [exact Hle|]. intros Heq. constructor; [|now apply Hall].
        unfold kept_by_code. cbn [fst]. rewrite Ek. eauto.
    + intros H. apply IH in H. destruct H as [Hle Hall].
      split; [exact Hle|]. intros Heq. constructor; [|now apply Hall].
      unfold kept_by_code. cbn [fst]. now rewrite Ek.
Qed.

(** X27. After [homework_cleanup_job] has run on a map of distinct keys, the
    sweep at the start of a homework command on the same day finds nothing
    to remove: it loads the map the job left stored, as it is, and writes
    nothing; that map has distinct keys again. *)
Theorem homework_cleanup_job_settles (file file' : dict str) (removed : Z) :
  NoDup (dict_keys file) ->
  homework_cleanup_job cfg today file = Ok (file', removed) ->
  load_homework_clean cfg today file' = Ok (file', file')
  /\ NoDup (dict_keys file').
Proof.
  intros Hnd. unfold homework_cleanup_job.
  destruct (cleanup_homework_in_memory file cfg today) as [[hw2 r]|] eqn:Ec;
    cbn [bind]; [|discriminate].
  intros [= <- <-]. destruct (r =? 0) eqn:Er.
  - apply Z.eqb_eq in Er. subst r. split; [|exact Hnd].
    apply load_homework_clean_fixed; [exact Hnd|].
    unfold cleanup_homework_in_memory in Ec.
    now apply (cleanup_loop_counts _ _ _ _ _ Ec).
  - assert (El : load_homework_clean cfg today file = Ok (hw2, hw2)).
    { unfold load_homework_clean. rewrite Ec. cbn [bind]. now rewrite Er. }
    destruct (load_homework_clean_inv _ _ _ _ _ El) as (Hk & _ & Hnd2).
    split; [now apply load_homework_clean_fixed | exact Hnd2].
Qed.

(** White space, for [int], is no decimal digit of Basic Latin. *)
Lemma is_ascii_digit_facts (c : Z) :
  is_ascii_digit c = true ->
  is_int_space c = false /\ is_space c = false /\ (c =? 95) = false
  /\ (c =? 45) = false /\ (c =? 43) = false /\ ch_decimal c = Some (c - 48).
Proof.
  intros H.
  assert (Hb : basic_cp c = true) by (revert H; unfold is_ascii_digit, basic_cp; lia).
  rewrite (ch_decimal_basic c Hb). unfold ascii_digit.
  unfold is_ascii_digit in H. rewrite H.
  revert H. unfold is_int_space, is_space. repeat split; lia.
Qed.

Lemma int_body_digits (ds : str) :
  forallb is_ascii_digit ds = true ->
  forall (b : bool) (acc : Z) (n : nat),
    ds <> [] \/ b = true ->
    int_body ds b acc n
    = Some (fold_left (fun a c => a * 10 + (c - 48)) ds acc, (n + length ds)%nat).
Proof.
  induction ds as [|c ds IH]; intros H b acc n Hne.
  - destruct Hne as [Hne| ->]; [contradiction|]. simpl. now rewrite Nat.add_0_r.
  - simpl in H. apply andb_true_iff in H. destruct H as [Hc H].
    destruct (is_ascii_digit_facts c Hc) as (_ & Hs & Hu & _ & _ & Hd).
    cbn [int_body]. rewrite Hu, Hs, Hd.
    rewrite (IH H true) by now right. cbn [fold_left length].
    now rewrite Nat.add_succ_r.
Qed.

Lemma lstrip_int_digits (ds : str) :
  match ds with c :: _ => is_int_space c = false | [] => True end ->
  lstrip_int ds = ds.
Proof. destruct ds as [|c ds]; simpl; [reflexivity|]. now intros ->. Qed.

Lemma strip_int_clean (s : str) :
  (forall c, In c s -> is_int_space c = false) -> strip_int s = s.
Proof.
  intros Hall. unfold strip_int. rewrite (lstrip_int_digits s).
  - rewrite lstrip_int_digits; [apply rev_involutive|].
    destruct (rev s) as [|c r] eqn:Er; [exact I|].
    apply Hall, in_rev. rewrite Er. now left.
  - destruct s as [|c s']; [exact I|]. apply Hall. now left.
Qed.

Lemma strip_int_digits (ds : str) :
  forallb is_ascii_digit ds = true ->
  strip_int ds = ds /\ strip_int (45 :: ds) = 45 :: ds.
Proof.
  intros H.
  assert (Hall : forall c, In c ds -> is_int_space c = false).
  { intros c Hc. rewrite forallb_forall in H. now apply is_ascii_digit_facts, H. }
  split; apply strip_int_clean; [exact Hall|].
  intros c [<-|Hc]; [reflexivity | now apply Hall].
Qed.

(** X28. [/dz_list N] with [N] written in the digits 0 to 9 asks for
    [max(1, min(N, 50))] lines, so [0] asks for one line and a large number
    for fifty; with a minus sign in front it asks for one line; with no
    argument for ten; and an empty word, or one that is only a sign, is
    answered by the usage line. *)
Theorem lines_asked_plain_number (ds : str) (more : list str) :
  forallb is_ascii_digit ds = true ->
  (1 <= length ds <= 4300)%nat ->
  lines_asked (ds :: more) = Some (Z.max 1 (Z.min (digits_value ds) 50))
  /\ lines_asked ((45 :: ds) :: more) = Some 1
  /\ lines_asked [] = Some 10
  /\ lines_asked ([] :: more) = None
  /\ lines_asked ([45] :: more) = None.
Proof.
  intros Hds [H1 H2].
  assert (Hne : ds <> []) by (destruct ds; [simpl in H1; lia | discriminate]).
  assert (Hbody : int_body ds false 0 0 = Some (digits_value ds, length ds)).
  { rewrite (int_body_digits ds Hds false 0 0) by now left. reflexivity. }
  assert (Hlim : (MAX_STR_DIGITS <? length ds)%nat = false)
    by (apply Nat.ltb_ge; unfold MAX_STR_DIGITS; lia).
  assert (Hnonneg : 0 <= digits_value ds).
  { unfold digits_value.
    enough (Hg : forall acc, 0 <= acc ->
               0 <= fold_left (fun a c => a * 10 + (c - 48)) ds acc) by (apply Hg; lia).
    clear -Hds. induction ds as [|c ds IH]; intros acc Hacc; simpl; [exact Hacc|].
    simpl in Hds. apply andb_true_iff in Hds. destruct Hds as [Hc Hds].
    apply IH; [exact Hds|]. unfold is_ascii_digit in Hc. lia. }
  split; [|split; [|split; [reflexivity|split]]].
  - unfold lines_asked, py_int. rewrite (proj1 (strip_int_digits ds Hds)).
    destruct ds as [|c ds'] eqn:Eds; [contradiction|].
    assert (Hc : is_ascii_digit c = true)
      by (simpl in Hds; apply andb_true_iff in Hds; tauto).
    destruct (is_ascii_digit_facts c Hc) as (_ & _ & _ & H45 & H43 & _).
    rewrite H45, H43, Hbody, Hlim. reflexivity.
  - unfold lines_asked, py_int. rewrite (proj2 (strip_int_digits ds Hds)).
    rewrite Z.eqb_refl, Hbody, Hlim. f_equal. lia.
  - unfold lines_asked, py_int. reflexivity.
  - unfold lines_asked, py_int. reflexivity.
Qed.

End ParsedDates.

(** [/dz 10.09 essay] on 2024-09-04. *)
Lemma parse_date_and_consumed_consumes_witness :
  valid_date (ymd2ord 2024 9 10)
  /\ (1 = 1 \/ 1 = 2)
  /\ (Z.to_nat 1 <= length [lit "10.09"; lit "essay"])%nat
  /\ parse_date_and_consumed (py := basic_pylib) (ymd2ord 2024 9 4)
       (firstn (Z.to_nat 1) [lit "10.09"; lit "essay"])
     = Ok (Some (ymd2ord 2024 9 10, 1)).
Proof.
  apply (parse_date_and_consumed_consumes (py := basic_pylib) (ymd2ord 2024 9 4)
           [lit "10.09"; lit "essay"]).
  vm_compute. reflexivity.
Defined.

(** [/dz 01.02 old] on 2024-09-04 means the first of February 2024. *)
Lemma parse_date_in_current_year_witness :
  date_year (ymd2ord 2024 2 1) = date_year (ymd2ord 2024 9 4).
Proof.
  apply (parse_date_in_current_year (py := basic_pylib) (ymd2ord 2024 9 4)
           (lit "01.02") [lit "old"] (ymd2ord 2024 2 1) 1).
  - apply no_word_rule_of_bools; vm_compute; reflexivity.
  - vm_compute. reflexivity.
Defined.

(** The job on a map with an expired entry, and on one where nothing has
    expired. *)
Lemma homework_cleanup_job_settles_witness :
  (load_homework_clean (py := basic_pylib) default_config (ymd2ord 2024 9 16)
     [(lit "note", lit "x"); (lit "2024-09-02", lit "p. 14")]
   = Ok ([(lit "note", lit "x"); (lit "2024-09-02", lit "p. 14")],
         [(lit "note", lit "x"); (lit "2024-09-02", lit "p. 14")])
   /\ NoDup (dict_keys [(lit "note", lit "x"); (lit "2024-09-02", lit "p. 14")]))
  /\ (load_homework_clean (py := basic_pylib) default_config (ymd2ord 2024 9 3)
        [(lit "2024-09-01", lit "p. 12"); (lit "note", lit "x")]
      = Ok ([(lit "2024-09-01", lit "p. 12"); (lit "note", lit "x")],
            [(lit "2024-09-01", lit "p. 12"); (lit "note", lit "x")])
      /\ NoDup (dict_keys [(lit "2024-09-01", lit "p. 12"); (lit "note", lit "x")])).
Proof.
  split.
  - apply (homework_cleanup_job_settles (py := basic_pylib) (ymd2ord 2024 9 16)
             default_config
             [(lit "2024-09-01", lit "p. 12"); (lit "note", lit "x");
              (lit "2024-09-02", lit "p. 14")] _ 1).
    + repeat constructor; vm_compute; intuition discriminate.
    + vm_compute. reflexivity.
  - apply (homework_cleanup_job_settles (py := basic_pylib) (ymd2ord 2024 9 3)
             default_config
             [(lit "2024-09-01", lit "p. 12"); (lit "note", lit "x")] _ 0).
    + repeat constructor; vm_compute; intuition discriminate.
    + vm_compute. reflexivity.
Defined.

(** [/dz_list 0], [/dz_list 1000], [/dz_list -3]. *)
Lemma lines_asked_plain_number_witness :
  lines_asked (py := basic_pylib) [lit "0"] = Some 1
  /\ lines_asked (py := basic_pylib) [lit "1000"] = Some 50
  /\ lines_asked (py := basic_pylib) [lit "-3"] = Some 1.
Proof.
  split; [|split].
  - apply (lines_asked_plain_number (py := basic_pylib) (lit "0") [] eq_refl).
    simpl. lia.
  - apply (lines_asked_plain_number (py := basic_pylib) (lit "1000") [] eq_refl).
    simpl. lia.
  - apply (lines_asked_plain_number (py := basic_pylib) (lit "3") [] eq_refl).
    simpl. lia.
Defined.

(* ================================================================== *)
(** ** The count of the onboarding dialog *)

Section Onboarding.
Context {py : PyLib}.

Lemma st_add_students_keeps_invariant (st : Store) (o : Outcome) (t : str) :
  onboarding_invariant st o ->
  onboarding_invariant st (then_text st_add_students t o).
Proof.
  intros (added & Hd & Hc & Hs & H1 & H2 & H3 & H4 & H5).
  unfold then_text, st_add_students. cbn [text_update message_text].
  rewrite normalize_username_input_strip.
  destruct (normalize_username_input_cases t)
    as [E|[(w & E & Ew)|(E & Hr & Ew)]]; rewrite E; cbv beta iota;
    try rewrite Ew; cbn [out_state out_data out_store out_sent];
    try (exists added; rewrite H5; repeat split; assumption).
  exists (added ++ [duty_entry_from_username (lit "@" ++ handle_of t)]).
  cbn [out_state out_data out_store out_sent duty_file settings_file schedule_file
       homework_file jokes_file students_added].
  rewrite Hd, Hc, H5, <- app_assoc.
  repeat split; try assumption.
  - f_equal. rewrite length_app. simpl length. lia.
  - apply Forall_app. split; [assumption|]. repeat constructor.
    now apply duty_entry_shape.
Qed.

(** X29. The number the onboarding dialog reports at its end is the number
    of entries it has added: whatever texts are sent, the session counts
    exactly the entries appended to the roster since the dialog was entered,
    each of the shape [name, @name]; the former entries stay in front, and
    no other record is written. *)
Theorem add_students_dialog_counts (texts : list str) (ud : UserData) (st : Store) :
  exists added : list str,
    duty_file (out_store (add_students_dialog texts ud st)) = duty_file st ++ added
    /\ students_added (out_data (add_students_dialog texts ud st))
       = Some (Z.of_nat (length added))
    /\ Forall entry_shape added
    /\ settings_file (out_store (add_students_dialog texts ud st)) = settings_file st
    /\ schedule_file (out_store (add_students_dialog texts ud st)) = schedule_file st
    /\ homework_file (out_store (add_students_dialog texts ud st)) = homework_file st
    /\ jokes_file (out_store (add_students_dialog texts ud st)) = jokes_file st
    /\ out_sent (add_students_dialog texts ud st) = [].
Proof.
  change (onboarding_invariant st (add_students_dialog texts ud st)).
  unfold add_students_dialog.
  set (o0 := {| out_state := ST_ADD_STUDENTS; out_data := menu_router_add_students ud;
                out_store := st; out_sent := [] |}).
  assert (H0 : onboarding_invariant st o0).
  { exists []. cbn. rewrite app_nil_r. repeat split; auto. }
  revert H0. generalize o0. clear o0.
  induction texts as [|t texts IH]; intros o Ho; cbn [fold_left]; [exact Ho|].
  apply IH. destruct (out_state o =? ST_ADD_STUDENTS); [|exact Ho].
  now apply st_add_students_keeps_invariant.
Qed.

End Onboarding.

(* ================================================================== *)
(** ** Cancelling a dialog *)

(** In any state of the menu conversation [/cancel] goes to the fallback. *)
Lemma menu_conv_cancel (s : Z) :
  conversation_callback menu_conv (Some s) (InCommand (lit "cancel"))
  = Some Cb_cmd_cancel.
Proof.
  unfold conversation_callback, state_handlers, menu_conv.
  cbn [states fallbacks find fst snd].
  repeat match goal with
  | |- context [?a =? s] => destruct (a =? s)
  end; reflexivity.
Qed.

Section Cancel.
Context {py : PyLib}.
Variables (fuel : nat) (cfg : Config) (today : date).

(** The menu opens the schedule dialog and the student dialog with their
    scratch keys set anew, whatever the session held. *)
Lemma menu_router_opens_fresh (update : Update) (ud : UserData) (st : Store)
  (r : MenuReply) (o : Outcome) :
  menu_router fuel cfg today update ud st = Some (Ok (r, o)) ->
  (out_state o = ST_EDIT_SCHEDULE ->
   schedule_step (out_data o) = Some 0%nat /\ schedule_buf (out_data o) = Some [])
  /\ (out_state o = ST_ADD_STUDENTS -> students_added (out_data o) = Some 0).
Proof.
  unfold menu_router. cbv zeta.
  destruct (cmd_test update _) as [[tr st'] sent].
  repeat match goal with
  | |- context [if ?b then _ else _] => destruct b
  | |- context [match cmd_duty ?f ?c ?d ?t with _ => _ end] =>
    destruct (cmd_duty f c d t) as [[?|?]|]
  end;
  intros H; try discriminate H; injection H as <- <-;
  cbn [out_state out_data menu_router_edit_schedule menu_router_add_students
       schedule_step schedule_buf students_added];
  (split; intros E; try discriminate E; auto).
Qed.

(** C7, as amended. From any state of the menu conversation [/cancel] is
    given to [cmd_cancel], after which the conversation is in the Menu
    state: the next text goes to [menu_router]. No stored record is written
    and nothing is sent. The schedule draft, the step counter and the
    student add-count are not discarded: they stay as they were, and the
    menu sets them anew when it opens the schedule or the student dialog.
    A schedule dialog cancelled after two of its five entries leaves the
    stored schedule, and every other record, as before the dialog. *)
Theorem cmd_cancel_in_menu_conversation
  (s : Z) (si_state : option Z) (update : Update) (ud : UserData) (st : Store) :
  let o := cmd_cancel update ud st in
  app_conversation (Some s) si_state (InCommand (lit "cancel"))
  = Some (MenuConv, Cb_cmd_cancel)
  /\ conversation_after (out_state o) = Some ST_MENU
  /\ app_conversation (conversation_after (out_state o)) si_state InText
     = Some (MenuConv, Cb_menu_router)
  /\ out_store o = st /\ out_sent o = []
  /\ schedule_step (out_data o) = schedule_step ud
  /\ schedule_buf (out_data o) = schedule_buf ud
  /\ students_added (out_data o) = students_added ud
  /\ (forall (next : Update) (r : MenuReply) (o' : Outcome),
        menu_router fuel cfg today next (out_data o) (out_store o) = Some (Ok (r, o')) ->
        (out_state o' = ST_EDIT_SCHEDULE ->
         schedule_step (out_data o') = Some 0%nat
         /\ schedule_buf (out_data o') = Some [])
        /\ (out_state o' = ST_ADD_STUDENTS ->
            students_added (out_data o') = Some 0))
  /\ (forall t1 t2 : str,
        let entered := then_text st_edit_schedule t2
                         (then_text st_edit_schedule t1
                            (schedule_dialog_entered ud st)) in
        let cancelled := then_text cmd_cancel (message_text update) entered in
        out_state entered = ST_EDIT_SCHEDULE
        /\ conversation_after (out_state cancelled) = Some ST_MENU
        /\ schedule_file (out_store cancelled) = schedule_file st
        /\ out_store cancelled = st
        /\ out_sent cancelled = []).
Proof.
  cbv zeta. split.
  { unfold app_conversation. now rewrite menu_conv_cancel. }
  split; [reflexivity|]. split; [reflexivity|].
  do 5 (split; [reflexivity|]).
  split.
  - intros next r o'. apply menu_router_opens_fresh.
  - intros t1 t2. lazy -[strip]. repeat split; reflexivity.
Qed.

End Cancel.

(** C7 as stated fails, in two ways. The schedule dialog entered from an
    empty session, given two entries and cancelled, leaves a session that is
    not empty: it holds the step counter and the two-entry draft. And for a
    user who is in the photo dialog only, at the state that waits for the
    text, [/cancel] is given to [cmd_cancel] by the photo conversation,
    where the state it returns is [SI_CHAT]: the dialog is not over, the
    next text goes to [st_si_chat], and the broadcast target and the photo
    path are still in the session. *)
Lemma cmd_cancel_keeps_scratch_data :
  (let o := then_text cmd_cancel (lit "/cancel")
              (then_text (st_edit_schedule (py := basic_pylib)) (lit "history")
                 (then_text (st_edit_schedule (py := basic_pylib)) (lit "maths")
                    (schedule_dialog_entered user_data_empty
                       {| settings_file := settings_default; schedule_file := [];
                          duty_file := []; homework_file := []; jokes_file := [] |}))) in
   out_data o
   = {| students_added := None; schedule_step := Some 2%nat;
        schedule_buf := Some [(lit "Понедельник", lit "maths");
                              (lit "Вторник", lit "history")];
        si_chat_id := None; si_photo_path := None |}
   /\ user_data_is_empty (out_data o) = false)
  /\ (let ud := si_session (-1001234567890) (lit "tmp_uploads/si_7_1725430000.jpg") in
      let o := cmd_cancel (text_update (lit "/cancel")) ud
                 {| settings_file := {| chat_id := None; admins := [lit "@admin"] |};
                    schedule_file := []; duty_file := []; homework_file := [];
                    jokes_file := [] |} in
      app_conversation None (Some SI_TEXT) (InCommand (lit "cancel"))
      = Some (SiConv, Cb_cmd_cancel)
      /\ conversation_after (out_state o) = Some SI_CHAT
      /\ app_conversation None (conversation_after (out_state o)) InText
         = Some (SiConv, Cb_st_si_chat)
      /\ si_chat_id (out_data o) = Some (-1001234567890)
      /\ si_photo_path (out_data o) = Some (lit "tmp_uploads/si_7_1725430000.jpg")
      /\ user_data_is_empty (out_data o) = false).
Proof. cbv zeta. repeat split; vm_compute; reflexivity. Qed.
